(** * Telemorph-Prime Kafka consumer test: a shallow embedding of
      [kafka-consumer-test.py] and the properties of its consume loop and
      of its envelope analyzers.

    Conventions of the embedding.

    - A Python value decoded by [json.loads] is a [json] term.  A Python
      [dict] is an association list in insertion order, looked up from the
      front; a [str] is a [string], one [ascii] standing for one character.
    - The dynamically typed operations the script applies to decoded values
      ([k in v], [v[k]], [v.get(k, d)], [len(v)], [v[:n]], iteration) are
      total functions into [outcome], returning the exception Python raises
      on an operand of the wrong type.
    - Every [print] statement of the script is one constructor of [event]
      carrying the values interpolated into the line.  The text of a line is
      given for the span line of line 79 on string fields ([rendered]); the
      rendering of other values ([str] of a list, of a number) is not
      modelled.
    - The broker is outside the script.  The iterator returned by
      [KafkaConsumer] is a [source]: the list of the answers its successive
      [next()] calls give.  When the list is used up the broker is idle and
      [next()] never returns (kafka-python's default [consumer_timeout_ms] is
      infinite).
    - [time.time()] is an input: the reading at line 118 is [start_time] and
      the reading at line 122 comes with the record fetched just before.
      Readings are rationals (seconds); float rounding is not modelled.
    - A user interrupt is delivered while the loop waits in [next()]: it is
      an answer of the source.
    - [json.dumps] does not raise on a decoded value.  Whether
      [datetime.fromtimestamp] converts a timestamp depends on the platform:
      a timestamp comes with what the conversion of line 47 does on it
      ([stamp]). *)

From Stdlib Require Import List String Ascii Bool ZArith QArith Lia Lqa.
Import ListNotations.
Local Open Scope string_scope.
Local Open Scope Z_scope.
Local Open Scope list_scope.

Set Implicit Arguments.
Set Warnings "-register-all".

(** ** Python exceptions and results *)

Inductive exn : Type :=
| KeyboardInterrupt      (* BaseException, not an Exception *)
| SystemExit             (* BaseException, not an Exception *)
| KafkaError
| JSONDecodeError
| UnicodeDecodeError
| TypeError
| KeyError
| AttributeError
| ValueError
| OverflowError
| OSError.

(** [isinstance(e, Exception)], the test of [except Exception] (line 148). *)
Definition is_Exception (e : exn) : bool :=
  match e with
  | KeyboardInterrupt | SystemExit => false
  | _ => true
  end.

Inductive outcome (A : Type) : Type :=
| Ok (a : A)
| Raise (e : exn).
Arguments Ok {A} a.
Arguments Raise {A} e.

(** ** Decoded JSON values *)

Inductive json : Type :=
| JNull
| JBool (b : bool)
| JInt (n : Z)
| JFloat (q : Q)
| JStr (s : string)
| JArr (xs : list json)
| JObj (kvs : list (string * json)).

Module Py.

(** First binding of [k] in an insertion-ordered dict. *)
Fixpoint lookup {V : Type} (k : string) (d : list (string * V)) : option V :=
  match d with
  | [] => None
  | (k', v) :: d' => if String.eqb k k' then Some v else lookup k d'
  end.

(** [d[k] = v]: overwrite in place, or append a new key at the end. *)
Fixpoint store {V : Type} (k : string) (v : V) (d : list (string * V))
  : list (string * V) :=
  match d with
  | [] => [(k, v)]
  | (k', v') :: d' =>
      if String.eqb k k' then (k', v) :: d' else (k', v') :: store k v d'
  end.

Definition keys {V : Type} (d : list (string * V)) : list string :=
  map fst d.

Definition values {V : Type} (d : list (string * V)) : list V :=
  map snd d.

(** [sum(xs)] on integers. *)
Definition sum (xs : list Z) : Z := fold_left Z.add xs 0.

(** [sub in s] for two strings. *)
Fixpoint substringb (sub s : string) : bool :=
  String.prefix sub s
  || match s with
     | EmptyString => false
     | String _ s' => substringb sub s'
     end.

Definition str_len (s : string) : Z := Z.of_nat (String.length s).

Definition chars (s : string) : list json :=
  map (fun c => JStr (String c EmptyString)) (list_ascii_of_string s).

(** Truth value of a decoded value ([if message.value:], line 138). *)
Definition truthy (v : json) : bool :=
  match v with
  | JNull => false
  | JBool b => b
  | JInt n => negb (n =? 0)
  | JFloat q => negb (Qeq_bool q 0)
  | JStr s => negb (String.eqb s "")
  | JArr xs => match xs with [] => false | _ => true end
  | JObj kvs => match kvs with [] => false | _ => true end
  end.

Definition is_str (k : string) (v : json) : bool :=
  match v with
  | JStr s => String.eqb k s
  | _ => false
  end.

(** [k in v] with [k] a string literal. *)
Definition contains (k : string) (v : json) : outcome bool :=
  match v with
  | JObj kvs => Ok (match lookup k kvs with Some _ => true | None => false end)
  | JArr xs => Ok (existsb (is_str k) xs)
  | JStr s => Ok (substringb k s)
  | JNull | JBool _ | JInt _ | JFloat _ => Raise TypeError
  end.

(** [v[k]] with [k] a string literal. *)
Definition getitem (v : json) (k : string) : outcome json :=
  match v with
  | JObj kvs => match lookup k kvs with Some x => Ok x | None => Raise KeyError end
  | _ => Raise TypeError
  end.

(** [v.get(k, d)]. *)
Definition get (v : json) (k : string) (d : json) : outcome json :=
  match v with
  | JObj kvs => Ok (match lookup k kvs with Some x => x | None => d end)
  | _ => Raise AttributeError
  end.

(** The items a [for] statement draws from [v]. *)
Definition iter (v : json) : outcome (list json) :=
  match v with
  | JArr xs => Ok xs
  | JObj kvs => Ok (map JStr (keys kvs))
  | JStr s => Ok (chars s)
  | JNull | JBool _ | JInt _ | JFloat _ => Raise TypeError
  end.

(** [len(v)]. *)
Definition len (v : json) : outcome Z :=
  match v with
  | JArr xs => Ok (Z.of_nat (List.length xs))
  | JObj kvs => Ok (Z.of_nat (List.length kvs))
  | JStr s => Ok (str_len s)
  | JNull | JBool _ | JInt _ | JFloat _ => Raise TypeError
  end.

(** [v[:n]].  Slicing a dict raises (TypeError up to Python 3.11). *)
Definition slice_to (n : nat) (v : json) : outcome json :=
  match v with
  | JStr s => Ok (JStr (String.substring 0 n s))
  | JArr xs => Ok (JArr (firstn n xs))
  | _ => Raise TypeError
  end.

End Py.

(** ** Records on the bus *)

(** A header key or value: an object on which [.decode()] (line 57) gives a
    string, or raises ([UnicodeDecodeError] on bytes that are not UTF-8,
    [AttributeError] on an object that is not bytes). *)
Inductive hfield : Type :=
| Decodes (s : string)
| DecodeRaises (e : exn).

(** The raw value of a record, as handed to the [value_deserializer]. *)
Inductive wire : Type :=
| WAbsent                (* None or b'': falsy *)
| WJson (j : json)       (* non-empty bytes, the UTF-8 JSON text of [j] *)
| WBad (e : exn).        (* non-empty bytes on which decode/json.loads raises *)

(** A timestamp in milliseconds with what [datetime.fromtimestamp]
    (line 47) does on it: it converts it, or it raises (ValueError for a
    year outside 1..9999, OverflowError or OSError outside the range of the
    platform's [localtime]). *)
Inductive stamp : Type :=
| Converts (ms : Z)
| ConvertRaises (ms : Z) (e : exn).

Definition millis (s : stamp) : Z :=
  match s with
  | Converts ms => ms
  | ConvertRaises ms _ => ms
  end.

(** The fields of a [ConsumerRecord] the script reads. *)
Record record (V : Type) : Type := mkRecord {
  topic : string;
  partition : Z;
  offset : Z;
  timestamp : option stamp;        (* None is Python's None *)
  headers : list (hfield * hfield);
  value : V
}.

Definition message : Type := record json.

(** One answer of [next()] on the consumer. *)
Inductive pull : Type :=
| Fetch (r : record wire) (now : Q)  (* a record; [now] is read at line 122 *)
| Fails (e : exn)                    (* [next()] raises *)
| Exhausted.                         (* StopIteration *)

Definition source : Type := list pull.

(** ** The consumer object and the lines it prints *)

Inductive analyzer : Type := Traces | Metrics | Logs.

Inductive event : Type :=
(* connect *)
| OutConnected (brokers : list string)                    (* line 36 *)
| OutConnectFailed (e : exn)                              (* line 39 *)
(* print_message_info *)
| OutTopic (topic : string)                               (* line 49 *)
| OutPartitionOffset (partition offset : Z)               (* line 50 *)
| OutTimestamp (ts : option Z)                            (* line 51; None is "N/A" *)
| OutHeaders                                              (* line 55 *)
| OutHeader (key val : string)                            (* line 57 *)
| OutValue (value_str : string)                           (* line 64 *)
(* analyzers *)
| OutTraceAnalysis                                        (* line 69 *)
| OutFoundSpans (n : Z)                                   (* line 74 *)
| OutSpan (name trace_id8 span_id8 : json)                (* line 79 *)
| OutMetricsAnalysis                                      (* line 84 *)
| OutFoundMetrics (n : Z)                                 (* line 89 *)
| OutMetric (name : json)                                 (* line 92 *)
| OutLogsAnalysis                                         (* line 97 *)
| OutFoundLogRecords (n : Z)                              (* line 102 *)
| OutLogRecord (severity body50 : json)                   (* line 106 *)
(* consume_messages *)
| OutNotConnected                                         (* line 111 *)
| OutConsuming (max_messages timeout : Z)                 (* line 114 *)
| OutPressCtrlC                                           (* line 115 *)
| OutTimeoutReached (timeout : Z)                         (* line 123 *)
| OutMaxReached (max_messages : Z)                        (* line 127 *)
| OutRule (leading_newline : bool)                        (* lines 133, 155, 157 *)
| OutMessageNumber (n : Z)                                (* line 134 *)
| OutStoppedByUser                                        (* line 147 *)
| OutErrorConsuming (e : exn)                             (* line 149 *)
(* print_summary *)
| OutSummaryTitle                                         (* line 156 *)
| OutTotal (total_messages : Z)                           (* line 160 *)
| OutTopicCount (topic : string) (count : Z)              (* line 163 *)
| OutIngestionWorking                                     (* line 166 *)
| OutMessagesBeingSent                                    (* line 167 *)
| OutStructureValid                                       (* line 168 *)
| OutReadyForPhase2                                       (* line 169 *)
| OutNoMessagesReceived                                   (* line 171 *)
| OutCheckServiceRunning                                  (* line 172 *)
| OutCheckTestData                                        (* line 173 *)
| OutCheckConnectivity                                    (* line 174 *)
(* close *)
| OutDisconnected                                         (* line 180 *)
(* not printed: the call of an analyzer at line 140, 142 or 144, on the
   message the loop numbered [n] *)
| CallAnalyzer (which : analyzer) (n : Z).

(** The attributes of [TelemetryConsumer] (lines 20-23). *)
Record TelemetryConsumer : Type := mkConsumer {
  brokers : list string;
  topics : list string;
  consumer : option source;
  message_counts : list (string * Z)
}.

(** ** Methods: state, printed lines and exceptions

    A method maps the object to its result, the object afterwards and the
    lines printed meanwhile.  What was printed and stored before an
    exception stays printed and stored. *)

Definition M (A : Type) : Type :=
  TelemetryConsumer -> outcome A * TelemetryConsumer * list event.

Definition ret {A : Type} (a : A) : M A := fun self => (Ok a, self, []).

Definition bind {A B : Type} (c : M A) (k : A -> M B) : M B :=
  fun self =>
    match c self with
    | (Ok a, self1, out1) =>
        match k a self1 with
        | (r, self2, out2) => (r, self2, out1 ++ out2)
        end
    | (Raise e, self1, out1) => (Raise e, self1, out1)
    end.

Definition lift {A : Type} (r : outcome A) : M A := fun self => (r, self, []).

Definition print (ev : event) : M unit := fun self => (Ok tt, self, [ev]).

Definition when (b : bool) (c : M unit) : M unit := if b then c else ret tt.

Declare Scope py_scope.
Delimit Scope py_scope with py.
Notation "x <- c ;; k" := (bind c (fun x => k))
  (at level 61, c at next level, right associativity) : py_scope.
Notation "c ;; k" := (bind c (fun _ => k))
  (at level 61, right associativity) : py_scope.
Local Open Scope py_scope.

(** [for x in xs: body x]. *)
Fixpoint for_each {A : Type} (xs : list A) (body : A -> M unit) : M unit :=
  match xs with
  | [] => ret tt
  | x :: xs' => body x ;; for_each xs' body
  end.

(** ** EnvelopeAnalyzer (lines 66-106) *)

Definition analyze_traces (data : json) : M unit :=
  has <- lift (Py.contains "resourceSpans" data) ;;
  when has (
    print OutTraceAnalysis ;;
    groups <- lift (Py.getitem data "resourceSpans") ;;
    resource_spans <- lift (Py.iter groups) ;;
    for_each resource_spans (fun resource_span =>
      has <- lift (Py.contains "scopeSpans" resource_span) ;;
      when has (
        scopes <- lift (Py.getitem resource_span "scopeSpans") ;;
        scope_spans <- lift (Py.iter scopes) ;;
        for_each scope_spans (fun scope_span =>
          has <- lift (Py.contains "spans" scope_span) ;;
          when has (
            found <- lift (Py.getitem scope_span "spans") ;;
            n <- lift (Py.len found) ;;
            print (OutFoundSpans n) ;;
            records <- lift (Py.getitem scope_span "spans") ;;
            spans <- lift (Py.iter records) ;;
            for_each spans (fun span =>
              name <- lift (Py.get span "name" (JStr "Unknown")) ;;
              trace_id <- lift (Py.get span "traceId" (JStr "Unknown")) ;;
              span_id <- lift (Py.get span "spanId" (JStr "Unknown")) ;;
              trace_id8 <- lift (Py.slice_to 8 trace_id) ;;
              span_id8 <- lift (Py.slice_to 8 span_id) ;;
              print (OutSpan name trace_id8 span_id8))))))).

Definition analyze_metrics (data : json) : M unit :=
  has <- lift (Py.contains "resourceMetrics" data) ;;
  when has (
    print OutMetricsAnalysis ;;
    groups <- lift (Py.getitem data "resourceMetrics") ;;
    resource_metrics <- lift (Py.iter groups) ;;
    for_each resource_metrics (fun resource_metric =>
      has <- lift (Py.contains "scopeMetrics" resource_metric) ;;
      when has (
        scopes <- lift (Py.getitem resource_metric "scopeMetrics") ;;
        scope_metrics <- lift (Py.iter scopes) ;;
        for_each scope_metrics (fun scope_metric =>
          has <- lift (Py.contains "metrics" scope_metric) ;;
          when has (
            found <- lift (Py.getitem scope_metric "metrics") ;;
            n <- lift (Py.len found) ;;
            print (OutFoundMetrics n) ;;
            records <- lift (Py.getitem scope_metric "metrics") ;;
            metrics <- lift (Py.iter records) ;;
            for_each metrics (fun metric =>
              name <- lift (Py.get metric "name" (JStr "Unknown")) ;;
              print (OutMetric name))))))).

Definition analyze_logs (data : json) : M unit :=
  has <- lift (Py.contains "resourceLogs" data) ;;
  when has (
    print OutLogsAnalysis ;;
    groups <- lift (Py.getitem data "resourceLogs") ;;
    resource_logs <- lift (Py.iter groups) ;;
    for_each resource_logs (fun resource_log =>
      has <- lift (Py.contains "scopeLogs" resource_log) ;;
      when has (
        scopes <- lift (Py.getitem resource_log "scopeLogs") ;;
        scope_logs <- lift (Py.iter scopes) ;;
        for_each scope_logs (fun scope_log =>
          has <- lift (Py.contains "logRecords" scope_log) ;;
          when has (
            found <- lift (Py.getitem scope_log "logRecords") ;;
            n <- lift (Py.len found) ;;
            print (OutFoundLogRecords n) ;;
            records <- lift (Py.getitem scope_log "logRecords") ;;
            log_records <- lift (Py.iter records) ;;
            for_each log_records (fun log_record =>
              severity <- lift (Py.get log_record "severityText" (JStr "Unknown")) ;;
              body_obj <- lift (Py.get log_record "body" (JObj [])) ;;
              body <- lift (Py.get body_obj "stringValue" (JStr "No message")) ;;
              body50 <- lift (Py.slice_to 50 body) ;;
              print (OutLogRecord severity body50))))))).

(** ** TelemetryConsumer: construction and connection *)

(** [{topic: 0 for topic in topics}] (line 23). *)
Definition zero_counts (topics : list string) : list (string * Z) :=
  fold_left (fun d topic => Py.store topic 0 d) topics [].

(** [__init__] (lines 19-23). *)
Definition init (brokers topics : list string) : TelemetryConsumer :=
  mkConsumer brokers topics None (zero_counts topics).

Definition set_consumer (c : option source) (self : TelemetryConsumer)
  : TelemetryConsumer :=
  mkConsumer (brokers self) (topics self) c (message_counts self).

Definition set_message_counts (d : list (string * Z)) (self : TelemetryConsumer)
  : TelemetryConsumer :=
  mkConsumer (brokers self) (topics self) (consumer self) d.

(** [connect] (lines 25-40).  [attempt] is what the [KafkaConsumer]
    constructor does: it returns the iterator or raises. *)
Definition connect (attempt : outcome source) : M bool :=
  fun self =>
    match attempt with
    | Ok src => (Ok true, set_consumer (Some src) self, [OutConnected (brokers self)])
    | Raise KafkaError => (Ok false, self, [OutConnectFailed KafkaError])
    | Raise e => (Raise e, self, [])
    end.

(** The lambda of line 34. *)
Definition value_deserializer (x : wire) : outcome json :=
  match x with
  | WAbsent => Ok JNull
  | WJson j => Ok j
  | WBad e => Raise e
  end.

(** The consumer deserializes the value of a fetched record before it
    yields the record, so an exception of the lambda of line 34 is raised
    by the [for] statement of line 121. *)
Definition deserialize (r : record wire) : outcome message :=
  match value_deserializer (value r) with
  | Ok v =>
      Ok (mkRecord (topic r) (partition r) (offset r) (timestamp r) (headers r) v)
  | Raise e => Raise e
  end.

Definition decode (f : hfield) : outcome string :=
  match f with
  | Decodes s => Ok s
  | DecodeRaises e => Raise e
  end.

(** [a > b] on clock readings. *)
Definition Qgtb (a b : Q) : bool := negb (Qle_bool a b).

(** ** How a run of the loop ends *)

Inductive loop_exit : Type :=
| BreakTimeout           (* line 124 *)
| BreakMax               (* line 128 *)
| IterExhausted          (* the iterator raised StopIteration *)
| Raised (e : exn)       (* an exception left the [for] statement *)
| NeverReturns.          (* [next()] blocks for ever *)

Record loop_result : Type := mkLoop {
  exit : loop_exit;
  remaining : source;              (* what was not pulled from the iterator *)
  final_count : Z;                 (* the local [message_count] at the exit *)
  self_after : TelemetryConsumer;
  emitted : list event
}.

Definition emit_before (out : list event) (r : loop_result) : loop_result :=
  mkLoop (exit r) (remaining r) (final_count r) (self_after r) (out ++ emitted r).

(** The stop reasons of the specification, as the exits of the loop. *)
Inductive stop_reason : Type :=
| MaxMessagesReached
| TimeoutReached
| UserInterrupt
| SourceExhausted
| SourceError.

Definition stop_reason_of (x : loop_exit) : option stop_reason :=
  match x with
  | BreakTimeout => Some TimeoutReached
  | BreakMax => Some MaxMessagesReached
  | IterExhausted => Some SourceExhausted
  | Raised KeyboardInterrupt => Some UserInterrupt
  | Raised e => if is_Exception e then Some SourceError else None
  | NeverReturns => None
  end.

(** How a call of [consume_messages] ends. *)
Inductive completion : Type :=
| Returned
| Propagated (e : exn)
| Hangs.

Section Consumer.

(** [json.dumps(v, indent=2)], a library function. *)
Variable dumps : json -> string.

(** Line 47: [datetime.fromtimestamp(message.timestamp / 1000) if
    message.timestamp else "N/A"]; [None] is "N/A". *)
Definition shown_timestamp (t : option stamp) : outcome (option Z) :=
  match t with
  | Some s =>
      if millis s =? 0 then Ok None
      else match s with
           | Converts ms => Ok (Some ms)
           | ConvertRaises _ e => Raise e
           end
  | None => Ok None
  end.

(** [print_message_info] (lines 42-64). *)
Definition print_message_info (message : message) : M unit :=
  ts <- lift (shown_timestamp (timestamp message)) ;;
  print (OutTopic (topic message)) ;;
  print (OutPartitionOffset (partition message) (offset message)) ;;
  print (OutTimestamp ts) ;;
  when (match headers message with [] => false | _ => true end) (
    print OutHeaders ;;
    for_each (headers message) (fun kv =>
      key <- lift (decode (fst kv)) ;;
      val <- lift (decode (snd kv)) ;;
      print (OutHeader key val))) ;;
  when (Py.truthy (value message)) (
    let value_str := dumps (value message) in
    let value_str :=
      if 500 <? Py.str_len value_str
      then (String.substring 0 500 value_str ++ "... (truncated)")%string
      else value_str in
    print (OutValue value_str)).

(** [self.message_counts[message.topic] += 1] (line 130). *)
Definition count_message (message : message) : M unit :=
  fun self =>
    match Py.lookup (topic message) (message_counts self) with
    | None => (Raise KeyError, self, [])
    | Some c =>
        (Ok tt,
         set_message_counts
           (Py.store (topic message) (c + 1) (message_counts self)) self,
         [])
    end.

(** Lines 138-144. *)
Definition dispatch (message : message) (message_count : Z) : M unit :=
  when (Py.truthy (value message)) (
    if String.eqb (topic message) "otel.traces" then
      print (CallAnalyzer Traces message_count) ;;
      analyze_traces (value message)
    else if String.eqb (topic message) "otel.metrics" then
      print (CallAnalyzer Metrics message_count) ;;
      analyze_metrics (value message)
    else if String.eqb (topic message) "otel.logs" then
      print (CallAnalyzer Logs message_count) ;;
      analyze_logs (value message)
    else ret tt).

(** Lines 133-144, with [message_count] already incremented. *)
Definition show_and_analyze (message : message) (message_count : Z) : M unit :=
  print (OutRule true) ;;
  print (OutMessageNumber message_count) ;;
  print_message_info message ;;
  dispatch message message_count.

(** The [for] statement of lines 121-144. *)
Fixpoint for_message (max_messages timeout : Z) (start_time : Q)
    (src : source) (message_count : Z) (self : TelemetryConsumer)
    {struct src} : loop_result :=
  match src with
  | [] => mkLoop NeverReturns [] message_count self []
  | Exhausted :: rest => mkLoop IterExhausted rest message_count self []
  | Fails e :: rest => mkLoop (Raised e) rest message_count self []
  | Fetch r now :: rest =>
      match deserialize r with
      | Raise e => mkLoop (Raised e) rest message_count self []
      | Ok message =>
          if Qgtb (now - start_time) (inject_Z timeout) then
            mkLoop BreakTimeout rest message_count self
                   [OutTimeoutReached timeout]
          else if max_messages <=? message_count then
            mkLoop BreakMax rest message_count self
                   [OutMaxReached max_messages]
          else
            match count_message message self with
            | (Raise e, self1, out1) =>
                mkLoop (Raised e) rest message_count self1 out1
            | (Ok _, self1, out1) =>
                let message_count := message_count + 1 in
                match show_and_analyze message message_count self1 with
                | (Raise e, self2, out2) =>
                    mkLoop (Raised e) rest message_count self2 (out1 ++ out2)
                | (Ok _, self2, out2) =>
                    emit_before (out1 ++ out2)
                      (for_message max_messages timeout start_time
                                   rest message_count self2)
                end
            end
      end
  end.

(** The verdict lines of [print_summary] (lines 165-174). *)
Definition verdict_lines (total_messages : Z) : list event :=
  if 0 <? total_messages then
    [OutIngestionWorking; OutMessagesBeingSent; OutStructureValid;
     OutReadyForPhase2]
  else
    [OutNoMessagesReceived; OutCheckServiceRunning; OutCheckTestData;
     OutCheckConnectivity].

(** [print_summary] (lines 153-174). *)
Definition print_summary : M unit :=
  fun self =>
    let total_messages := Py.sum (Py.values (message_counts self)) in
    (Ok tt, self,
     [OutRule true; OutSummaryTitle; OutRule false; OutTotal total_messages]
     ++ map (fun tc => OutTopicCount (fst tc) (snd tc)) (message_counts self)
     ++ verdict_lines total_messages).

(** The handlers and the [finally] clause of lines 146-151. *)
Definition handlers (x : loop_exit) : completion * list event :=
  match x with
  | BreakTimeout | BreakMax | IterExhausted => (Returned, [])
  | Raised KeyboardInterrupt => (Returned, [OutStoppedByUser])
  | Raised e =>
      if is_Exception e then (Returned, [OutErrorConsuming e])
      else (Propagated e, [])
  | NeverReturns => (Hangs, [])
  end.

(** [consume_messages] (lines 108-151). *)
Definition consume_messages (max_messages timeout : Z) (start_time : Q)
    (self : TelemetryConsumer) : completion * TelemetryConsumer * list event :=
  match consumer self with
  | None => (Returned, self, [OutNotConnected])
  | Some src =>
      let banner := [OutConsuming max_messages timeout; OutPressCtrlC] in
      let r := for_message max_messages timeout start_time src 0 self in
      let self1 := set_consumer (Some (remaining r)) (self_after r) in
      match handlers (exit r) with
      | (Hangs, _) => (Hangs, self1, banner ++ emitted r)
      | (c, out) =>
          match print_summary self1 with
          | (_, self2, summary) =>
              (c, self2, banner ++ emitted r ++ out ++ summary)
          end
      end
  end.

(** [close] (lines 176-180). *)
Definition close : M unit :=
  fun self =>
    match consumer self with
    | Some _ => (Ok tt, self, [OutDisconnected])
    | None => (Ok tt, self, [])
    end.

End Consumer.

(** ** The session of [main] (lines 211-217) *)

Definition KAFKA_BROKERS : list string := ["localhost:9092"].
Definition TOPICS : list string := ["otel.traces"; "otel.metrics"; "otel.logs"].

(** [if consumer.connect(): consumer.consume_messages(...)], then [close()]
    in the [finally] clause. *)
Definition session (dumps : json -> string) (attempt : outcome source)
    (max_messages timeout : Z) (start_time : Q)
  : completion * TelemetryConsumer * list event :=
  match connect attempt (init KAFKA_BROKERS TOPICS) with
  | (Ok true, self1, out1) =>
      match consume_messages dumps max_messages timeout start_time self1 with
      | (Hangs, self2, out2) => (Hangs, self2, out1 ++ out2)
      | (c, self2, out2) =>
          match close self2 with
          | (_, self3, out3) => (c, self3, out1 ++ out2 ++ out3)
          end
      end
  | (Ok false, self1, out1) =>
      match close self1 with
      | (_, self3, out3) => (Returned, self3, out1 ++ out3)
      end
  | (Raise e, self1, out1) =>
      match close self1 with
      | (_, self3, out3) => (Propagated e, self3, out1 ++ out3)
      end
  end.

(** ** The three analyzers as one walk

    The analyzers differ in their keys, their lines and what they read of a
    record; [analyze] is their common shape. *)

Definition keys_of (which : analyzer) : string * string * string :=
  match which with
  | Traces => ("resourceSpans", "scopeSpans", "spans")
  | Metrics => ("resourceMetrics", "scopeMetrics", "metrics")
  | Logs => ("resourceLogs", "scopeLogs", "logRecords")
  end.

Definition resource_key (which : analyzer) : string := fst (fst (keys_of which)).
Definition scope_key (which : analyzer) : string := snd (fst (keys_of which)).
Definition record_key (which : analyzer) : string := snd (keys_of which).

Definition title_of (which : analyzer) : event :=
  match which with
  | Traces => OutTraceAnalysis
  | Metrics => OutMetricsAnalysis
  | Logs => OutLogsAnalysis
  end.

Definition found_of (which : analyzer) (n : Z) : event :=
  match which with
  | Traces => OutFoundSpans n
  | Metrics => OutFoundMetrics n
  | Logs => OutFoundLogRecords n
  end.

(** The innermost loop body: lines 76-79, 91-92 and 104-106. *)
Definition record_body (which : analyzer) (rec : json) : M unit :=
  match which with
  | Traces =>
      name <- lift (Py.get rec "name" (JStr "Unknown")) ;;
      trace_id <- lift (Py.get rec "traceId" (JStr "Unknown")) ;;
      span_id <- lift (Py.get rec "spanId" (JStr "Unknown")) ;;
      trace_id8 <- lift (Py.slice_to 8 trace_id) ;;
      span_id8 <- lift (Py.slice_to 8 span_id) ;;
      print (OutSpan name trace_id8 span_id8)
  | Metrics =>
      name <- lift (Py.get rec "name" (JStr "Unknown")) ;;
      print (OutMetric name)
  | Logs =>
      severity <- lift (Py.get rec "severityText" (JStr "Unknown")) ;;
      body_obj <- lift (Py.get rec "body" (JObj [])) ;;
      body <- lift (Py.get body_obj "stringValue" (JStr "No message")) ;;
      body50 <- lift (Py.slice_to 50 body) ;;
      print (OutLogRecord severity body50)
  end.

Definition scope_body (which : analyzer) (scope : json) : M unit :=
  has <- lift (Py.contains (record_key which) scope) ;;
  when has (
    found <- lift (Py.getitem scope (record_key which)) ;;
    n <- lift (Py.len found) ;;
    print (found_of which n) ;;
    records <- lift (Py.getitem scope (record_key which)) ;;
    items <- lift (Py.iter records) ;;
    for_each items (record_body which)).

Definition resource_body (which : analyzer) (group : json) : M unit :=
  has <- lift (Py.contains (scope_key which) group) ;;
  when has (
    scopes <- lift (Py.getitem group (scope_key which)) ;;
    items <- lift (Py.iter scopes) ;;
    for_each items (scope_body which)).

Definition analyze (which : analyzer) (data : json) : M unit :=
  has <- lift (Py.contains (resource_key which) data) ;;
  when has (
    print (title_of which) ;;
    groups <- lift (Py.getitem data (resource_key which)) ;;
    items <- lift (Py.iter groups) ;;
    for_each items (resource_body which)).

(** ** The envelope, in the words of the specification *)

Definition is_mapping (v : json) : bool :=
  match v with
  | JObj _ => true
  | _ => false
  end.

(** A payload on which [k in v] raises: null, a boolean or a number. *)
Definition is_scalar (v : json) : bool :=
  match v with
  | JNull | JBool _ | JInt _ | JFloat _ => true
  | _ => false
  end.

(** The members of the container under key [k]; an absent key is an empty
    container. *)
Definition container (k : string) (v : json) : list json :=
  match v with
  | JObj kvs =>
      match Py.lookup k kvs with
      | Some (JArr xs) => xs
      | _ => []
      end
  | _ => []
  end.

(** All records of an envelope: resource groups, their scope groups, the
    records of these. *)
Definition records_of (which : analyzer) (data : json) : list json :=
  flat_map
    (fun group => flat_map (container (record_key which))
                           (container (scope_key which) group))
    (container (resource_key which) data).

(** [v] is a mapping whose key [k], when present, holds a sequence of
    members that satisfy [member_ok]. *)
Definition container_ok (k : string) (member_ok : json -> bool) (v : json) : bool :=
  match v with
  | JObj kvs =>
      match Py.lookup k kvs with
      | None => true
      | Some (JArr xs) => forallb member_ok xs
      | Some _ => false
      end
  | _ => false
  end.

(** [v] is a mapping whose key [k], when present, holds a string. *)
Definition text_or_absent (k : string) (v : json) : bool :=
  match v with
  | JObj kvs =>
      match Py.lookup k kvs with
      | None | Some (JStr _) => true
      | Some _ => false
      end
  | _ => false
  end.

Definition record_ok (which : analyzer) (rec : json) : bool :=
  match which with
  | Traces => text_or_absent "traceId" rec && text_or_absent "spanId" rec
  | Metrics => is_mapping rec
  | Logs =>
      match rec with
      | JObj kvs =>
          match Py.lookup "body" kvs with
          | None => true
          | Some body => text_or_absent "stringValue" body
          end
      | _ => false
      end
  end.

(** A payload of the telemetry wire format: a mapping whose containers,
    where present, are sequences of mappings down to the records. *)
Definition well_shaped (which : analyzer) (data : json) : bool :=
  container_ok (resource_key which)
    (container_ok (scope_key which)
       (container_ok (record_key which) (record_ok which)))
    data.

Definition field_or (k : string) (d : json) (v : json) : json :=
  match v with
  | JObj kvs =>
      match Py.lookup k kvs with
      | Some x => x
      | None => d
      end
  | _ => d
  end.

Definition first_chars (n : nat) (v : json) : json :=
  match v with
  | JStr s => JStr (String.substring 0 n s)
  | _ => v
  end.

(** What the summary holds of one record. *)
Definition record_summary (which : analyzer) (rec : json) : event :=
  match which with
  | Traces =>
      OutSpan (field_or "name" (JStr "Unknown") rec)
              (first_chars 8 (field_or "traceId" (JStr "Unknown") rec))
              (first_chars 8 (field_or "spanId" (JStr "Unknown") rec))
  | Metrics => OutMetric (field_or "name" (JStr "Unknown") rec)
  | Logs =>
      OutLogRecord
        (field_or "severityText" (JStr "Unknown") rec)
        (first_chars 50
           (field_or "stringValue" (JStr "No message")
              (field_or "body" (JObj []) rec)))
  end.

(** The text of line 79,
    [f"       - {name} (trace: {trace_id[:8]}..., span: {span_id[:8]}...)"]. *)
Definition span_text (name trace_id8 span_id8 : string) : string :=
  ("       - " ++ name ++ " (trace: " ++ trace_id8 ++ "..., span: "
   ++ span_id8 ++ "...)")%string.

Definition rendered (ev : event) : option string :=
  match ev with
  | OutSpan (JStr name) (JStr trace_id8) (JStr span_id8) =>
      Some (span_text name trace_id8 span_id8)
  | _ => None
  end.

(** The count the analysis reports: the sum of its "Found n ..." lines. *)
Definition found_number (which : analyzer) (ev : event) : Z :=
  match which, ev with
  | Traces, OutFoundSpans n => n
  | Metrics, OutFoundMetrics n => n
  | Logs, OutFoundLogRecords n => n
  | _, _ => 0
  end.

Definition reported_count (which : analyzer) (out : list event) : Z :=
  Py.sum (map (found_number which) out).

Definition is_record_line (which : analyzer) (ev : event) : bool :=
  match which, ev with
  | Traces, OutSpan _ _ _ => true
  | Metrics, OutMetric _ => true
  | Logs, OutLogRecord _ _ => true
  | _, _ => false
  end.

Definition record_lines (which : analyzer) (out : list event) : list event :=
  filter (is_record_line which) out.

(** The lines of a scope group, of a resource group and of a payload. *)
Definition scope_lines (which : analyzer) (scope : json) : list event :=
  match scope with
  | JObj kvs =>
      match Py.lookup (record_key which) kvs with
      | Some (JArr xs) =>
          found_of which (Z.of_nat (List.length xs))
          :: map (record_summary which) xs
      | _ => []
      end
  | _ => []
  end.

Definition resource_lines (which : analyzer) (group : json) : list event :=
  flat_map (scope_lines which) (container (scope_key which) group).

Definition envelope_lines (which : analyzer) (data : json) : list event :=
  match Py.contains (resource_key which) data with
  | Ok true =>
      title_of which
      :: flat_map (resource_lines which) (container (resource_key which) data)
  | _ => []
  end.

(** ** Observations on a run *)

Definition result_of {A : Type} (r : outcome A * TelemetryConsumer * list event)
  : outcome A := fst (fst r).
Definition object_of {A : Type} (r : outcome A * TelemetryConsumer * list event)
  : TelemetryConsumer := snd (fst r).
Definition output_of {A : Type} (r : outcome A * TelemetryConsumer * list event)
  : list event := snd r.

Definition is_call (ev : event) : bool :=
  match ev with
  | CallAnalyzer _ _ => true
  | _ => false
  end.

(** The message numbers of the analyzer calls of a run, in order. *)
Fixpoint call_numbers (out : list event) : list Z :=
  match out with
  | [] => []
  | CallAnalyzer _ n :: out' => n :: call_numbers out'
  | _ :: out' => call_numbers out'
  end.

Definition total_of (self : TelemetryConsumer) : Z :=
  Py.sum (Py.values (message_counts self)).

(** The verdict of a report and its diagnostic hints. *)
Inductive verdict : Type := IngestionHealthy | NoDataObserved.

Definition is_working (ev : event) : bool :=
  match ev with OutIngestionWorking => true | _ => false end.
Definition is_no_messages (ev : event) : bool :=
  match ev with OutNoMessagesReceived => true | _ => false end.
Definition is_hint (ev : event) : bool :=
  match ev with
  | OutCheckServiceRunning | OutCheckTestData | OutCheckConnectivity => true
  | _ => false
  end.

Definition verdict_of (out : list event) : option verdict :=
  match existsb is_working out, existsb is_no_messages out with
  | true, false => Some IngestionHealthy
  | false, true => Some NoDataObserved
  | _, _ => None
  end.

Definition hints_of (out : list event) : list event := filter is_hint out.

(** The record [r] passes through one iteration of the loop without an
    exception, on the object [self]. *)
Definition accepts (dumps : json -> string) (self : TelemetryConsumer)
    (r : record wire) : bool :=
  match deserialize r with
  | Ok m =>
      match Py.lookup (topic m) (message_counts self) with
      | Some _ =>
          match show_and_analyze dumps m 0 self with
          | (Ok _, _, _) => true
          | _ => false
          end
      | None => false
      end
  | Raise _ => false
  end.

Definition fetches (rs : list (record wire * Q)) : source :=
  map (fun rn => Fetch (fst rn) (snd rn)) rs.

(** [connected self src]: [self] after a successful [connect]. *)
Definition connected (self : TelemetryConsumer) (src : source) : TelemetryConsumer :=
  set_consumer (Some src) self.

(** A computation that neither reads nor changes the object: its result
    and its lines are the same on every object, which it returns as it
    was. *)
Definition stateless {A : Type} (c : M A) : Prop :=
  exists r out, forall self, c self = (r, self, out).

(** Every line a computation prints satisfies [P]. *)
Definition emits {A : Type} (P : event -> Prop) (c : M A) : Prop :=
  forall self, Forall P (output_of (c self)).

(** The analyzer of each kind of envelope. *)
Definition analyzer_of (which : analyzer) : json -> M unit :=
  match which with
  | Traces => analyze_traces
  | Metrics => analyze_metrics
  | Logs => analyze_logs
  end.

(** A trace payload of two resource-span groups, each with one scope-span
    group, holding the span records [xs] and [ys]. *)
Definition two_groups (xs ys : list json) : json :=
  JObj [("resourceSpans",
         JArr [JObj [("scopeSpans", JArr [JObj [("spans", JArr xs)]])];
               JObj [("scopeSpans", JArr [JObj [("spans", JArr ys)]])]])].

(** The reading of the specification under which an analyzer raises on no
    mapping at all. *)
Definition raises_only_on_non_mapping (which : analyzer) : Prop :=
  forall (data : json) (self : TelemetryConsumer) (e : exn),
    result_of (analyzer_of which data self) = Raise e -> is_mapping data = false.

(** The counts after one more message on [topic], and after a sequence of
    messages; a topic that is not registered changes nothing. *)
Definition bump (topic : string) (d : list (string * Z)) : list (string * Z) :=
  match Py.lookup topic d with
  | Some c => Py.store topic (c + 1) d
  | None => d
  end.

Definition tally (topics : list string) (d : list (string * Z))
  : list (string * Z) :=
  fold_left (fun d topic => bump topic d) topics d.

Definition topics_of (rs : list (record wire * Q)) : list string :=
  map (fun rn => topic (fst rn)) rs.

(** A record the loop lets through: it is accepted on [self] and the clock
    read after its fetch is within [timeout] of [start_time]. *)
Definition in_time (timeout : Z) (start_time : Q) (now : Q) : Prop :=
  (now - start_time <= inject_Z timeout)%Q.

(** The reading of the specification under which every accepted message
    is dispatched to an analyzer: in a session started on fresh counts, the
    sum of the counts is the number of analyzer calls. *)
Definition counts_equal_dispatches (dumps : json -> string) : Prop :=
  forall (max_messages timeout : Z) (start_time : Q) (src : source),
    let r := for_message dumps max_messages timeout start_time src 0
                         (connected (init KAFKA_BROKERS TOPICS) src) in
    total_of (self_after r) = Z.of_nat (List.length (call_numbers (emitted r))).

(** The reading of the specification under which a value that fails to
    decode is counted and the loop goes on to the next record. *)
Definition survives_decode_failure (dumps : json -> string) : Prop :=
  forall (bad good : record wire) (now now' : Q) (e : exn)
         (max_messages timeout : Z) (start_time : Q) (self : TelemetryConsumer),
    value_deserializer (value bad) = Raise e ->
    Py.lookup (topic bad) (message_counts self) <> None ->
    accepts dumps self good = true ->
    in_time timeout start_time now ->
    in_time timeout start_time now' ->
    2 <= max_messages ->
    let r := for_message dumps max_messages timeout start_time
                         [Fetch bad now; Fetch good now'] 0 self in
    final_count r = 2
    /\ total_of (self_after r) = total_of self + 2
    /\ remaining r = [].

(** A stand-in for [json.dumps] in closed examples; the theorems hold for
    every rendering. *)
Definition example_dumps (v : json) : string := "{...}".

(** A record of the example runs: partition 0, no headers. *)
Definition example_record (topic : string) (offset : Z) (v : wire) : record wire :=
  mkRecord topic 0 offset (Some (Converts 1700000000000)) [] v.

(** One of the three topics lines 139-144 dispatch on. *)
Definition is_telemetry_topic (t : string) : bool :=
  String.eqb t "otel.traces" || String.eqb t "otel.metrics"
  || String.eqb t "otel.logs".

(** ** The rest of [main] (lines 182-217) *)

(** The lines of [main]: its own and those of the consumer it runs. *)
Inductive main_line : Type :=
| MainTitle                                  (* line 183 *)
| MainRule                                   (* line 184 *)
| MainInvalidMaxMessages                     (* line 194 *)
| MainInvalidTimeout                         (* line 201 *)
| MainConfiguration                          (* line 204 *)
| MainBrokers (brokers : list string)        (* line 205 *)
| MainTopics (topics : list string)          (* line 206 *)
| MainMaxMessages (max_messages : Z)         (* line 207 *)
| MainTimeout (timeout : Z)                  (* line 208 *)
| FromConsumer (ev : event).

(** How the script ends: [main] returns, [sys.exit(status)] is called, an
    exception leaves [main], or it never comes back. *)
Inductive main_end : Type :=
| MainReturns
| MainExits (status : Z)
| MainPropagates (e : exn)
| MainHangs.

Definition of_completion (c : completion) : main_end :=
  match c with
  | Returned => MainReturns
  | Propagated e => MainPropagates e
  | Hangs => MainHangs
  end.

(** [int(sys.argv[i])] when [len(sys.argv) > i], the default otherwise;
    [None] is the ValueError of lines 193 and 200.  [int_of] is Python's
    [int] on a string. *)
Definition parse_arg (int_of : string -> option Z) (argv : list string)
    (i : nat) (default : Z) : option Z :=
  match nth_error argv i with
  | None => Some default
  | Some s => int_of s
  end.

(** [main] (lines 182-217); [argv] is [sys.argv], script name first. *)
Definition main (int_of : string -> option Z) (dumps : json -> string)
    (argv : list string) (attempt : outcome source) (start_time : Q)
  : main_end * list main_line :=
  match parse_arg int_of argv 1 10 with
  | None => (MainExits 1, [MainTitle; MainRule; MainInvalidMaxMessages])
  | Some max_messages =>
      match parse_arg int_of argv 2 30 with
      | None => (MainExits 1, [MainTitle; MainRule; MainInvalidTimeout])
      | Some timeout =>
          match session dumps attempt max_messages timeout start_time with
          | (c, _, out) =>
              (of_completion c,
               [MainTitle; MainRule; MainConfiguration;
                MainBrokers KAFKA_BROKERS; MainTopics TOPICS;
                MainMaxMessages max_messages; MainTimeout timeout]
               ++ map FromConsumer out)
          end
      end
  end.

Fixpoint consumer_lines (out : list main_line) : list event :=
  match out with
  | [] => []
  | FromConsumer ev :: out' => ev :: consumer_lines out'
  | _ :: out' => consumer_lines out'
  end.

(** ** Further observations on a run *)

(** The numbers of the "Message #n" lines of a run, in order. *)
Fixpoint message_numbers (out : list event) : list Z :=
  match out with
  | [] => []
  | OutMessageNumber n :: out' => n :: message_numbers out'
  | _ :: out' => message_numbers out'
  end.

(** [c + 1, ..., c + n]. *)
Definition numbers_after (c : Z) (n : nat) : list Z :=
  map (fun i => c + Z.of_nat i) (seq 1 n).

(** The lines an analyzer may print. *)
Definition is_analysis_line (ev : event) : bool :=
  match ev with
  | OutTraceAnalysis | OutFoundSpans _ | OutSpan _ _ _
  | OutMetricsAnalysis | OutFoundMetrics _ | OutMetric _
  | OutLogsAnalysis | OutFoundLogRecords _ | OutLogRecord _ _ => true
  | _ => false
  end.

(** The lines [print_message_info] may print. *)
Definition is_info_line (ev : event) : bool :=
  match ev with
  | OutTopic _ | OutPartitionOffset _ _ | OutTimestamp _
  | OutHeaders | OutHeader _ _ | OutValue _ => true
  | _ => false
  end.

(** The value lines of a run. *)
Fixpoint value_lines (out : list event) : list string :=
  match out with
  | [] => []
  | OutValue s :: out' => s :: value_lines out'
  | _ :: out' => value_lines out'
  end.

(** How many of the topics [ts] are [t]. *)
Definition count_of (t : string) (ts : list string) : Z :=
  Z.of_nat (count_occ string_dec ts t).

(** The header lines of decoded headers. *)
Definition header_line (kv : string * string) : event :=
  OutHeader (fst kv) (snd kv).

Definition decoded (kv : string * string) : hfield * hfield :=
  (Decodes (fst kv), Decodes (snd kv)).

(** The handler line of lines 146-149 for an exception. *)
Definition handler_line (e : exn) : list event :=
  match e with
  | KeyboardInterrupt => [OutStoppedByUser]
  | _ => if is_Exception e then [OutErrorConsuming e] else []
  end.

(** The headers decoded before the first one whose key or value fails to
    decode, and the exception of that one. *)
Fixpoint decode_headers (hs : list (hfield * hfield))
  : list (string * string) * option exn :=
  match hs with
  | [] => ([], None)
  | (k, v) :: hs' =>
      match decode k with
      | Raise e => ([], Some e)
      | Ok key =>
          match decode v with
          | Raise e => ([], Some e)
          | Ok val =>
              let (kvs, err) := decode_headers hs' in ((key, val) :: kvs, err)
          end
      end
  end.

(** The text of the value line: lines 61-63 on the rendering [value_str]. *)
Definition shown_value (value_str : string) : string :=
  if 500 <? Py.str_len value_str
  then (String.substring 0 500 value_str ++ "... (truncated)")%string
  else value_str.

(** ** The bounds as the specification words them *)

(** The reading of the specification under which the running count bound
    needs the timing of the records only: whenever [max_messages] records
    and one more all arrive within the timeout, the loop stops at
    [max_messages] for the reason MaxMessagesReached. *)
Definition stops_at_max_whenever_in_time (dumps : json -> string) : Prop :=
  forall (max_messages timeout : Z) (start_time : Q)
         (rs : list (record wire * Q)) (extra : record wire) (now : Q)
         (rest : source) (self : TelemetryConsumer),
    Z.of_nat (List.length rs) = max_messages ->
    Forall (fun rn => in_time timeout start_time (snd rn)) rs ->
    in_time timeout start_time now ->
    let run := for_message dumps max_messages timeout start_time
                           (fetches rs ++ Fetch extra now :: rest) 0 self in
    stop_reason_of (exit run) = Some MaxMessagesReached
    /\ final_count run = max_messages.

(** The reading of the specification under which a bound that is zero or
    negative needs nothing of the clock: with [max_messages <= 0] or
    [timeout <= 0] no message is counted and none is analysed. *)
Definition zero_bound_counts_nothing (dumps : json -> string) : Prop :=
  forall (max_messages timeout : Z) (start_time : Q) (src : source)
         (self : TelemetryConsumer),
    max_messages <= 0 \/ timeout <= 0 ->
    let run := for_message dumps max_messages timeout start_time src 0 self in
    final_count run = 0
    /\ call_numbers (emitted run) = [].

Unset Implicit Arguments.

(** * Properties *)

(** ** The monad *)

Lemma stateless_ret {A : Type} (a : A) : stateless (ret a).
Proof. exists (Ok a), []. reflexivity. Qed.

Lemma stateless_lift {A : Type} (r : outcome A) : stateless (lift r).
Proof. exists r, []. reflexivity. Qed.

Lemma stateless_print (ev : event) : stateless (print ev).
Proof. exists (Ok tt), [ev]. reflexivity. Qed.

Lemma stateless_bind {A B : Type} (c : M A) (k : A -> M B) :
  stateless c -> (forall a, stateless (k a)) -> stateless (bind c k).
Proof.
  intros (r & out & Hc) Hk. destruct r as [a | e].
  - destruct (Hk a) as (r2 & out2 & Hka).
    exists r2, (out ++ out2). intros self. unfold bind.
    rewrite Hc, Hka. reflexivity.
  - exists (Raise e), out. intros self. unfold bind. rewrite Hc. reflexivity.
Qed.

Lemma stateless_when (b : bool) (c : M unit) :
  stateless c -> stateless (when b c).
Proof. destruct b; simpl; auto using stateless_ret. Qed.

Lemma stateless_for_each {A : Type} (xs : list A) (body : A -> M unit) :
  (forall x, stateless (body x)) -> stateless (for_each xs body).
Proof.
  intros Hb. induction xs as [| x xs IH]; simpl.
  - apply stateless_ret.
  - apply stateless_bind; auto.
Qed.

Create HintDb py discriminated.
#[export] Hint Resolve stateless_ret stateless_lift stateless_print
  stateless_when stateless_for_each : py.
#[export] Hint Extern 2 (stateless (bind _ _)) =>
  apply stateless_bind; [| intros ?] : py.

Lemma emits_ret {A : Type} (P : event -> Prop) (a : A) : emits P (ret a).
Proof. intros self. constructor. Qed.

Lemma emits_lift {A : Type} (P : event -> Prop) (r : outcome A) :
  emits P (lift r).
Proof. intros self. constructor. Qed.

Lemma emits_print (P : event -> Prop) (ev : event) : P ev -> emits P (print ev).
Proof. intros H self. simpl. auto. Qed.

Lemma emits_bind {A B : Type} (P : event -> Prop) (c : M A) (k : A -> M B) :
  emits P c -> (forall a, emits P (k a)) -> emits P (bind c k).
Proof.
  intros Hc Hk self. unfold bind. specialize (Hc self).
  destruct (c self) as [[[a | e] self1] out1]; simpl in *; auto.
  specialize (Hk a self1). destruct (k a self1) as [[r self2] out2]. simpl in *.
  apply Forall_app; auto.
Qed.

Lemma emits_when (P : event -> Prop) (b : bool) (c : M unit) :
  emits P c -> emits P (when b c).
Proof. destruct b; simpl; auto using emits_ret. Qed.

Lemma emits_for_each {A : Type} (P : event -> Prop) (xs : list A)
    (body : A -> M unit) :
  (forall x, emits P (body x)) -> emits P (for_each xs body).
Proof.
  intros Hb. induction xs as [| x xs IH]; simpl.
  - apply emits_ret.
  - apply emits_bind; auto.
Qed.

#[export] Hint Resolve emits_ret emits_lift emits_when emits_for_each : py.
#[export] Hint Extern 2 (emits _ (bind _ _)) =>
  apply emits_bind; [| intros ?] : py.
#[export] Hint Extern 2 (emits _ (print _)) =>
  apply emits_print; simpl; congruence : py.

(** ** The analyzers are instances of the walk *)

Lemma analyze_traces_walk (data : json) : analyze_traces data = analyze Traces data.
Proof. reflexivity. Qed.

Lemma analyze_metrics_walk (data : json) : analyze_metrics data = analyze Metrics data.
Proof. reflexivity. Qed.

Lemma analyze_logs_walk (data : json) : analyze_logs data = analyze Logs data.
Proof. reflexivity. Qed.

Lemma stateless_record_body (which : analyzer) (rec : json) :
  stateless (record_body which rec).
Proof. destruct which; unfold record_body; auto 20 with py. Qed.

Lemma stateless_scope_body (which : analyzer) (scope : json) :
  stateless (scope_body which scope).
Proof.
  unfold scope_body. auto 20 using stateless_record_body with py.
Qed.

Lemma stateless_resource_body (which : analyzer) (group : json) :
  stateless (resource_body which group).
Proof.
  unfold resource_body. auto 20 using stateless_scope_body with py.
Qed.

Lemma stateless_analyze (which : analyzer) (data : json) :
  stateless (analyze which data).
Proof.
  unfold analyze. auto 20 using stateless_resource_body with py.
Qed.

(** ** The analyzers on a well-shaped envelope *)

Lemma for_each_lines {A : Type} (xs : list A) (body : A -> M unit)
    (f : A -> list event) (self : TelemetryConsumer) :
  (forall x, In x xs -> body x self = (Ok tt, self, f x)) ->
  for_each xs body self = (Ok tt, self, flat_map f xs).
Proof.
  induction xs as [| x xs IH]; intros H; simpl.
  - reflexivity.
  - unfold bind. rewrite (H x (or_introl eq_refl)).
    rewrite IH by (intros y Hy; apply H; right; exact Hy). reflexivity.
Qed.

Lemma flat_map_single {A B : Type} (f : A -> B) (xs : list A) :
  flat_map (fun x => [f x]) xs = map f xs.
Proof. induction xs as [| x xs IH]; simpl; congruence. Qed.

Lemma record_body_ok (which : analyzer) (rec : json) (self : TelemetryConsumer) :
  record_ok which rec = true ->
  record_body which rec self = (Ok tt, self, [record_summary which rec]).
Proof.
  destruct which; simpl.
  - destruct rec as [| | | | |xs|kvs]; simpl; try discriminate.
    unfold bind, lift; simpl.
    destruct (Py.lookup "traceId" kvs) as [[]|]; simpl; try discriminate;
      destruct (Py.lookup "spanId" kvs) as [[]|]; simpl; try discriminate;
      reflexivity.
  - destruct rec; simpl; try discriminate. reflexivity.
  - destruct rec as [| | | | |xs|kvs]; simpl; try discriminate.
    unfold bind, lift; simpl.
    destruct (Py.lookup "body" kvs) as [body|]; simpl.
    + destruct body as [| | | | |ys|bkvs]; simpl; try discriminate.
      destruct (Py.lookup "stringValue" bkvs) as [[]|]; simpl;
        try discriminate; reflexivity.
    + reflexivity.
Qed.

Lemma scope_body_ok (which : analyzer) (scope : json) (self : TelemetryConsumer) :
  container_ok (record_key which) (record_ok which) scope = true ->
  scope_body which scope self = (Ok tt, self, scope_lines which scope).
Proof.
  unfold scope_body, scope_lines.
  destruct scope as [| | | | |xs|kvs]; simpl; try discriminate.
  unfold bind, lift; simpl.
  destruct (Py.lookup (record_key which) kvs) as [v|]; simpl; [| reflexivity].
  destruct v as [| | | | |ys|]; try discriminate. simpl. intros Hall.
  rewrite for_each_lines with (f := fun x => [record_summary which x]).
  - rewrite flat_map_single. reflexivity.
  - intros x Hx. apply record_body_ok.
    rewrite forallb_forall in Hall. auto.
Qed.

Lemma resource_body_ok (which : analyzer) (group : json) (self : TelemetryConsumer) :
  container_ok (scope_key which)
    (container_ok (record_key which) (record_ok which)) group = true ->
  resource_body which group self = (Ok tt, self, resource_lines which group).
Proof.
  unfold resource_body, resource_lines.
  destruct group as [| | | | |xs|kvs]; simpl; try discriminate.
  unfold bind, lift; simpl.
  destruct (Py.lookup (scope_key which) kvs) as [v|]; simpl; [| reflexivity].
  destruct v as [| | | | |ys|]; try discriminate. simpl. intros Hall.
  rewrite for_each_lines with (f := scope_lines which).
  - reflexivity.
  - intros x Hx. apply scope_body_ok. rewrite forallb_forall in Hall. auto.
Qed.

Lemma analyze_ok (which : analyzer) (data : json) (self : TelemetryConsumer) :
  well_shaped which data = true ->
  analyze which data self = (Ok tt, self, envelope_lines which data).
Proof.
  unfold well_shaped, analyze, envelope_lines.
  destruct data as [| | | | |xs|kvs]; simpl; try discriminate.
  unfold bind, lift; simpl.
  destruct (Py.lookup (resource_key which) kvs) as [v|]; simpl; [| reflexivity].
  destruct v as [| | | | |ys|]; try discriminate. simpl. intros Hall.
  rewrite for_each_lines with (f := resource_lines which).
  - reflexivity.
  - intros x Hx. apply resource_body_ok. rewrite forallb_forall in Hall. auto.
Qed.

(** ** Counting the lines of an envelope *)

Lemma sum_from (xs : list Z) (a : Z) : fold_left Z.add xs a = a + Py.sum xs.
Proof.
  unfold Py.sum. revert a. induction xs as [| x xs IH]; intros a; simpl.
  - lia.
  - rewrite IH, (IH x). lia.
Qed.

Lemma sum_cons (x : Z) (xs : list Z) : Py.sum (x :: xs) = x + Py.sum xs.
Proof. unfold Py.sum at 1. simpl. apply sum_from. Qed.

Lemma sum_app (xs ys : list Z) : Py.sum (xs ++ ys) = Py.sum xs + Py.sum ys.
Proof.
  induction xs as [| x xs IH]; simpl.
  - reflexivity.
  - rewrite !sum_cons, IH. lia.
Qed.

Lemma reported_count_app (which : analyzer) (a b : list event) :
  reported_count which (a ++ b) = reported_count which a + reported_count which b.
Proof. unfold reported_count. rewrite map_app. apply sum_app. Qed.

Lemma record_lines_app (which : analyzer) (a b : list event) :
  record_lines which (a ++ b) = record_lines which a ++ record_lines which b.
Proof. apply filter_app. Qed.

Lemma summaries_count (which : analyzer) (xs : list json) :
  reported_count which (map (record_summary which) xs) = 0.
Proof.
  unfold reported_count. induction xs as [| x xs IH]; simpl.
  - reflexivity.
  - rewrite sum_cons, IH. destruct which; reflexivity.
Qed.

Lemma summaries_lines (which : analyzer) (xs : list json) :
  record_lines which (map (record_summary which) xs)
  = map (record_summary which) xs.
Proof.
  unfold record_lines. induction xs as [| x xs IH]; simpl.
  - reflexivity.
  - replace (is_record_line which (record_summary which x)) with true
      by (destruct which; reflexivity).
    congruence.
Qed.

Lemma scope_lines_count (which : analyzer) (scope : json) :
  reported_count which (scope_lines which scope)
  = Z.of_nat (List.length (container (record_key which) scope)).
Proof.
  unfold scope_lines, container. destruct scope; try reflexivity.
  destruct (Py.lookup (record_key which) kvs) as [[]|]; try reflexivity.
  change (reported_count which
            ([found_of which (Z.of_nat (List.length xs))]
             ++ map (record_summary which) xs) = Z.of_nat (List.length xs)).
  rewrite reported_count_app, summaries_count.
  unfold reported_count. simpl. rewrite sum_cons.
  destruct which; simpl; unfold Py.sum; simpl; lia.
Qed.

Lemma scope_lines_records (which : analyzer) (scope : json) :
  record_lines which (scope_lines which scope)
  = map (record_summary which) (container (record_key which) scope).
Proof.
  unfold scope_lines, container. destruct scope; try reflexivity.
  destruct (Py.lookup (record_key which) kvs) as [[]|]; try reflexivity.
  change (record_lines which
            ([found_of which (Z.of_nat (List.length xs))]
             ++ map (record_summary which) xs)
          = map (record_summary which) xs).
  rewrite record_lines_app, summaries_lines.
  destruct which; reflexivity.
Qed.

Lemma flat_lines_count (which : analyzer) {A : Type}
    (lines : A -> list event) (members : A -> list json) (xs : list A) :
  (forall x, reported_count which (lines x) = Z.of_nat (List.length (members x))) ->
  reported_count which (flat_map lines xs)
  = Z.of_nat (List.length (flat_map members xs)).
Proof.
  intros H. induction xs as [| x xs IH]; simpl.
  - reflexivity.
  - rewrite reported_count_app, length_app, H, IH. lia.
Qed.

Lemma flat_lines_records (which : analyzer) {A : Type}
    (lines : A -> list event) (members : A -> list json) (xs : list A) :
  (forall x, record_lines which (lines x) = map (record_summary which) (members x)) ->
  record_lines which (flat_map lines xs)
  = map (record_summary which) (flat_map members xs).
Proof.
  intros H. induction xs as [| x xs IH]; simpl.
  - reflexivity.
  - rewrite record_lines_app, map_app, H, IH. reflexivity.
Qed.

Lemma container_absent (k : string) (v : json) :
  Py.contains k v <> Ok true -> container k v = [].
Proof.
  destruct v; simpl; try reflexivity.
  destruct (Py.lookup k kvs); [congruence | reflexivity].
Qed.

Lemma envelope_lines_count (which : analyzer) (data : json) :
  reported_count which (envelope_lines which data)
  = Z.of_nat (List.length (records_of which data)).
Proof.
  unfold envelope_lines, records_of.
  destruct (Py.contains (resource_key which) data) as [[|]|e] eqn:Hc.
  - change (title_of which :: ?l) with ([title_of which] ++ l).
    rewrite reported_count_app.
    rewrite flat_lines_count
      with (members := fun group =>
              flat_map (container (record_key which))
                       (container (scope_key which) group)).
    + destruct which; reflexivity.
    + intros group. unfold resource_lines.
      apply flat_lines_count. apply scope_lines_count.
  - rewrite container_absent by congruence. reflexivity.
  - rewrite container_absent by congruence. reflexivity.
Qed.

Lemma envelope_lines_records (which : analyzer) (data : json) :
  record_lines which (envelope_lines which data)
  = map (record_summary which) (records_of which data).
Proof.
  unfold envelope_lines, records_of.
  destruct (Py.contains (resource_key which) data) as [[|]|e] eqn:Hc.
  - change (title_of which :: ?l) with ([title_of which] ++ l).
    rewrite record_lines_app.
    rewrite flat_lines_records
      with (members := fun group =>
              flat_map (container (record_key which))
                       (container (scope_key which) group)).
    + destruct which; reflexivity.
    + intros group. unfold resource_lines.
      apply flat_lines_records. apply scope_lines_records.
  - rewrite container_absent by congruence. reflexivity.
  - rewrite container_absent by congruence. reflexivity.
Qed.

Lemma analyzer_of_walk (which : analyzer) (data : json) :
  analyzer_of which data = analyze which data.
Proof. destruct which; reflexivity. Qed.

Lemma no_scopes_no_records (which : analyzer) (data : json) :
  (forall group, In group (container (resource_key which) data) ->
                 Py.contains (scope_key which) group = Ok false) ->
  records_of which data = [].
Proof.
  unfold records_of. intros H.
  induction (container (resource_key which) data) as [| g gs IH]; simpl.
  - reflexivity.
  - rewrite container_absent.
    + simpl. apply IH. intros group Hg. apply H. right. exact Hg.
    + rewrite (H g (or_introl eq_refl)). discriminate.
Qed.

Lemma first_chars_length (n : nat) (s : string) :
  String.length (String.substring 0 n s) = Nat.min n (String.length s).
Proof.
  revert s. induction n as [| n IH]; intros s.
  - destruct s; reflexivity.
  - destruct s as [| c s]; simpl; [reflexivity |]. rewrite IH. reflexivity.
Qed.

Lemma first_chars_prefix (n : nat) (s : string) :
  String.prefix (String.substring 0 n s) s = true.
Proof.
  revert s. induction n as [| n IH]; intros s.
  - destruct s; reflexivity.
  - destruct s as [| c s]; simpl; [reflexivity |].
    destruct (ascii_dec c c) as [_ | Hne]; [apply IH | congruence].
Qed.

(** ** EnvelopeAnalyzer: summaries, absent containers, statelessness *)

(** C5.  On every trace payload of the wire format, [analyze_traces] raises
    nothing and leaves the consumer as it was; the span count it reports
    (the sum of its "Found n spans" lines) is the number of span records
    over all resource-span groups and their scope-span groups; it prints one
    line per span record, in order, holding the name (or "Unknown") and the
    first 8 characters of the trace and span identifiers, each followed in
    the text of the line by the ellipsis "..."; two groups of 3 and 2
    records give 5. *)
Theorem trace_summary_counts_spans (data : json) (self : TelemetryConsumer) :
  well_shaped Traces data = true ->
  let run := analyze_traces data self in
  result_of run = Ok tt
  /\ object_of run = self
  /\ reported_count Traces (output_of run)
     = Z.of_nat (List.length (records_of Traces data))
  /\ record_lines Traces (output_of run)
     = map (record_summary Traces) (records_of Traces data)
  /\ (forall kvs, In (JObj kvs) (records_of Traces data) ->
        exists name trace8 span8,
          record_summary Traces (JObj kvs) = OutSpan name trace8 span8
          /\ name = match Py.lookup "name" kvs with
                    | Some x => x
                    | None => JStr "Unknown"
                    end
          /\ (forall id, Py.lookup "traceId" kvs = Some (JStr id) ->
                trace8 = JStr (String.substring 0 8 id)
                /\ String.length (String.substring 0 8 id)
                   = Nat.min 8 (String.length id)
                /\ String.prefix (String.substring 0 8 id) id = true)
          /\ (forall id, Py.lookup "spanId" kvs = Some (JStr id) ->
                span8 = JStr (String.substring 0 8 id)
                /\ String.length (String.substring 0 8 id)
                   = Nat.min 8 (String.length id)
                /\ String.prefix (String.substring 0 8 id) id = true)
          /\ (forall n tid sid,
                Py.lookup "name" kvs = Some (JStr n) ->
                Py.lookup "traceId" kvs = Some (JStr tid) ->
                Py.lookup "spanId" kvs = Some (JStr sid) ->
                rendered (record_summary Traces (JObj kvs))
                = Some ("       - " ++ n ++ " (trace: "
                        ++ String.substring 0 8 tid ++ "..., span: "
                        ++ String.substring 0 8 sid ++ "...)")%string))
  /\ (forall xs ys, data = two_groups xs ys ->
        List.length xs = 3%nat -> List.length ys = 2%nat ->
        reported_count Traces (output_of run) = 5).
Proof.
  intros Hshape run. subst run.
  rewrite analyze_traces_walk, (analyze_ok Traces data self Hshape).
  unfold result_of, object_of, output_of. simpl fst. simpl snd.
  split; [reflexivity |]. split; [reflexivity |].
  split; [apply envelope_lines_count |].
  split; [apply envelope_lines_records |].
  split.
  - intros kvs _. simpl. do 3 eexists. split; [reflexivity |].
    split; [reflexivity |].
    split; [| split].
    + intros id Hid; rewrite Hid; simpl;
        auto using first_chars_length, first_chars_prefix.
    + intros id Hid; rewrite Hid; simpl;
        auto using first_chars_length, first_chars_prefix.
    + intros n tid sid Hn Htid Hsid. rewrite Hn, Htid, Hsid. reflexivity.
  - intros xs ys -> Hx Hy. rewrite envelope_lines_count.
    unfold two_groups, records_of. simpl. rewrite !length_app, Hx, Hy.
    reflexivity.
Qed.

(** Two groups of 3 and 2 span records: the reported span count is 5. *)
Lemma trace_summary_counts_spans_witness :
  let span := fun name : string =>
    JObj [("name", JStr name); ("traceId", JStr "0af7651916cd43dd8448eb211c80319c");
          ("spanId", JStr "b7ad6b7169203331")] in
  let data := two_groups [span "a"; span "b"; span "c"] [span "d"; JObj []] in
  well_shaped Traces data = true
  /\ reported_count Traces (output_of (analyze_traces data (init [] TOPICS))) = 5.
Proof.
  intros span data. split; [reflexivity |].
  destruct (trace_summary_counts_spans data (init [] TOPICS) eq_refl)
    as (_ & _ & _ & _ & _ & Hfive).
  apply (Hfive _ _ eq_refl eq_refl eq_refl).
Defined.

(** C6, amended.  On a payload of the wire format ([well_shaped]: a
    mapping in which each container key, where present, holds a sequence of
    mappings, resource groups, scope groups and records alike, and in which
    the fields a record line slices are strings where present: a span's
    traceId and spanId, and for a log record a body that is a mapping whose
    stringValue is a string), no analyzer
    raises, and a container key absent at the resource, scope or record level
    contributes no record: the reported count is the number of records
    under the keys that are present, and it is 0 when every resource group
    lacks the scope key (a metrics payload without scopeMetrics).  On null, a
    boolean or a number every analyzer raises TypeError. *)
Theorem absent_container_contributes_nothing
    (which : analyzer) (data : json) (self : TelemetryConsumer) :
  well_shaped which data = true ->
  let run := analyzer_of which data self in
  result_of run = Ok tt
  /\ object_of run = self
  /\ reported_count which (output_of run)
     = Z.of_nat (List.length (records_of which data))
  /\ record_lines which (output_of run)
     = map (record_summary which) (records_of which data)
  /\ (Py.contains (resource_key which) data = Ok false -> output_of run = [])
  /\ (forall group, In group (container (resource_key which) data) ->
        Py.contains (scope_key which) group = Ok false ->
        resource_body which group self = (Ok tt, self, []))
  /\ (forall group scope,
        In group (container (resource_key which) data) ->
        In scope (container (scope_key which) group) ->
        Py.contains (record_key which) scope = Ok false ->
        scope_body which scope self = (Ok tt, self, []))
  /\ ((forall group, In group (container (resource_key which) data) ->
         Py.contains (scope_key which) group = Ok false) ->
      reported_count which (output_of run) = 0
      /\ record_lines which (output_of run) = [])
  /\ (forall scalar self', is_scalar scalar = true ->
        analyzer_of which scalar self' = (Raise TypeError, self', [])).
Proof.
  intros Hshape run. subst run.
  rewrite analyzer_of_walk, (analyze_ok which data self Hshape).
  unfold result_of, object_of, output_of. simpl fst. simpl snd.
  split; [reflexivity |]. split; [reflexivity |].
  split; [apply envelope_lines_count |].
  split; [apply envelope_lines_records |].
  split; [| split; [| split; [| split]]].
  - intros Habs. unfold envelope_lines. rewrite Habs. reflexivity.
  - intros group _ Habs. unfold resource_body, bind, lift.
    rewrite Habs. reflexivity.
  - intros group scope _ _ Habs. unfold scope_body, bind, lift.
    rewrite Habs. reflexivity.
  - intros Habs.
    rewrite envelope_lines_count, envelope_lines_records.
    rewrite (no_scopes_no_records which data Habs). split; reflexivity.
  - intros scalar self' Hs. rewrite analyzer_of_walk.
    destruct scalar; try discriminate; reflexivity.
Qed.

(** A metrics payload whose only resource group has no scopeMetrics key. *)
Lemma absent_container_contributes_nothing_witness :
  let data := JObj [("resourceMetrics", JArr [JObj [("resource", JObj [])]])] in
  well_shaped Metrics data = true
  /\ result_of (analyze_metrics data (init [] TOPICS)) = Ok tt
  /\ reported_count Metrics (output_of (analyze_metrics data (init [] TOPICS))) = 0.
Proof.
  intros data. split; [reflexivity |].
  destruct (absent_container_contributes_nothing Metrics data (init [] TOPICS) eq_refl)
    as (Hok & _ & _ & _ & _ & _ & _ & Hzero & _).
  split; [exact Hok |].
  apply Hzero. intros group [<- | []]. reflexivity.
Defined.

(** Containers that are sequences of mappings are not enough for an
    analyzer to return: a log record whose body is a plain string, and a
    span whose traceId is a number, raise at the record line.  Neither
    payload is [well_shaped]. *)
Lemma ill_typed_record_raises :
  let nest := fun (k1 k2 k3 : string) (rec : json) =>
                JObj [(k1, JArr [JObj [(k2, JArr [JObj [(k3, JArr [rec])]])]])] in
  let logs := nest "resourceLogs" "scopeLogs" "logRecords"
                   (JObj [("body", JStr "plain text")]) in
  let traces := nest "resourceSpans" "scopeSpans" "spans"
                     (JObj [("traceId", JInt 5)]) in
  analyze_logs logs (init [] TOPICS)
  = (Raise AttributeError, init [] TOPICS, [OutLogsAnalysis; OutFoundLogRecords 1])
  /\ analyze_traces traces (init [] TOPICS)
     = (Raise TypeError, init [] TOPICS, [OutTraceAnalysis; OutFoundSpans 1])
  /\ well_shaped Logs logs = false
  /\ well_shaped Traces traces = false.
Proof.
  intros nest logs traces. repeat split; reflexivity.
Qed.

(** A mapping whose resource container is a number makes [analyze_metrics]
    raise: an analyzer does not raise on non-mappings only. *)
Lemma mapping_payload_raises :
  let data := JObj [("resourceMetrics", JInt 5)] in
  is_mapping data = true
  /\ analyze_metrics data (init [] TOPICS)
     = (Raise TypeError, init [] TOPICS, [OutMetricsAnalysis])
  /\ ~ raises_only_on_non_mapping Metrics.
Proof.
  intros data. split; [reflexivity |]. split; [reflexivity |].
  intros H. specialize (H data (init [] TOPICS) TypeError eq_refl).
  discriminate H.
Qed.

(** C9.  Each analyzer is a function of the payload alone: its result and
    the lines of its summary are the same on every consumer object, which it
    returns unchanged; analysing a payload twice gives the same summary
    twice. *)
Theorem analyzer_is_stateless (which : analyzer) (data : json) :
  exists (result : outcome unit) (summary : list event),
    (forall self, analyzer_of which data self = (result, self, summary))
    /\ (forall self,
          let first := analyzer_of which data self in
          let second := analyzer_of which data (object_of first) in
          result_of second = result_of first
          /\ output_of second = output_of first
          /\ object_of second = self).
Proof.
  destruct (stateless_analyze which data) as (r & out & H).
  exists r, out. split.
  - intros self. rewrite analyzer_of_walk. apply H.
  - intros self. simpl. rewrite !analyzer_of_walk, H.
    unfold object_of. simpl. rewrite H. auto.
Qed.

(** ** The per-topic counts *)

Lemma store_keys {V : Type} (k : string) (v c : V) (d : list (string * V)) :
  Py.lookup k d = Some c -> Py.keys (Py.store k v d) = Py.keys d.
Proof.
  induction d as [| [k' v'] d IH]; simpl; [discriminate |].
  destruct (String.eqb k k'); simpl.
  - reflexivity.
  - intros H. unfold Py.keys in *. simpl. rewrite IH by exact H. reflexivity.
Qed.

Lemma store_total (k : string) (c : Z) (d : list (string * Z)) :
  Py.lookup k d = Some c ->
  Py.sum (Py.values (Py.store k (c + 1) d)) = Py.sum (Py.values d) + 1.
Proof.
  induction d as [| [k' v'] d IH]; simpl; [discriminate |].
  destruct (String.eqb k k'); simpl.
  - intros [= ->]. rewrite !sum_cons. lia.
  - intros H. unfold Py.values in *. simpl. rewrite !sum_cons.
    rewrite IH by exact H. lia.
Qed.

Lemma lookup_keys {V W : Type} (k : string)
    (d : list (string * V)) (d' : list (string * W)) :
  Py.keys d = Py.keys d' ->
  (Py.lookup k d = None <-> Py.lookup k d' = None).
Proof.
  revert d'. induction d as [| [k1 v1] d IH]; intros [| [k2 v2] d'] H;
    simpl in *; try discriminate; [tauto |].
  injection H as -> H. destruct (String.eqb k k2); [split; discriminate |].
  apply IH. exact H.
Qed.

Lemma store_zero_all_zero (k : string) (d : list (string * Z)) :
  Forall (fun kv => snd kv = 0) d ->
  Forall (fun kv => snd kv = 0) (Py.store k 0 d).
Proof.
  induction 1 as [| [k' v'] d Hv Hd IH]; simpl.
  - repeat constructor.
  - destruct (String.eqb k k'); constructor; auto.
Qed.

Lemma zero_counts_total (topics : list string) :
  Py.sum (Py.values (zero_counts topics)) = 0.
Proof.
  unfold zero_counts.
  assert (H : forall d, Forall (fun kv => snd kv = 0) d ->
            Forall (fun kv : string * Z => snd kv = 0)
                   (fold_left (fun d topic => Py.store topic 0 d) topics d)).
  { induction topics as [| t ts IH]; intros d Hd; simpl; [exact Hd |].
    apply IH. apply store_zero_all_zero. exact Hd. }
  specialize (H [] (Forall_nil _)).
  induction H as [| [k v] d Hv Hd IH]; [reflexivity |].
  simpl in *. rewrite sum_cons, IH, Hv. reflexivity.
Qed.

(** ** One message: lines 133-144 *)

Lemma call_numbers_app (a b : list event) :
  call_numbers (a ++ b) = call_numbers a ++ call_numbers b.
Proof.
  induction a as [| ev a IH]; simpl; [reflexivity |].
  destruct ev; simpl; rewrite ?IH; reflexivity.
Qed.

Lemma call_numbers_none (out : list event) :
  Forall (fun ev => is_call ev = false) out -> call_numbers out = [].
Proof.
  induction 1 as [| ev out Hev Hout IH]; simpl; [reflexivity |].
  destruct ev; simpl in *; try discriminate; exact IH.
Qed.

Lemma emits_record_body (which : analyzer) (rec : json) :
  emits (fun ev => is_call ev = false) (record_body which rec).
Proof. destruct which; unfold record_body; auto 20 with py. Qed.

Lemma emits_scope_body (which : analyzer) (scope : json) :
  emits (fun ev => is_call ev = false) (scope_body which scope).
Proof.
  unfold scope_body. assert (H := emits_record_body which).
  destruct which; auto 20 with py.
Qed.

Lemma emits_resource_body (which : analyzer) (group : json) :
  emits (fun ev => is_call ev = false) (resource_body which group).
Proof.
  unfold resource_body. assert (H := emits_scope_body which). auto 20 with py.
Qed.

Lemma emits_analyze (which : analyzer) (data : json) :
  emits (fun ev => is_call ev = false) (analyze which data).
Proof.
  unfold analyze. assert (H := emits_resource_body which).
  destruct which; auto 20 with py.
Qed.

Section Loop.

Variable dumps : json -> string.

Lemma stateless_print_message_info (m : message) :
  stateless (print_message_info dumps m).
Proof. unfold print_message_info. cbv zeta. auto 20 with py. Qed.

Lemma emits_print_message_info (m : message) :
  emits (fun ev => is_call ev = false) (print_message_info dumps m).
Proof. unfold print_message_info. cbv zeta. auto 20 with py. Qed.

(** What lines 133-144 do with a message depends on the message alone,
    but for the number written into two of the lines; at most one
    analyzer is called. *)
Lemma show_and_analyze_shape (m : message) :
  exists (r : outcome unit) (info : list event) (call : list analyzer)
         (summary : list event),
    (forall n self,
        show_and_analyze dumps m n self
        = (r, self,
           OutRule true :: OutMessageNumber n :: info
           ++ map (fun w => CallAnalyzer w n) call ++ summary))
    /\ call_numbers info = []
    /\ call_numbers summary = []
    /\ (List.length call <= 1)%nat.
Proof.
  destruct (stateless_print_message_info m) as (r1 & out1 & H1).
  assert (Hc1 : call_numbers out1 = []).
  { apply call_numbers_none.
    generalize (emits_print_message_info m (init [] [])).
    rewrite H1. exact (fun H => H). }
  assert (Han : forall which,
             exists r2 out2,
               (forall self, analyze which (value m) self = (r2, self, out2))
               /\ call_numbers out2 = []).
  { intros which.
    destruct (stateless_analyze which (value m)) as (r2 & out2 & H2).
    exists r2, out2. split; [exact H2 |].
    apply call_numbers_none.
    generalize (emits_analyze which (value m) (init [] [])).
    rewrite H2. exact (fun H => H). }
  unfold show_and_analyze.
  destruct r1 as [[] | e].
  - unfold dispatch.
    destruct (Py.truthy (value m)).
    + destruct (String.eqb (topic m) "otel.traces");
        [| destruct (String.eqb (topic m) "otel.metrics");
           [| destruct (String.eqb (topic m) "otel.logs")]].
      * destruct (Han Traces) as (r2 & out2 & H2 & Hc2).
        exists r2, out1, [Traces], out2. repeat split; auto.
        intros n self. unfold bind, print, when. cbv beta.
        rewrite H1, analyze_traces_walk, H2. reflexivity.
      * destruct (Han Metrics) as (r2 & out2 & H2 & Hc2).
        exists r2, out1, [Metrics], out2. repeat split; auto.
        intros n self. unfold bind, print, when. cbv beta.
        rewrite H1, analyze_metrics_walk, H2. reflexivity.
      * destruct (Han Logs) as (r2 & out2 & H2 & Hc2).
        exists r2, out1, [Logs], out2. repeat split; auto.
        intros n self. unfold bind, print, when. cbv beta.
        rewrite H1, analyze_logs_walk, H2. reflexivity.
      * exists (Ok tt), out1, [], []. repeat split; auto.
        intros n self. unfold bind, print. rewrite H1. simpl.
        rewrite app_nil_r. reflexivity.
    + exists (Ok tt), out1, [], []. repeat split; auto.
      intros n self. unfold bind, print. rewrite H1. simpl.
      rewrite app_nil_r. reflexivity.
  - exists (Raise e), out1, [], []. repeat split; auto.
    intros n self. unfold bind, print. rewrite H1. simpl.
    rewrite app_nil_r. reflexivity.
Qed.

Lemma call_numbers_message (n : Z) (info summary : list event)
    (call : list analyzer) :
  call_numbers info = [] -> call_numbers summary = [] ->
  call_numbers (OutRule true :: OutMessageNumber n :: info
                ++ map (fun w => CallAnalyzer w n) call ++ summary)
  = map (fun _ => n) call.
Proof.
  intros Hi Hs. simpl. rewrite !call_numbers_app, Hi, Hs, app_nil_r. simpl.
  induction call as [| w call IH]; simpl; congruence.
Qed.

Lemma deserialize_topic (r : record wire) (m : message) :
  deserialize r = Ok m -> topic m = topic r.
Proof.
  unfold deserialize. destruct (value_deserializer (value r)); [| discriminate].
  intros [= <-]. reflexivity.
Qed.

Lemma Qgtb_false (a b : Q) : (a <= b)%Q -> Qgtb a b = false.
Proof.
  intros H. unfold Qgtb. rewrite (proj2 (Qle_bool_iff a b) H). reflexivity.
Qed.

Lemma Qgtb_true (a b : Q) : (b < a)%Q -> Qgtb a b = true.
Proof.
  intros H. unfold Qgtb. destruct (Qle_bool a b) eqn:E; [| reflexivity].
  apply Qle_bool_iff in E. exfalso. exact (Qlt_not_le _ _ H E).
Qed.

Section Run.

Variables (max_messages timeout : Z) (start_time : Q).

Local Abbreviation loop := (for_message dumps max_messages timeout start_time).

(** The accounting of a run of the loop from the running count [c]. *)
Lemma loop_accounting (src : source) :
  forall (c : Z) (self : TelemetryConsumer),
    let r := loop src c self in
    c <= final_count r
    /\ total_of (self_after r) = total_of self + (final_count r - c)
    /\ Py.keys (message_counts (self_after r)) = Py.keys (message_counts self)
    /\ Forall (fun n => c < n <= final_count r) (call_numbers (emitted r))
    /\ NoDup (call_numbers (emitted r))
    /\ Z.of_nat (List.length (call_numbers (emitted r))) <= final_count r - c.
Proof.
  induction src as [| p rest IH]; intros c self; simpl.
  - repeat split; auto using NoDup_nil; lia.
  - destruct p as [r now | e |]; simpl;
      [| repeat split; auto using NoDup_nil; lia
       | repeat split; auto using NoDup_nil; lia].
    destruct (deserialize r) as [m | e]; simpl;
      [| repeat split; auto using NoDup_nil; lia].
    destruct (Qgtb (now - start_time) (inject_Z timeout)); simpl;
      [repeat split; auto using NoDup_nil; lia |].
    destruct (max_messages <=? c); simpl;
      [repeat split; auto using NoDup_nil; lia |].
    unfold count_message.
    destruct (Py.lookup (topic m) (message_counts self)) as [cnt |] eqn:Hl;
      [| simpl; repeat split; auto using NoDup_nil; lia].
    destruct (show_and_analyze_shape m)
      as (r1 & info & call & summary & Hs & Hi & Hsum & Hlen).
    rewrite Hs.
    assert (Htot : total_of (set_message_counts
                     (Py.store (topic m) (cnt + 1) (message_counts self)) self)
                   = total_of self + 1).
    { unfold total_of. simpl. apply store_total. exact Hl. }
    assert (Hkeys : Py.keys (Py.store (topic m) (cnt + 1) (message_counts self))
                    = Py.keys (message_counts self)).
    { apply store_keys with (c := cnt). exact Hl. }
    assert (Hcalls : call_numbers
              (OutRule true :: OutMessageNumber (c + 1) :: info
               ++ map (fun w => CallAnalyzer w (c + 1)) call ++ summary)
            = map (fun _ => c + 1) call).
    { apply call_numbers_message; assumption. }
    destruct r1 as [[] | e]; cbv beta iota.
    + specialize (IH (c + 1)
        (set_message_counts
           (Py.store (topic m) (cnt + 1) (message_counts self)) self)).
      cbv zeta in IH. destruct IH as (Hle & Ht & Hk & Hall & Hnd & Hn).
      cbn [emit_before emitted final_count self_after].
      change (@nil event ++ ?x) with x.
      rewrite call_numbers_app, Hcalls.
      split; [lia |]. split; [rewrite Ht, Htot; lia |].
      split; [rewrite Hk; exact Hkeys |].
      destruct call as [| w [| w' call]]; cbn [map app List.length] in *;
        try lia.
      * repeat split; auto.
        -- eapply Forall_impl; [| exact Hall]. cbv beta. intros; lia.
        -- lia.
      * repeat split.
        -- constructor; [lia |].
           eapply Forall_impl; [| exact Hall]. cbv beta. intros; lia.
        -- constructor; [| exact Hnd].
           intros Hin. rewrite Forall_forall in Hall.
           specialize (Hall _ Hin). lia.
        -- rewrite Nat2Z.inj_succ. lia.
    + cbn [emitted final_count self_after].
      change (@nil event ++ ?x) with x.
      rewrite Hcalls.
      split; [lia |]. split; [rewrite Htot; lia |].
      split; [exact Hkeys |].
      destruct call as [| w [| w' call]]; cbn [map app List.length] in *;
        try lia.
      * repeat split; auto using NoDup_nil; lia.
      * repeat split.
        -- constructor; [lia | constructor].
        -- constructor; [intros [] | constructor].
        -- lia.
Qed.

Lemma accepts_keys (self self' : TelemetryConsumer) (r : record wire) :
  Py.keys (message_counts self') = Py.keys (message_counts self) ->
  accepts dumps self r = true -> accepts dumps self' r = true.
Proof.
  intros Hk. unfold accepts.
  destruct (deserialize r) as [m | e]; [| discriminate].
  destruct (Py.lookup (topic m) (message_counts self)) as [cnt |] eqn:Hl;
    [| discriminate].
  destruct (Py.lookup (topic m) (message_counts self')) as [cnt' |] eqn:Hl'.
  - destruct (show_and_analyze_shape m) as (r1 & info & call & summary & Hs & _).
    rewrite !Hs. exact (fun H => H).
  - apply (lookup_keys (topic m) _ _ Hk) in Hl'. congruence.
Qed.

(** One accepted record: the loop counts it, shows it and goes on. *)
Lemma loop_accepts (r : record wire) (now : Q) (rest : source) (c : Z)
    (self : TelemetryConsumer) :
  accepts dumps self r = true ->
  in_time timeout start_time now ->
  c < max_messages ->
  exists out,
    loop (Fetch r now :: rest) c self
    = emit_before out
        (loop rest (c + 1)
           (set_message_counts (bump (topic r) (message_counts self)) self))
    /\ forall rest',
         loop (Fetch r now :: rest') c self
         = emit_before out
             (loop rest' (c + 1)
                (set_message_counts (bump (topic r) (message_counts self)) self)).
Proof.
  unfold accepts, in_time. intros Hacc Ht Hc.
  destruct (deserialize r) as [m | e] eqn:Hd; [| discriminate].
  rewrite <- (deserialize_topic r m Hd).
  destruct (Py.lookup (topic m) (message_counts self)) as [cnt |] eqn:Hl;
    [| discriminate].
  destruct (show_and_analyze_shape m) as (r1 & info & call & summary & Hs & _).
  rewrite Hs in Hacc. destruct r1 as [[] | e]; [| discriminate].
  exists (OutRule true :: OutMessageNumber (c + 1) :: info
          ++ map (fun w => CallAnalyzer w (c + 1)) call ++ summary).
  assert (Hstep : forall rest',
    for_message dumps max_messages timeout start_time
                (Fetch r now :: rest') c self
    = emit_before
        (OutRule true :: OutMessageNumber (c + 1) :: info
         ++ map (fun w => CallAnalyzer w (c + 1)) call ++ summary)
        (for_message dumps max_messages timeout start_time rest' (c + 1)
           (set_message_counts (bump (topic m) (message_counts self)) self))).
  { intros rest'. simpl. rewrite Hd, (Qgtb_false _ _ Ht).
    replace (max_messages <=? c) with false by (symmetry; apply Z.leb_gt; lia).
    unfold count_message, bump. rewrite Hl, Hs. reflexivity. }
  split; [apply Hstep | exact Hstep].
Qed.

Lemma emit_before_twice (a b : list event) (r : loop_result) :
  emit_before a (emit_before b r) = emit_before (a ++ b) r.
Proof. unfold emit_before. simpl. rewrite app_assoc. reflexivity. Qed.

Lemma bump_keys (t : string) (d : list (string * Z)) :
  Py.keys (bump t d) = Py.keys d.
Proof.
  unfold bump. destruct (Py.lookup t d) as [c |] eqn:Hl; [| reflexivity].
  apply store_keys with (c := c). exact Hl.
Qed.

(** A run of accepted records, all in time and below the bound: the loop
    takes them all, whatever follows them in the source. *)
Lemma loop_accepts_all (rs : list (record wire * Q)) :
  forall (c : Z) (self : TelemetryConsumer),
    Forall (fun rn => accepts dumps self (fst rn) = true
                      /\ in_time timeout start_time (snd rn)) rs ->
    c + Z.of_nat (List.length rs) <= max_messages ->
    exists out,
      forall rest,
        loop (fetches rs ++ rest) c self
        = emit_before out
            (loop rest (c + Z.of_nat (List.length rs))
               (set_message_counts
                  (tally (topics_of rs) (message_counts self)) self)).
Proof.
  induction rs as [| [r now] rs IH]; intros c self Hall Hmax.
  - exists []. intros rest. simpl. rewrite Z.add_0_r.
    destruct self; destruct (loop rest c _); reflexivity.
  - inversion Hall as [| x l [Hacc Ht] Hrest]; subst.
    simpl in Hacc, Ht.
    destruct (loop_accepts r now [] c self Hacc Ht) as (out1 & _ & Hstep).
    { rewrite length_cons, Nat2Z.inj_succ in Hmax. lia. }
    destruct (IH (c + 1)
                (set_message_counts (bump (topic r) (message_counts self)) self))
      as (out2 & Hrun).
    { eapply Forall_impl; [| exact Hrest]. intros rn [Ha Hb]. split; [| exact Hb].
      apply accepts_keys with (self := self); [| exact Ha].
      simpl. apply bump_keys. }
    { rewrite length_cons, Nat2Z.inj_succ in Hmax. lia. }
    exists (out1 ++ out2). intros rest.
    change (fetches ((r, now) :: rs) ++ rest)
      with (Fetch r now :: (fetches rs ++ rest)).
    rewrite Hstep, Hrun, emit_before_twice.
    rewrite length_cons, Nat2Z.inj_succ.
    replace (c + 1 + Z.of_nat (List.length rs))
      with (c + Z.succ (Z.of_nat (List.length rs))) by lia.
    reflexivity.
Qed.

(** A run that reaches a cut of the source goes on from the state the run
    over the cut source hangs in. *)
Lemma loop_cut (src1 src2 : source) :
  forall (c : Z) (self : TelemetryConsumer),
    exit (loop src1 c self) = NeverReturns ->
    loop (src1 ++ src2) c self
    = emit_before (emitted (loop src1 c self))
        (loop src2 (final_count (loop src1 c self))
              (self_after (loop src1 c self))).
Proof.
  induction src1 as [| p rest IH]; intros c self.
  - intros _. simpl. destruct (loop src2 c self). reflexivity.
  - destruct p as [r now | e |]; simpl; try discriminate.
    destruct (deserialize r) as [m | e]; try discriminate.
    destruct (Qgtb (now - start_time) (inject_Z timeout)); try discriminate.
    destruct (max_messages <=? c); try discriminate.
    destruct (count_message m self) as [[[[] | e] self1] out1]; try discriminate.
    destruct (show_and_analyze dumps m (c + 1) self1) as [[[[] | e] self2] out2];
      try discriminate.
    cbn [emit_before exit final_count self_after emitted remaining].
    intros Hexit. rewrite (IH (c + 1) self2 Hexit).
    unfold emit_before. cbn [exit final_count self_after emitted remaining].
    rewrite app_assoc. reflexivity.
Qed.

End Run.

End Loop.

(** ** The report *)

Lemma topic_lines_no_verdict (d : list (string * Z)) (f : event -> bool) :
  (forall t c, f (OutTopicCount t c) = false) ->
  existsb f (map (fun tc => OutTopicCount (fst tc) (snd tc)) d) = false
  /\ filter f (map (fun tc => OutTopicCount (fst tc) (snd tc)) d) = [].
Proof.
  intros Hf. induction d as [| [t c] d [IH1 IH2]]; simpl.
  - split; reflexivity.
  - rewrite Hf, IH1, IH2. split; reflexivity.
Qed.

Lemma not_in_by_test (f : event -> bool) (ev : event) (out : list event) :
  f ev = true -> existsb f out = false -> ~ In ev out.
Proof.
  intros Hf Hout Hin.
  assert (H : existsb f out = true) by (apply existsb_exists; eauto).
  congruence.
Qed.

(** C8.  The verdict of the report is "ingestion healthy" exactly when the
    total of the counts is greater than 0; otherwise it is "no data
    observed", followed by the three hints: service running, test data being
    sent, broker connectivity.  The report carries exactly one verdict line:
    with a total above 0 it ends in the four lines of the healthy verdict and
    has no "no messages received" line and no hint, and otherwise it ends in
    the "no messages received" line and the three hints and has no healthy
    line.  The total printed is the sum of the counts and the object is left
    as it was. *)
Theorem verdict_follows_total (self : TelemetryConsumer) :
  let run := print_summary self in
  let total := Py.sum (Py.values (message_counts self)) in
  result_of run = Ok tt
  /\ object_of run = self
  /\ In (OutTotal total) (output_of run)
  /\ (verdict_of (output_of run) = Some IngestionHealthy <-> 0 < total)
  /\ (verdict_of (output_of run) = Some NoDataObserved <-> total <= 0)
  /\ hints_of (output_of run)
     = (if 0 <? total then []
        else [OutCheckServiceRunning; OutCheckTestData; OutCheckConnectivity])
  /\ (total <= 0 ->
      exists before,
        output_of run
        = before ++ [OutNoMessagesReceived; OutCheckServiceRunning;
                     OutCheckTestData; OutCheckConnectivity])
  /\ (total <= 0 -> ~ In OutIngestionWorking (output_of run))
  /\ (0 < total ->
      ~ In OutNoMessagesReceived (output_of run)
      /\ exists before,
           output_of run
           = before ++ [OutIngestionWorking; OutMessagesBeingSent;
                        OutStructureValid; OutReadyForPhase2])
  /\ List.length
       (filter (fun ev => is_working ev || is_no_messages ev) (output_of run))
     = 1%nat.
Proof.
  intros run total. subst run. unfold print_summary, result_of, object_of, output_of.
  cbn [fst snd]. fold total.
  destruct (topic_lines_no_verdict (message_counts self) is_working
              (fun _ _ => eq_refl)) as [Hw _].
  destruct (topic_lines_no_verdict (message_counts self) is_no_messages
              (fun _ _ => eq_refl)) as [Hn _].
  destruct (topic_lines_no_verdict (message_counts self) is_hint
              (fun _ _ => eq_refl)) as [_ Hh].
  destruct (topic_lines_no_verdict (message_counts self)
              (fun ev => is_working ev || is_no_messages ev)
              (fun _ _ => eq_refl)) as [_ Hv].
  split; [reflexivity |]. split; [reflexivity |].
  split; [simpl; auto |].
  assert (Hworking :
            existsb is_working
              ([OutRule true; OutSummaryTitle; OutRule false; OutTotal total]
               ++ map (fun tc => OutTopicCount (fst tc) (snd tc))
                    (message_counts self)
               ++ verdict_lines total) = (0 <? total)).
  { rewrite !existsb_app, Hw. unfold verdict_lines.
    destruct (0 <? total); reflexivity. }
  assert (Hnone :
            existsb is_no_messages
              ([OutRule true; OutSummaryTitle; OutRule false; OutTotal total]
               ++ map (fun tc => OutTopicCount (fst tc) (snd tc))
                    (message_counts self)
               ++ verdict_lines total) = negb (0 <? total)).
  { rewrite !existsb_app, Hn. unfold verdict_lines.
    destruct (0 <? total); reflexivity. }
  assert (Hend : forall tail,
            verdict_lines total = tail ->
            exists before,
              [OutRule true; OutSummaryTitle; OutRule false; OutTotal total]
              ++ map (fun tc => OutTopicCount (fst tc) (snd tc))
                   (message_counts self)
              ++ verdict_lines total = before ++ tail).
  { intros tail ->.
    exists ([OutRule true; OutSummaryTitle; OutRule false; OutTotal total]
            ++ map (fun tc => OutTopicCount (fst tc) (snd tc))
                 (message_counts self)).
    rewrite <- app_assoc. reflexivity. }
  unfold verdict_of, hints_of. rewrite Hworking, Hnone.
  split.
  { destruct (Z.ltb_spec 0 total); simpl; split; intros; try discriminate;
      try lia; reflexivity. }
  split.
  { destruct (Z.ltb_spec 0 total); simpl; split; intros; try discriminate;
      try lia; reflexivity. }
  split.
  { rewrite !filter_app, Hh. unfold verdict_lines.
    destruct (0 <? total); reflexivity. }
  split.
  { intros Hle. apply Hend. unfold verdict_lines.
    destruct (Z.ltb_spec 0 total); [lia | reflexivity]. }
  split.
  { intros Hle. apply (not_in_by_test is_working); [reflexivity |].
    rewrite Hworking. destruct (Z.ltb_spec 0 total); [lia | reflexivity]. }
  split.
  { intros Hpos. split.
    - apply (not_in_by_test is_no_messages); [reflexivity |].
      rewrite Hnone. destruct (Z.ltb_spec 0 total); [reflexivity | lia].
    - apply Hend. unfold verdict_lines.
      destruct (Z.ltb_spec 0 total); [reflexivity | lia]. }
  rewrite !filter_app, Hv. unfold verdict_lines.
  destruct (0 <? total); reflexivity.
Qed.

(** ** The bounds of the loop *)

(** C2: evaluation on an idle broker.  With a source that never yields,
    [next()] never returns: whatever the timeout, [consume_messages] does
    not come back, prints neither the timeout line nor the summary, and the
    session ends in no verdict. *)
Theorem idle_source_never_times_out (dumps : json -> string)
    (max_messages timeout : Z) (start_time : Q) :
  let banner := [OutConsuming max_messages timeout; OutPressCtrlC] in
  (forall self,
      consume_messages dumps max_messages timeout start_time (connected self [])
      = (Hangs, connected self [], banner))
  /\ session dumps (Ok []) max_messages timeout start_time
     = (Hangs, connected (init KAFKA_BROKERS TOPICS) [],
        OutConnected KAFKA_BROKERS :: banner)
  /\ verdict_of (OutConnected KAFKA_BROKERS :: banner) = None
  /\ ~ In (OutTimeoutReached timeout) (OutConnected KAFKA_BROKERS :: banner).
Proof.
  intros banner. split; [| split; [| split]].
  - intros self. reflexivity.
  - reflexivity.
  - reflexivity.
  - simpl. intros [H | [H | [H | []]]]; discriminate H.
Qed.

(** Where the timeout does fire: the first record arrives after it. *)
Lemma late_first_record_times_out (dumps : json -> string)
    (max_messages timeout : Z) (start_time : Q) (r : record wire) (now : Q)
    (rest : source) (m : message) (self : TelemetryConsumer) :
  deserialize r = Ok m ->
  (inject_Z timeout < now - start_time)%Q ->
  for_message dumps max_messages timeout start_time (Fetch r now :: rest) 0 self
  = mkLoop BreakTimeout rest 0 self [OutTimeoutReached timeout].
Proof.
  intros Hd Hlate. simpl. rewrite Hd, (Qgtb_true _ _ Hlate). reflexivity.
Qed.

(** C10, amended.  A record is pulled, and its value decoded, before either bound is
    checked.  A record that meets a reached bound is gone from the source
    but is not counted, not accounted and not analysed; the loop stops with
    the one line of the bound.  With [max_messages <= 0], or with
    [timeout <= 0] and a clock that has advanced since the start, a run
    counts and analyses nothing, whatever the source, and still takes the
    first answer of the source when there is one. *)
Theorem bound_checked_after_pull (dumps : json -> string)
    (max_messages timeout : Z) (start_time : Q) :
  (forall (r : record wire) (now : Q) (rest : source) (m : message)
          (c : Z) (self : TelemetryConsumer),
      deserialize r = Ok m ->
      (inject_Z timeout < now - start_time)%Q \/ max_messages <= c ->
      let run := for_message dumps max_messages timeout start_time
                             (Fetch r now :: rest) c self in
      remaining run = rest
      /\ final_count run = c
      /\ self_after run = self
      /\ call_numbers (emitted run) = []
      /\ ((exit run = BreakTimeout /\ emitted run = [OutTimeoutReached timeout])
          \/ (exit run = BreakMax /\ emitted run = [OutMaxReached max_messages])))
  /\ (forall (src : source) (self : TelemetryConsumer),
         max_messages <= 0
         \/ (timeout <= 0
             /\ forall r now rest, src = Fetch r now :: rest ->
                                   (start_time < now)%Q) ->
         let run := for_message dumps max_messages timeout start_time src 0 self in
         final_count run = 0
         /\ self_after run = self
         /\ call_numbers (emitted run) = []
         /\ (forall p rest, src = p :: rest -> remaining run = rest)).
Proof.
  split.
  - intros r now rest m c self Hd Hbound. simpl. rewrite Hd.
    destruct (Qgtb (now - start_time) (inject_Z timeout)) eqn:Hq; simpl.
    + repeat split; auto.
    + destruct Hbound as [Hlate | Hmax].
      * rewrite (Qgtb_true _ _ Hlate) in Hq. discriminate.
      * replace (max_messages <=? c) with true by (symmetry; apply Z.leb_le; lia).
        simpl. repeat split; auto.
  - intros src self Hbound.
    destruct src as [| [r now | e |] rest]; simpl.
    + repeat split; auto. intros p rest [=].
    + destruct (deserialize r) as [m | e]; simpl.
      * assert (Hstop : Qgtb (now - start_time) (inject_Z timeout) = true
                        \/ (max_messages <=? 0) = true).
        { destruct Hbound as [Hmax | [Ht Hclock]].
          - right. apply Z.leb_le. exact Hmax.
          - left. apply Qgtb_true. specialize (Hclock r now rest eq_refl).
            assert (Hz : (inject_Z timeout <= 0)%Q).
            { unfold Qle. simpl. lia. }
            generalize dependent (inject_Z timeout). intros t Ht0. lra. }
        destruct (Qgtb (now - start_time) (inject_Z timeout)); simpl.
        -- repeat split; auto. intros p rest' [= _ <-]. reflexivity.
        -- destruct Hstop as [Hq | Hm]; [discriminate |]. rewrite Hm. simpl.
           repeat split; auto. intros p rest' [= _ <-]. reflexivity.
      * repeat split; auto. intros p rest' [= _ <-]. reflexivity.
    + repeat split; auto. intros p rest' [= _ <-]. reflexivity.
    + repeat split; auto. intros p rest' [= _ <-]. reflexivity.
Qed.

(** C3, amended.  When the first [max_messages] records pass the body of
    the loop without an exception (each is accepted on the object: its value
    decodes, its topic is registered, its timestamp converts, its headers
    decode and its analyzer returns) and arrive in time, and one more record
    whose value decodes arrives in time, the loop stops on that record with
    exactly [max_messages] messages counted, for the reason
    MaxMessagesReached.  The extra record is pulled but it is neither
    counted nor analysed: the counts and the lines are those of the run over
    the first [max_messages] records alone, with the one line of the bound
    added. *)
Theorem stops_at_max_messages (dumps : json -> string)
    (max_messages timeout : Z) (start_time : Q)
    (rs : list (record wire * Q)) (extra : record wire) (now : Q)
    (rest : source) (m : message) (self : TelemetryConsumer) :
  Z.of_nat (List.length rs) = max_messages ->
  Forall (fun rn => accepts dumps self (fst rn) = true
                    /\ in_time timeout start_time (snd rn)) rs ->
  deserialize extra = Ok m ->
  in_time timeout start_time now ->
  let run := for_message dumps max_messages timeout start_time
                         (fetches rs ++ Fetch extra now :: rest) 0 self in
  let before := for_message dumps max_messages timeout start_time
                            (fetches rs) 0 self in
  exit run = BreakMax
  /\ stop_reason_of (exit run) = Some MaxMessagesReached
  /\ final_count run = max_messages
  /\ total_of (self_after run) = total_of self + max_messages
  /\ message_counts (self_after run) = tally (topics_of rs) (message_counts self)
  /\ self_after run = self_after before
  /\ emitted run = emitted before ++ [OutMaxReached max_messages]
  /\ remaining run = rest
  /\ Forall (fun n => 0 < n <= max_messages) (call_numbers (emitted run)).
Proof.
  intros Hlen Hall Hd Ht run before.
  destruct (loop_accepts_all dumps max_messages timeout start_time rs 0 self Hall)
    as (out & Hrun); [lia |].
  assert (Hacc := loop_accounting dumps max_messages timeout start_time
                    (fetches rs ++ Fetch extra now :: rest) 0 self).
  cbv zeta in Hacc. fold run in Hacc.
  destruct Hacc as (_ & Htot & _ & Hcalls & _).
  assert (Erun : run = mkLoop BreakMax rest max_messages
                   (set_message_counts
                      (tally (topics_of rs) (message_counts self)) self)
                   (out ++ [OutMaxReached max_messages])).
  { subst run. rewrite Hrun. simpl. rewrite Hd, (Qgtb_false _ _ Ht), Hlen.
    rewrite Z.leb_refl. reflexivity. }
  assert (Ebefore : before = mkLoop NeverReturns [] max_messages
                      (set_message_counts
                         (tally (topics_of rs) (message_counts self)) self)
                      (out ++ [])).
  { subst before. rewrite <- (app_nil_r (fetches rs)), Hrun. simpl.
    rewrite Hlen. reflexivity. }
  rewrite Erun in Htot, Hcalls |- *. rewrite Ebefore. simpl in *.
  rewrite app_nil_r.
  repeat split; auto. lia.
Qed.

(** C4, amended.  At every point of a run the sum of the per-topic counts
    has grown by the number of messages the loop counted; the analyzer
    calls are at most as many, since a counted message whose value is empty
    or whose topic is no telemetry topic is not analysed; and no message
    number is analysed twice.  On the fresh counts of a session the sum is
    the running count itself.  This is the state at every point of a longer
    run: a run that passes the end of [src] goes on from the state stated
    here. *)
Theorem counts_match_counted_messages (dumps : json -> string)
    (max_messages timeout : Z) (start_time : Q) (src : source)
    (self : TelemetryConsumer) :
  let run := for_message dumps max_messages timeout start_time src 0 self in
  0 <= final_count run
  /\ total_of (self_after run) = total_of self + final_count run
  /\ Z.of_nat (List.length (call_numbers (emitted run))) <= final_count run
  /\ NoDup (call_numbers (emitted run))
  /\ Forall (fun n => 0 < n <= final_count run) (call_numbers (emitted run))
  /\ (forall brokers topics,
        let fresh := for_message dumps max_messages timeout start_time src 0
                       (connected (init brokers topics) src) in
        total_of (self_after fresh) = final_count fresh)
  /\ (forall src' : source,
        exit run = NeverReturns ->
        for_message dumps max_messages timeout start_time (src ++ src') 0 self
        = emit_before (emitted run)
            (for_message dumps max_messages timeout start_time src'
                         (final_count run) (self_after run))).
Proof.
  intros run.
  destruct (loop_accounting dumps max_messages timeout start_time src 0 self)
    as (Hle & Htot & _ & Hall & Hnd & Hlen).
  fold run in Hle, Htot, Hall, Hnd, Hlen.
  do 5 (split; [assumption || lia |]). split.
  - intros brokers topics fresh.
    destruct (loop_accounting dumps max_messages timeout start_time src 0
                (connected (init brokers topics) src)) as (_ & Hfresh & _).
    fold fresh in Hfresh. rewrite Hfresh.
    unfold total_of at 1. simpl. rewrite zero_counts_total. lia.
  - intros src' Hexit. apply loop_cut. exact Hexit.
Qed.

(** A record with no value is counted and never analysed: the sum of the
    counts is not the number of analyzer calls. *)
Lemma counted_but_not_analysed :
  let src := [Fetch (example_record "otel.traces" 0 WAbsent) 1] in
  let run := for_message example_dumps 10 30 0 src 0
               (connected (init KAFKA_BROKERS TOPICS) src) in
  total_of (self_after run) = 1
  /\ call_numbers (emitted run) = []
  /\ ~ counts_equal_dispatches example_dumps.
Proof.
  intros src run. split; [reflexivity |]. split; [reflexivity |].
  intros H. specialize (H 10 30 0%Q src). discriminate H.
Qed.

(** ** The report on every way out of the loop *)

Lemma handlers_hang (x : loop_exit) :
  fst (handlers x) = Hangs -> x = NeverReturns.
Proof. destruct x as [| | | [] |]; simpl; congruence. Qed.

Lemma handlers_return (x : loop_exit) :
  stop_reason_of x <> None -> fst (handlers x) = Returned.
Proof. destruct x as [| | | [] |]; simpl; congruence. Qed.

Lemma consume_messages_connected (dumps : json -> string)
    (max_messages timeout : Z) (start_time : Q) (src : source)
    (self : TelemetryConsumer) :
  consumer self = Some src ->
  let run := for_message dumps max_messages timeout start_time src 0 self in
  let self2 := set_consumer (Some (remaining run)) (self_after run) in
  fst (handlers (exit run)) <> Hangs ->
  consume_messages dumps max_messages timeout start_time self
  = (fst (handlers (exit run)), self2,
     ([OutConsuming max_messages timeout; OutPressCtrlC] ++ emitted run
      ++ snd (handlers (exit run)))
     ++ output_of (print_summary self2)).
Proof.
  intros Hc run self2 Hh. unfold consume_messages. rewrite Hc. cbv zeta.
  fold run. fold self2.
  destruct (handlers (exit run)) as [c out]. simpl in Hh. cbn [fst snd].
  unfold print_summary, output_of. cbn [snd].
  rewrite <- !app_assoc.
  destruct c; try congruence; reflexivity.
Qed.

(** C7.  After a successful [connect], whenever the loop is left (by a
    bound, by the end of the iterator, by a user interrupt, by an exception
    of the source or of the processing of a message)
    [consume_messages] ends with the lines of [print_summary] on the counts
    the loop had reached: the total and the per-topic counts of all the
    messages counted before the exit.  It returns normally on each of the
    five stop reasons. *)
Theorem report_on_every_exit (dumps : json -> string)
    (max_messages timeout : Z) (start_time : Q) (src : source)
    (self0 : TelemetryConsumer) :
  let self1 := connected self0 src in
  let run := for_message dumps max_messages timeout start_time src 0 self1 in
  let self2 := set_consumer (Some (remaining run)) (self_after run) in
  connect (Ok src) self0 = (Ok true, self1, [OutConnected (brokers self0)])
  /\ (exit run <> NeverReturns ->
      exists c before,
        consume_messages dumps max_messages timeout start_time self1
        = (c, self2, before ++ output_of (print_summary self2))
        /\ c <> Hangs
        /\ (stop_reason_of (exit run) <> None -> c = Returned)
        /\ message_counts self2 = message_counts (self_after run)
        /\ total_of self2 = total_of self0 + final_count run
        /\ In (OutTotal (total_of self0 + final_count run))
              (output_of (print_summary self2))
        /\ (forall t n, In (t, n) (message_counts (self_after run)) ->
                        In (OutTopicCount t n) (output_of (print_summary self2)))).
Proof.
  intros self1 run self2. split; [reflexivity |]. intros Hexit.
  assert (Htot : total_of self2 = total_of self0 + final_count run).
  { destruct (loop_accounting dumps max_messages timeout start_time src 0 self1)
      as (_ & Ht & _).
    fold run in Ht. unfold self2, total_of in *. simpl in *. lia. }
  assert (Hsum : In (OutTotal (total_of self0 + final_count run))
                    (output_of (print_summary self2))
                 /\ (forall t n, In (t, n) (message_counts (self_after run)) ->
                       In (OutTopicCount t n) (output_of (print_summary self2)))).
  { unfold print_summary, output_of. cbn [snd]. split.
    - rewrite <- Htot. unfold total_of. simpl. auto.
    - intros t n Hin. apply in_or_app. right. apply in_or_app. left.
      apply in_map_iff. exists (t, n). split; [reflexivity | exact Hin]. }
  destruct Hsum as [Hsum1 Hsum2].
  assert (Hh : fst (handlers (exit run)) <> Hangs).
  { intros H. apply handlers_hang in H. contradiction. }
  exists (fst (handlers (exit run))),
         ([OutConsuming max_messages timeout; OutPressCtrlC] ++ emitted run
          ++ snd (handlers (exit run))).
  split.
  - apply consume_messages_connected; [reflexivity | exact Hh].
  - repeat split; auto. apply handlers_return.
Qed.

(** ** A message that cannot be decoded or analysed *)

Lemma tally_keys (ts : list string) (d : list (string * Z)) :
  Py.keys (tally ts d) = Py.keys d.
Proof.
  unfold tally. revert d. induction ts as [| t ts IH]; intros d; simpl.
  - reflexivity.
  - rewrite IH. apply bump_keys.
Qed.

Lemma tally_app (a b : list string) (d : list (string * Z)) :
  tally (a ++ b) d = tally b (tally a d).
Proof. unfold tally. apply fold_left_app. Qed.

(** A truthy scalar on a telemetry topic: the analyzer is called and raises
    at its first membership test. *)
Lemma dispatch_scalar (m : message) (n : Z) (self : TelemetryConsumer) :
  is_scalar (value m) = true ->
  Py.truthy (value m) = true ->
  is_telemetry_topic (topic m) = true ->
  exists w, dispatch m n self = (Raise TypeError, self, [CallAnalyzer w n]).
Proof.
  intros Hs Ht Htopic. unfold dispatch. rewrite Ht. simpl when.
  unfold is_telemetry_topic in Htopic.
  destruct (String.eqb (topic m) "otel.traces");
    [| destruct (String.eqb (topic m) "otel.metrics");
       [| destruct (String.eqb (topic m) "otel.logs"); [| discriminate]]].
  - exists Traces. destruct (value m); try discriminate; reflexivity.
  - exists Metrics. destruct (value m); try discriminate; reflexivity.
  - exists Logs. destruct (value m); try discriminate; reflexivity.
Qed.

(** Such a record is counted, shown, and ends the loop with TypeError. *)
Lemma scalar_counted_then_raises (dumps : json -> string)
    (max_messages timeout : Z) (start_time : Q)
    (odd : record wire) (now : Q) (rest : source) (m : message) (c : Z)
    (self : TelemetryConsumer) :
  deserialize odd = Ok m ->
  is_scalar (value m) = true ->
  Py.truthy (value m) = true ->
  is_telemetry_topic (topic m) = true ->
  Py.lookup (topic m) (message_counts self) <> None ->
  result_of (print_message_info dumps m self) = Ok tt ->
  in_time timeout start_time now ->
  c < max_messages ->
  let run := for_message dumps max_messages timeout start_time
                         (Fetch odd now :: rest) c self in
  exit run = Raised TypeError
  /\ remaining run = rest
  /\ final_count run = c + 1
  /\ self_after run
     = set_message_counts (bump (topic odd) (message_counts self)) self
  /\ call_numbers (emitted run) = [c + 1].
Proof.
  intros Hd Hs Ht Htopic Hreg Hinfo Htime Hc run. subst run.
  rewrite <- (deserialize_topic odd m Hd).
  destruct (Py.lookup (topic m) (message_counts self)) as [cnt |] eqn:Hl;
    [| congruence].
  destruct (stateless_print_message_info dumps m) as (r1 & info & H1).
  rewrite H1 in Hinfo. unfold result_of in Hinfo. simpl in Hinfo. subst r1.
  assert (Hi : call_numbers info = []).
  { apply call_numbers_none.
    generalize (emits_print_message_info dumps m self). rewrite H1.
    exact (fun H => H). }
  destruct (dispatch_scalar m (c + 1)
              (set_message_counts
                 (Py.store (topic m) (cnt + 1) (message_counts self)) self)
              Hs Ht Htopic) as (w & Hw).
  simpl. rewrite Hd, (Qgtb_false _ _ Htime).
  replace (max_messages <=? c) with false by (symmetry; apply Z.leb_gt; lia).
  unfold count_message, bump. rewrite Hl.
  unfold show_and_analyze, bind, print. rewrite H1, Hw. simpl.
  rewrite call_numbers_app, Hi. repeat split; reflexivity.
Qed.

(** C1, amended.  A value that fails to decode ends the loop.  The
    exception is raised by the iteration, before the record reaches the body
    of the loop: the record is not counted and nothing is printed for it (the
    counts and the lines are those of the run over the records before it), no
    later record is pulled, the error is printed and the summary of the
    records counted so far follows.  A value that decodes to a truthy scalar
    on a telemetry topic is counted once, by one increment of its topic and
    one of the running count, before its analysis raises TypeError, which
    ends the loop in the same way. *)
Theorem decode_failure_ends_loop (dumps : json -> string)
    (max_messages timeout : Z) (start_time : Q)
    (rs : list (record wire * Q)) (bad : record wire) (now : Q)
    (rest : source) (self : TelemetryConsumer) :
  Forall (fun rn => accepts dumps self (fst rn) = true
                    /\ in_time timeout start_time (snd rn)) rs ->
  Z.of_nat (List.length rs) <= max_messages ->
  let src := fetches rs ++ Fetch bad now :: rest in
  let run := for_message dumps max_messages timeout start_time src 0 self in
  let before := for_message dumps max_messages timeout start_time
                            (fetches rs) 0 self in
  (forall e,
      value_deserializer (value bad) = Raise e ->
      exit run = Raised e
      /\ remaining run = rest
      /\ final_count run = Z.of_nat (List.length rs)
      /\ self_after run = self_after before
      /\ emitted run = emitted before
      /\ message_counts (self_after run)
         = tally (topics_of rs) (message_counts self)
      /\ (is_Exception e = true ->
          stop_reason_of (exit run) = Some SourceError
          /\ (consumer self = Some src ->
              let self2 := set_consumer (Some rest) (self_after before) in
              consume_messages dumps max_messages timeout start_time self
              = (Returned, self2,
                 ([OutConsuming max_messages timeout; OutPressCtrlC]
                  ++ emitted before ++ [OutErrorConsuming e])
                 ++ output_of (print_summary self2)))))
  /\ (forall m,
        deserialize bad = Ok m ->
        is_scalar (value m) = true ->
        Py.truthy (value m) = true ->
        is_telemetry_topic (topic m) = true ->
        Py.lookup (topic m) (message_counts self) <> None ->
        result_of (print_message_info dumps m self) = Ok tt ->
        in_time timeout start_time now ->
        Z.of_nat (List.length rs) < max_messages ->
        exit run = Raised TypeError
        /\ stop_reason_of (exit run) = Some SourceError
        /\ remaining run = rest
        /\ final_count run = Z.of_nat (List.length rs) + 1
        /\ message_counts (self_after run)
           = tally (topics_of rs ++ [topic bad]) (message_counts self)
        /\ total_of (self_after run) = total_of (self_after before) + 1).
Proof.
  intros Hall Hmax src run before.
  destruct (loop_accepts_all dumps max_messages timeout start_time rs 0 self Hall)
    as (out & Hrun); [lia |].
  set (self' := set_message_counts
                  (tally (topics_of rs) (message_counts self)) self) in *.
  assert (Ebefore : before = mkLoop NeverReturns [] (Z.of_nat (List.length rs))
                               self' (out ++ [])).
  { subst before. rewrite <- (app_nil_r (fetches rs)), Hrun. reflexivity. }
  split.
  - intros e He.
    assert (Erun : run = mkLoop (Raised e) rest (Z.of_nat (List.length rs))
                           self' (out ++ [])).
    { subst run src. rewrite Hrun. simpl. unfold deserialize. rewrite He.
      reflexivity. }
    rewrite Ebefore. rewrite Erun. cbn [exit remaining final_count self_after emitted].
    do 6 (split; [reflexivity |]). intros Hexc. split.
    + destruct e; simpl in *; congruence.
    + intros Hc.
      assert (Hh : fst (handlers (exit run)) <> Hangs).
      { rewrite Erun. destruct e; simpl in *; congruence. }
      rewrite (consume_messages_connected dumps max_messages timeout start_time
                 src self Hc Hh).
      fold run. rewrite Erun. cbn [exit remaining final_count self_after emitted].
      replace (handlers (Raised e)) with (Returned, [OutErrorConsuming e])
        by (destruct e; simpl in *; congruence).
      reflexivity.
  - intros m Hd Hs Ht Htopic Hreg Hinfo Htime Hlt.
    assert (Hreg' : Py.lookup (topic m) (message_counts self') <> None).
    { intros Hn. apply Hreg.
      apply (lookup_keys (topic m) (message_counts self') (message_counts self));
        [| exact Hn].
      simpl. apply tally_keys. }
    assert (Hinfo' : result_of (print_message_info dumps m self') = Ok tt).
    { destruct (stateless_print_message_info dumps m) as (r1 & info & H1).
      rewrite H1 in Hinfo |- *. exact Hinfo. }
    destruct (scalar_counted_then_raises dumps max_messages timeout start_time
                bad now rest m (Z.of_nat (List.length rs)) self'
                Hd Hs Ht Htopic Hreg' Hinfo' Htime Hlt)
      as (Hexit & Hrem & Hcount & Hself & _).
    assert (Erun : run = emit_before out
                     (for_message dumps max_messages timeout start_time
                        (Fetch bad now :: rest) (Z.of_nat (List.length rs)) self')).
    { subst run src. rewrite Hrun. reflexivity. }
    rewrite Erun, Ebefore.
    cbn [emit_before exit remaining final_count self_after emitted].
    rewrite Hexit, Hrem, Hcount, Hself.
    unfold self', total_of. cbn [message_counts set_message_counts].
    do 4 (split; [reflexivity |]). split.
    + rewrite tally_app. reflexivity.
    + unfold bump.
      destruct (Py.lookup (topic bad) (tally (topics_of rs) (message_counts self)))
        as [cnt |] eqn:Hl.
      * apply store_total. exact Hl.
      * exfalso. apply Hreg'. rewrite (deserialize_topic bad m Hd). exact Hl.
Qed.

(** A value that fails to decode is not counted and a scalar value is
    counted once; either way the record after it stays in the source. *)
Lemma undecodable_value_stops_loop :
  let bad := example_record "otel.traces" 0 (WBad JSONDecodeError) in
  let odd := example_record "otel.traces" 0 (WJson (JInt 5)) in
  let good := example_record "otel.traces" 1
                (WJson (JObj [("resourceSpans", JArr [])])) in
  let self := init KAFKA_BROKERS TOPICS in
  let run := for_message example_dumps 10 30 0
                         [Fetch bad 1; Fetch good 2] 0 self in
  let run' := for_message example_dumps 10 30 0
                          [Fetch odd 1; Fetch good 2] 0 self in
  (exit run = Raised JSONDecodeError
   /\ final_count run = 0
   /\ total_of (self_after run) = 0
   /\ emitted run = []
   /\ remaining run = [Fetch good 2])
  /\ (exit run' = Raised TypeError
      /\ final_count run' = 1
      /\ total_of (self_after run') = 1
      /\ remaining run' = [Fetch good 2])
  /\ ~ survives_decode_failure example_dumps.
Proof.
  intros bad odd good self run run'.
  split; [repeat split; reflexivity |].
  split; [repeat split; reflexivity |].
  intros H.
  specialize (H bad good 1%Q 2%Q JSONDecodeError 10 30 0%Q self eq_refl).
  destruct H as (Hcount & _).
  - discriminate.
  - reflexivity.
  - unfold in_time, Qle. simpl. lia.
  - unfold in_time, Qle. simpl. lia.
  - lia.
  - discriminate Hcount.
Qed.

(** One good record, then a value that fails to decode, then a record that
    is left in the source. *)
Lemma decode_failure_ends_loop_witness :
  let good := example_record "otel.metrics" 0
                (WJson (JObj [("resourceMetrics", JArr [])])) in
  let bad := example_record "otel.traces" 1 (WBad JSONDecodeError) in
  let self := init KAFKA_BROKERS TOPICS in
  let rs := [(good, 1%Q)] in
  let run := for_message example_dumps 10 30 0
                         (fetches rs ++ Fetch bad 2 :: [Fetch good 3]) 0 self in
  Forall (fun rn => accepts example_dumps self (fst rn) = true
                    /\ in_time 30 0 (snd rn)) rs
  /\ Z.of_nat (List.length rs) <= 10
  /\ exit run = Raised JSONDecodeError
  /\ final_count run = 1
  /\ remaining run = [Fetch good 3].
Proof.
  intros good bad self rs run.
  assert (Hall : Forall (fun rn => accepts example_dumps self (fst rn) = true
                                   /\ in_time 30 0 (snd rn)) rs).
  { repeat constructor. unfold in_time, Qle. simpl. lia. }
  assert (Hmax : Z.of_nat (List.length rs) <= 10) by (simpl; lia).
  split; [exact Hall |]. split; [exact Hmax |].
  destruct (decode_failure_ends_loop example_dumps 10 30 0 rs bad 2
              [Fetch good 3] self Hall Hmax) as [Hbad _].
  destruct (Hbad JSONDecodeError eq_refl) as (Hexit & Hrem & Hcount & _).
  split; [exact Hexit |]. split; [exact Hcount | exact Hrem].
Defined.

(** Two records accepted under [max_messages = 2], a third one in time. *)
Lemma stops_at_max_messages_witness :
  let first := example_record "otel.traces" 0
                 (WJson (JObj [("resourceSpans", JArr [])])) in
  let second := example_record "otel.logs" 0 WAbsent in
  let third := example_record "otel.metrics" 0
                 (WJson (JObj [("resourceMetrics", JArr [])])) in
  let self := init KAFKA_BROKERS TOPICS in
  let rs := [(first, 1%Q); (second, 2%Q)] in
  let run := for_message example_dumps 2 30 0
                         (fetches rs ++ Fetch third 3 :: []) 0 self in
  Z.of_nat (List.length rs) = 2
  /\ Forall (fun rn => accepts example_dumps self (fst rn) = true
                       /\ in_time 30 0 (snd rn)) rs
  /\ in_time 30 0 3
  /\ exit run = BreakMax
  /\ final_count run = 2
  /\ message_counts (self_after run)
     = [("otel.traces", 1); ("otel.metrics", 0); ("otel.logs", 1)].
Proof.
  intros first second third self rs run.
  assert (Hall : Forall (fun rn => accepts example_dumps self (fst rn) = true
                                   /\ in_time 30 0 (snd rn)) rs).
  { repeat constructor; unfold in_time, Qle; simpl; lia. }
  assert (Ht : in_time 30 0 3) by (unfold in_time, Qle; simpl; lia).
  split; [reflexivity |]. split; [exact Hall |]. split; [exact Ht |].
  destruct (stops_at_max_messages example_dumps 2 30 0 rs third 3 []
              (mkRecord "otel.metrics" 0 0 (Some (Converts 1700000000000)) []
                        (JObj [("resourceMetrics", JArr [])]))
              self eq_refl Hall eq_refl Ht)
    as (Hexit & _ & Hcount & _ & Hcounts & _).
  split; [exact Hexit |]. split; [exact Hcount |].
  exact (eq_trans Hcounts eq_refl).
Defined.

(** The timing alone does not give the bound.  With a bound of 2 and three
    records that all arrive in time, a first record whose value is the
    number 5 is counted and then makes its analyzer raise: the loop ends at
    a count of 1 on the exception, never reaching the bound.  And after two
    accepted records, a third whose value does not decode raises during the
    pull itself: the count is 2 but the loop ends on the exception, not on
    the bound. *)
Lemma rejected_record_preempts_max_bound :
  let odd := example_record "otel.traces" 0 (WJson (JInt 5)) in
  let good := example_record "otel.traces" 1
                (WJson (JObj [("resourceSpans", JArr [])])) in
  let bad := example_record "otel.traces" 2 (WBad JSONDecodeError) in
  let self := init KAFKA_BROKERS TOPICS in
  let run := for_message example_dumps 2 30 0
                         (fetches [(odd, 1%Q); (good, 2%Q)]
                          ++ Fetch good 3 :: []) 0 self in
  let run' := for_message example_dumps 2 30 0
                          (fetches [(good, 1%Q); (good, 2%Q)]
                           ++ Fetch bad 3 :: []) 0 self in
  (exit run = Raised TypeError
   /\ stop_reason_of (exit run) = Some SourceError
   /\ final_count run = 1
   /\ remaining run = [Fetch good 2; Fetch good 3])
  /\ (exit run' = Raised JSONDecodeError
      /\ stop_reason_of (exit run') = Some SourceError
      /\ final_count run' = 2
      /\ emitted run' = emitted (for_message example_dumps 2 30 0
                                   (fetches [(good, 1%Q); (good, 2%Q)]) 0 self))
  /\ ~ stops_at_max_whenever_in_time example_dumps.
Proof.
  intros odd good bad self run run'.
  split; [repeat split; reflexivity |].
  split; [repeat split; reflexivity |].
  intros H.
  specialize (H 2 30 0%Q [(odd, 1%Q); (good, 2%Q)] good 3%Q [] self eq_refl).
  destruct H as (_ & Hcount).
  - repeat constructor; unfold in_time, Qle; simpl; lia.
  - unfold in_time, Qle; simpl; lia.
  - discriminate Hcount.
Qed.

(** One record counted, then an error of the source: the report gives a
    total of 1. *)
Lemma report_on_every_exit_witness :
  let first := example_record "otel.traces" 0
                 (WJson (JObj [("resourceSpans", JArr [])])) in
  let src := [Fetch first 1; Fails KafkaError] in
  let self0 := init KAFKA_BROKERS TOPICS in
  let run := for_message example_dumps 10 30 0 src 0 (connected self0 src) in
  exit run <> NeverReturns
  /\ exists c self2 before,
       consume_messages example_dumps 10 30 0 (connected self0 src)
       = (c, self2, before ++ output_of (print_summary self2))
       /\ c = Returned
       /\ In (OutTotal 1) (output_of (print_summary self2)).
Proof.
  intros first src self0 run.
  assert (Hexit : exit run <> NeverReturns) by discriminate.
  split; [exact Hexit |].
  destruct (report_on_every_exit example_dumps 10 30 0 src self0) as [_ H].
  destruct (H Hexit) as (c & before & Hrun & _ & Hret & _ & _ & Htotal & _).
  exists c, (set_consumer (Some (remaining run)) (self_after run)), before.
  split; [exact Hrun |]. split; [apply Hret; discriminate | exact Htotal].
Defined.

(** With [timeout = 0] the first record is pulled and dropped. *)
Lemma bound_checked_after_pull_witness :
  let first := example_record "otel.traces" 0
                 (WJson (JObj [("resourceSpans", JArr [])])) in
  let src := [Fetch first 1; Fetch first 2] in
  let self := init KAFKA_BROKERS TOPICS in
  let run := for_message example_dumps 10 0 0 src 0 self in
  (0 <= 0 /\ forall r now rest, src = Fetch r now :: rest -> (0 < now)%Q)
  /\ final_count run = 0
  /\ self_after run = self
  /\ remaining run = [Fetch first 2].
Proof.
  intros first src self run.
  assert (Hclock : 0 <= 0 /\ forall r now rest,
                     src = Fetch r now :: rest -> (0 < now)%Q).
  { split; [lia |]. intros r now rest [= _ <- _]. reflexivity. }
  split; [exact Hclock |].
  destruct (bound_checked_after_pull example_dumps 10 0 0) as [_ H].
  destruct (H src self (or_intror Hclock)) as (Hcount & Hself & _ & Hrem).
  split; [exact Hcount |]. split; [exact Hself |].
  apply (Hrem (Fetch first 1)). reflexivity.
Defined.

(** A timeout of 0 does not by itself keep the loop from counting.  Line
    122 stops on an elapsed time greater than the timeout: with a clock that
    reads after the pull what it read at the start, the elapsed time is 0,
    the test fails, and the record is counted and analysed. *)
Lemma zero_timeout_counts_on_still_clock :
  let first := example_record "otel.traces" 0
                 (WJson (JObj [("resourceSpans", JArr [])])) in
  let self := init KAFKA_BROKERS TOPICS in
  let run := for_message example_dumps 10 0 0
                         [Fetch first 0; Exhausted] 0 self in
  exit run = IterExhausted
  /\ final_count run = 1
  /\ total_of (self_after run) = 1
  /\ call_numbers (emitted run) = [1]
  /\ ~ zero_bound_counts_nothing example_dumps.
Proof.
  intros first self run.
  do 4 (split; [reflexivity |]).
  intros H.
  destruct (H 10 0 0%Q [Fetch first 0; Exhausted] self (or_intror (Z.le_refl 0)))
    as (Hcount & _).
  discriminate Hcount.
Qed.

(** * Further properties of the consumer *)

(** ** The dictionary of counts *)

Lemma lookup_store_same {V : Type} (k : string) (v : V) (d : list (string * V)) :
  Py.lookup k (Py.store k v d) = Some v.
Proof.
  induction d as [| [k' v'] d IH]; simpl.
  - rewrite String.eqb_refl. reflexivity.
  - destruct (String.eqb k k') eqn:E; simpl; rewrite E; auto.
Qed.

Lemma lookup_store_other {V : Type} (k k' : string) (v : V)
    (d : list (string * V)) :
  k' <> k -> Py.lookup k' (Py.store k v d) = Py.lookup k' d.
Proof.
  intros Hne. induction d as [| [k1 v1] d IH]; simpl.
  - destruct (String.eqb_spec k' k); [contradiction | reflexivity].
  - destruct (String.eqb_spec k k1) as [-> | Hk]; simpl.
    + destruct (String.eqb_spec k' k1); [contradiction | reflexivity].
    + destruct (String.eqb k' k1); [reflexivity | exact IH].
Qed.

Lemma lookup_in_keys {V : Type} (k : string) (d : list (string * V)) :
  In k (Py.keys d) <-> Py.lookup k d <> None.
Proof.
  induction d as [| [k' v'] d IH]; simpl.
  - split; [intros [] | congruence].
  - destruct (String.eqb_spec k k') as [-> | Hk].
    + split; [discriminate | auto].
    + rewrite <- IH. split; [intros [H | H]; [congruence | exact H] | auto].
Qed.

Lemma store_keys_in {V : Type} (k x : string) (v : V) (d : list (string * V)) :
  In x (Py.keys (Py.store k v d)) <-> x = k \/ In x (Py.keys d).
Proof.
  induction d as [| [k' v'] d IH]; simpl.
  - split; [intros [H | []]; auto | intros [H | []]; auto].
  - destruct (String.eqb_spec k k') as [-> | Hk]; simpl.
    + split; [auto | intros [H | H]; auto].
    + unfold Py.keys in IH. rewrite IH. tauto.
Qed.

Lemma store_keys_nodup {V : Type} (k : string) (v : V) (d : list (string * V)) :
  NoDup (Py.keys d) -> NoDup (Py.keys (Py.store k v d)).
Proof.
  induction d as [| [k' v'] d IH]; simpl; intros Hnd.
  - constructor; [intros [] | constructor].
  - inversion Hnd as [| x l Hnotin Hrest]; subst.
    destruct (String.eqb_spec k k') as [-> | Hk]; simpl.
    + exact Hnd.
    + constructor; [| apply IH; exact Hrest].
      intros Hin. apply (store_keys_in k k' v d) in Hin.
      destruct Hin as [H | H]; [congruence | contradiction].
Qed.

Lemma zero_counts_lookup (topics : list string) (t : string) :
  forall d : list (string * Z),
    Py.lookup t (fold_left (fun d topic => Py.store topic 0 d) topics d)
    = if existsb (String.eqb t) topics then Some 0 else Py.lookup t d.
Proof.
  induction topics as [| a ts IH]; intros d; simpl.
  - reflexivity.
  - rewrite IH. destruct (existsb (String.eqb t) ts).
    + rewrite orb_true_r. reflexivity.
    + rewrite orb_false_r. destruct (String.eqb_spec t a) as [-> | Hne].
      * apply lookup_store_same.
      * apply lookup_store_other. exact Hne.
Qed.

Lemma zero_counts_nodup (topics : list string) :
  forall d : list (string * Z),
    NoDup (Py.keys d) ->
    NoDup (Py.keys (fold_left (fun d topic => Py.store topic 0 d) topics d)).
Proof.
  induction topics as [| a ts IH]; intros d Hd; simpl.
  - exact Hd.
  - apply IH. apply store_keys_nodup. exact Hd.
Qed.

Lemma existsb_eqb_in (t : string) (ts : list string) :
  existsb (String.eqb t) ts = true <-> In t ts.
Proof.
  rewrite existsb_exists. split.
  - intros (x & Hx & E). apply String.eqb_eq in E. subst. exact Hx.
  - intros H. exists t. split; [exact H | apply String.eqb_refl].
Qed.

(** X1.  A new consumer is not connected and registers exactly the topics it
    is given, each once and with the count 0, whatever the repetitions in
    the list: a configured topic looks up to 0, any other topic is absent
    from the counts, and the total is 0. *)
Theorem init_registers_topics (brokers topics : list string) (t : string) :
  let self := init brokers topics in
  consumer self = None
  /\ (In t topics -> Py.lookup t (message_counts self) = Some 0)
  /\ (~ In t topics -> Py.lookup t (message_counts self) = None)
  /\ (In t (Py.keys (message_counts self)) <-> In t topics)
  /\ NoDup (Py.keys (message_counts self))
  /\ total_of self = 0.
Proof.
  intros self. subst self. unfold init, total_of. simpl. unfold zero_counts.
  assert (Hl := zero_counts_lookup topics t []).
  split; [reflexivity |]. split; [| split; [| split; [| split]]].
  - intros Hin. rewrite Hl.
    rewrite (proj2 (existsb_eqb_in t topics) Hin). reflexivity.
  - intros Hnot. rewrite Hl.
    destruct (existsb (String.eqb t) topics) eqn:E; [| reflexivity].
    apply existsb_eqb_in in E. contradiction.
  - rewrite lookup_in_keys, Hl.
    destruct (existsb (String.eqb t) topics) eqn:E.
    + apply existsb_eqb_in in E. split; [auto | discriminate].
    + split; [simpl; congruence |].
      intros Hin. apply existsb_eqb_in in Hin. congruence.
  - apply zero_counts_nodup. constructor.
  - apply zero_counts_total.
Qed.

(** X2.  Counting a message touches the count of its topic alone: on a
    registered topic the count goes up by one, every other topic keeps its
    count, the registered topics and their order stay, nothing is printed
    and the connection is untouched; on a topic that is not registered
    KeyError is raised and the object is left as it was. *)
Theorem count_message_touches_one_topic (m : message) (self : TelemetryConsumer) :
  (forall c, Py.lookup (topic m) (message_counts self) = Some c ->
     let run := count_message m self in
     result_of run = Ok tt
     /\ output_of run = []
     /\ Py.lookup (topic m) (message_counts (object_of run)) = Some (c + 1)
     /\ (forall t, t <> topic m ->
           Py.lookup t (message_counts (object_of run))
           = Py.lookup t (message_counts self))
     /\ Py.keys (message_counts (object_of run)) = Py.keys (message_counts self)
     /\ total_of (object_of run) = total_of self + 1
     /\ consumer (object_of run) = consumer self
     /\ topics (object_of run) = topics self
     /\ brokers (object_of run) = brokers self)
  /\ (Py.lookup (topic m) (message_counts self) = None ->
      count_message m self = (Raise KeyError, self, [])).
Proof.
  split.
  - intros c Hl run. subst run. unfold count_message. rewrite Hl.
    unfold result_of, object_of, output_of, total_of. simpl.
    split; [reflexivity |]. split; [reflexivity |].
    split; [apply lookup_store_same |].
    split; [intros t Ht; apply lookup_store_other; exact Ht |].
    split; [apply store_keys with (c := c); exact Hl |].
    split; [apply store_total; exact Hl |]. auto.
  - intros Hl. unfold count_message. rewrite Hl. reflexivity.
Qed.

Lemma count_of_cons (t a : string) (ts : list string) :
  count_of t (a :: ts) = (if String.eqb a t then 1 else 0) + count_of t ts.
Proof.
  unfold count_of. simpl.
  destruct (string_dec a t) as [-> | Hne].
  - rewrite String.eqb_refl. rewrite Nat2Z.inj_succ. lia.
  - destruct (String.eqb_spec a t); [contradiction | lia].
Qed.

Lemma tally_lookup (ts : list string) (t : string) :
  forall (d : list (string * Z)) (c : Z),
    Py.lookup t d = Some c ->
    Py.lookup t (tally ts d) = Some (c + count_of t ts).
Proof.
  induction ts as [| a ts IH]; intros d c Hl.
  - unfold count_of. simpl. rewrite Z.add_0_r. exact Hl.
  - change (tally (a :: ts) d) with (tally ts (bump a d)).
    rewrite count_of_cons. destruct (String.eqb_spec a t) as [-> | Hne].
    + rewrite (IH (bump t d) (c + 1)).
      * f_equal. lia.
      * unfold bump. rewrite Hl. apply lookup_store_same.
    + rewrite (IH (bump a d) c).
      * f_equal.
      * unfold bump. destruct (Py.lookup a d) as [ca |]; [| exact Hl].
        rewrite lookup_store_other; [exact Hl | congruence].
Qed.

(** ** Runs of the loop after accepted records *)

Section AfterAccepted.

Variable dumps : json -> string.
Variables (max_messages timeout : Z) (start_time : Q).
Variable rs : list (record wire * Q).
Variable self : TelemetryConsumer.

Hypothesis accepted :
  Forall (fun rn => accepts dumps self (fst rn) = true
                    /\ in_time timeout start_time (snd rn)) rs.
Hypothesis below_max : Z.of_nat (List.length rs) <= max_messages.

Local Abbreviation loop := (for_message dumps max_messages timeout start_time).
Local Abbreviation counted :=
  (set_message_counts (tally (topics_of rs) (message_counts self)) self).

(** The run over the accepted records alone, and what a longer run does
    after them. *)
Lemma accepted_then :
  exists out,
    loop (fetches rs) 0 self
    = mkLoop NeverReturns [] (Z.of_nat (List.length rs)) counted out
    /\ forall tail,
         loop (fetches rs ++ tail) 0 self
         = emit_before out (loop tail (Z.of_nat (List.length rs)) counted).
Proof.
  destruct (loop_accepts_all dumps max_messages timeout start_time rs 0 self
              accepted) as (out & Hrun); [lia |].
  exists out. split.
  - rewrite <- (app_nil_r (fetches rs)), Hrun. simpl.
    unfold emit_before. simpl. rewrite app_nil_r. reflexivity.
  - intros tail. rewrite Hrun. reflexivity.
Qed.

Lemma counted_total :
  total_of counted = total_of self + Z.of_nat (List.length rs).
Proof.
  destruct accepted_then as (out & Hbefore & _).
  destruct (loop_accounting dumps max_messages timeout start_time
              (fetches rs) 0 self) as (_ & Htot & _).
  rewrite Hbefore in Htot. simpl in Htot. rewrite Htot. lia.
Qed.

(** X3.  When every record of the source is accepted in time, at most
    [max_messages] of them, and the iterator then ends, the loop stops for
    the reason SourceExhausted with all of them counted: the total grows by
    their number, each registered topic by the number of records on it, and
    [consume_messages] returns after a summary with that total. *)
Theorem exhausted_source_counts_all (rest : source) :
  let src := fetches rs ++ Exhausted :: rest in
  let run := loop src 0 self in
  exit run = IterExhausted
  /\ stop_reason_of (exit run) = Some SourceExhausted
  /\ final_count run = Z.of_nat (List.length rs)
  /\ remaining run = rest
  /\ total_of (self_after run) = total_of self + Z.of_nat (List.length rs)
  /\ (forall t c, Py.lookup t (message_counts self) = Some c ->
        Py.lookup t (message_counts (self_after run))
        = Some (c + count_of t (topics_of rs)))
  /\ (consumer self = Some src ->
      exists self2 before,
        consume_messages dumps max_messages timeout start_time self
        = (Returned, self2, before ++ output_of (print_summary self2))
        /\ In (OutTotal (total_of self + Z.of_nat (List.length rs)))
              (output_of (print_summary self2))).
Proof.
  intros src run. destruct accepted_then as (out & _ & Hrun).
  assert (Erun : run = mkLoop IterExhausted rest (Z.of_nat (List.length rs))
                         counted (out ++ [])).
  { subst run src. rewrite Hrun. reflexivity. }
  rewrite Erun. cbn [exit remaining final_count self_after emitted].
  do 4 (split; [reflexivity |]).
  split; [apply counted_total |].
  split; [intros t c Hl; simpl; apply tally_lookup; exact Hl |].
  intros Hc.
  assert (Hh : fst (handlers (exit (loop src 0 self))) <> Hangs).
  { fold run. rewrite Erun. discriminate. }
  rewrite (consume_messages_connected dumps max_messages timeout start_time
             src self Hc Hh).
  fold run. rewrite Erun. cbn [exit remaining final_count self_after emitted].
  eexists. eexists. split; [reflexivity |].
  unfold print_summary, output_of. cbn [snd].
  rewrite <- counted_total. unfold total_of. simpl. auto.
Qed.

(** X4.  The elapsed time is tested before the count: a record that
    arrives after the timeout stops the loop for the reason TimeoutReached
    even when [max_messages] records have been counted already.  The late
    record is pulled and dropped; counts and lines are those of the run
    over the records before it, with the timeout line added. *)
Theorem timeout_checked_before_count (late : record wire) (now : Q)
    (rest : source) (m : message) :
  deserialize late = Ok m ->
  (inject_Z timeout < now - start_time)%Q ->
  let run := loop (fetches rs ++ Fetch late now :: rest) 0 self in
  let before := loop (fetches rs) 0 self in
  exit run = BreakTimeout
  /\ stop_reason_of (exit run) = Some TimeoutReached
  /\ final_count run = Z.of_nat (List.length rs)
  /\ remaining run = rest
  /\ self_after run = self_after before
  /\ emitted run = emitted before ++ [OutTimeoutReached timeout].
Proof.
  intros Hd Hlate run before. destruct accepted_then as (out & Hbefore & Hrun).
  subst run before. rewrite Hbefore, Hrun. simpl.
  rewrite Hd, (Qgtb_true _ _ Hlate). simpl. repeat split; reflexivity.
Qed.

Lemma loop_unknown_topic (odd : record wire) (now : Q) (rest : source)
    (m : message) (c : Z) (obj : TelemetryConsumer) :
  deserialize odd = Ok m ->
  Py.lookup (topic m) (message_counts obj) = None ->
  in_time timeout start_time now ->
  c < max_messages ->
  loop (Fetch odd now :: rest) c obj = mkLoop (Raised KeyError) rest c obj [].
Proof.
  intros Hd Hl Ht Hlt. simpl. rewrite Hd, (Qgtb_false _ _ Ht).
  replace (max_messages <=? c) with false by (symmetry; apply Z.leb_gt; lia).
  unfold count_message. rewrite Hl. reflexivity.
Qed.

(** X5.  A record on a topic that is not registered ends the loop with
    KeyError at line 130, before anything is counted or printed for it: the
    running count, the counts and the lines are those of the run over the
    records before it, and no later record is pulled. *)
Theorem unknown_topic_ends_loop (odd : record wire) (now : Q)
    (rest : source) (m : message) :
  deserialize odd = Ok m ->
  Py.lookup (topic m) (message_counts self) = None ->
  in_time timeout start_time now ->
  Z.of_nat (List.length rs) < max_messages ->
  let run := loop (fetches rs ++ Fetch odd now :: rest) 0 self in
  let before := loop (fetches rs) 0 self in
  exit run = Raised KeyError
  /\ stop_reason_of (exit run) = Some SourceError
  /\ final_count run = Z.of_nat (List.length rs)
  /\ remaining run = rest
  /\ self_after run = self_after before
  /\ emitted run = emitted before.
Proof.
  intros Hd Hl Ht Hlt run before.
  destruct accepted_then as (out & Hbefore & Hrun).
  assert (Hl' : Py.lookup (topic m) (message_counts counted) = None).
  { apply (lookup_keys (topic m) (message_counts counted) (message_counts self));
      [simpl; apply tally_keys | exact Hl]. }
  subst run before.
  rewrite Hbefore, Hrun, (loop_unknown_topic odd now rest m _ _ Hd Hl' Ht Hlt).
  unfold emit_before. cbn [exit remaining final_count self_after emitted].
  rewrite app_nil_r. repeat split; reflexivity.
Qed.

(** X6.  An exception raised by the source is handled by its class: a
    KeyboardInterrupt prints the stopped-by-user line and an Exception the
    error line, and [consume_messages] returns; any other BaseException
    prints neither and leaves [consume_messages] after the summary.  In
    each case the summary follows the lines of the records counted before,
    and no later record is pulled. *)
Theorem source_exception_by_class (e : exn) (rest : source) :
  let src := fetches rs ++ Fails e :: rest in
  let before := loop (fetches rs) 0 self in
  let self2 := set_consumer (Some rest) (self_after before) in
  consumer self = Some src ->
  consume_messages dumps max_messages timeout start_time self
  = (match e with
     | KeyboardInterrupt => Returned
     | _ => if is_Exception e then Returned else Propagated e
     end,
     self2,
     ([OutConsuming max_messages timeout; OutPressCtrlC]
      ++ emitted before ++ handler_line e)
     ++ output_of (print_summary self2))
  /\ total_of self2 = total_of self + Z.of_nat (List.length rs)
  /\ (In OutStoppedByUser (handler_line e) <-> e = KeyboardInterrupt)
  /\ (In (OutErrorConsuming e) (handler_line e) <-> is_Exception e = true).
Proof.
  intros src before self2 Hc.
  destruct accepted_then as (out & Hbefore & Hrun).
  assert (Erun : loop src 0 self
                 = mkLoop (Raised e) rest (Z.of_nat (List.length rs))
                          counted (out ++ [])).
  { subst src. rewrite Hrun. reflexivity. }
  assert (Hh : fst (handlers (exit (loop src 0 self))) <> Hangs).
  { rewrite Erun. destruct e; discriminate. }
  split; [| split; [| split]].
  - rewrite (consume_messages_connected dumps max_messages timeout start_time
               src self Hc Hh).
    subst self2 before. rewrite Erun, Hbefore.
    cbn [exit remaining final_count self_after emitted].
    rewrite app_nil_r. destruct e; reflexivity.
  - subst self2 before. rewrite Hbefore. apply counted_total.
  - destruct e; simpl;
      (split;
       [ intros H;
         first [ reflexivity | destruct H as [H | []]; discriminate H
               | destruct H ]
       | intros H; first [ discriminate H | left; reflexivity ] ]).
  - destruct e; simpl;
      (split;
       [ intros H;
         first [ reflexivity | destruct H as [H | []]; discriminate H
               | destruct H ]
       | intros H; first [ discriminate H | left; reflexivity ] ]).
Qed.

End AfterAccepted.

(** ** What every run of the loop keeps *)

Lemma emits_impl {A : Type} (P Q : event -> Prop) (c : M A) :
  (forall ev, P ev -> Q ev) -> emits P c -> emits Q c.
Proof.
  intros Himp Hc self. eapply Forall_impl; [exact Himp | apply Hc].
Qed.

Lemma analysis_lines_record_body (which : analyzer) (rec : json) :
  emits (fun ev => is_analysis_line ev = true) (record_body which rec).
Proof. destruct which; unfold record_body; auto 20 with py. Qed.

Lemma analysis_lines_scope_body (which : analyzer) (scope : json) :
  emits (fun ev => is_analysis_line ev = true) (scope_body which scope).
Proof.
  unfold scope_body. assert (H := analysis_lines_record_body which).
  destruct which; auto 20 with py.
Qed.

Lemma analysis_lines_resource_body (which : analyzer) (group : json) :
  emits (fun ev => is_analysis_line ev = true) (resource_body which group).
Proof.
  unfold resource_body. assert (H := analysis_lines_scope_body which).
  auto 20 with py.
Qed.

Lemma analysis_lines_analyze (which : analyzer) (data : json) :
  emits (fun ev => is_analysis_line ev = true) (analyze which data).
Proof.
  unfold analyze. assert (H := analysis_lines_resource_body which).
  destruct which; auto 20 with py.
Qed.

Lemma info_lines_print_message_info (dumps : json -> string) (m : message) :
  emits (fun ev => is_info_line ev = true) (print_message_info dumps m).
Proof. unfold print_message_info. cbv zeta. auto 20 with py. Qed.

Lemma output_bind_print {A : Type} (ev : event) (c : M A)
    (self : TelemetryConsumer) :
  output_of (bind (print ev) (fun _ => c) self) = ev :: output_of (c self).
Proof.
  unfold bind, print, output_of. destruct (c self) as [[r s] out]. reflexivity.
Qed.

Lemma message_numbers_app (a b : list event) :
  message_numbers (a ++ b) = message_numbers a ++ message_numbers b.
Proof.
  induction a as [| ev a IH]; simpl; [reflexivity |].
  destruct ev; simpl; rewrite ?IH; reflexivity.
Qed.

Lemma message_numbers_none (out : list event) :
  Forall (fun ev => match ev with OutMessageNumber _ => False | _ => True end)
         out ->
  message_numbers out = [].
Proof.
  induction 1 as [| ev out Hev Hout IH]; simpl; [reflexivity |].
  destruct ev; simpl in *; try contradiction; exact IH.
Qed.

Lemma numbers_after_succ (c : Z) (n : nat) :
  numbers_after c (S n) = (c + 1) :: numbers_after (c + 1) n.
Proof.
  unfold numbers_after. simpl. f_equal.
  rewrite <- seq_shift, map_map. apply map_ext. intros i. lia.
Qed.

Section EveryRun.

Variable dumps : json -> string.
Variables (max_messages timeout : Z) (start_time : Q).

Local Abbreviation loop := (for_message dumps max_messages timeout start_time).

(** The lines of one message start with the rule and the number of the
    message, and no other line carries a message number. *)
Lemma show_and_analyze_numbers (m : message) (n : Z) (self : TelemetryConsumer) :
  message_numbers (output_of (show_and_analyze dumps m n self)) = [n].
Proof.
  unfold show_and_analyze. rewrite !output_bind_print. simpl. f_equal.
  apply message_numbers_none.
  assert (He : emits (fun ev => match ev with
                                | OutMessageNumber _ => False
                                | _ => True
                                end)
                     (bind (print_message_info dumps m)
                           (fun _ => dispatch m n))).
  { apply emits_bind.
    - apply emits_impl with (P := fun ev => is_info_line ev = true);
        [intros []; simpl; (discriminate || exact (fun _ => I)) |].
      apply info_lines_print_message_info.
    - intros _. unfold dispatch. apply emits_when.
      assert (Hw : forall which,
                 emits (fun ev => match ev with
                                  | OutMessageNumber _ => False
                                  | _ => True
                                  end) (analyze which (value m))).
      { intros which.
        apply emits_impl with (P := fun ev => is_analysis_line ev = true);
          [intros []; simpl; (discriminate || exact (fun _ => I)) |].
        apply analysis_lines_analyze. }
      destruct (String.eqb (topic m) "otel.traces");
        [| destruct (String.eqb (topic m) "otel.metrics");
           [| destruct (String.eqb (topic m) "otel.logs")]].
      + apply emits_bind; [apply emits_print; exact I |].
        intros _. rewrite analyze_traces_walk. apply Hw.
      + apply emits_bind; [apply emits_print; exact I |].
        intros _. rewrite analyze_metrics_walk. apply Hw.
      + apply emits_bind; [apply emits_print; exact I |].
        intros _. rewrite analyze_logs_walk. apply Hw.
      + apply emits_ret. }
  apply He.
Qed.

(** X7.  Whatever the source, a run of the loop leaves the brokers, the
    topics and the connection of the consumer as they were and keeps the
    registered topics and their order; no count ever decreases, and a count
    grows by at most the number of messages the run counted. *)
Theorem loop_keeps_registration (src : source) :
  forall (c : Z) (self : TelemetryConsumer),
    let run := loop src c self in
    brokers (self_after run) = brokers self
    /\ topics (self_after run) = topics self
    /\ consumer (self_after run) = consumer self
    /\ Py.keys (message_counts (self_after run)) = Py.keys (message_counts self)
    /\ (forall t n, Py.lookup t (message_counts self) = Some n ->
          exists n', Py.lookup t (message_counts (self_after run)) = Some n'
                     /\ n <= n' <= n + (final_count run - c)).
Proof.
  induction src as [| p rest IH]; intros c self; simpl.
  - do 4 (split; [reflexivity |]).
    intros t n Hl. exists n. split; [exact Hl | lia].
  - assert (Hsame : forall x,
              brokers self = brokers self
              /\ topics self = topics self
              /\ consumer self = consumer self
              /\ Py.keys (message_counts self) = Py.keys (message_counts self)
              /\ (forall t n, Py.lookup t (message_counts self) = Some n ->
                    exists n', Py.lookup t (message_counts self) = Some n'
                               /\ n <= n' <= n + (x - x))).
    { intros x. do 4 (split; [reflexivity |]).
      intros t n Hl. exists n. split; [exact Hl | lia]. }
    destruct p as [r now | e |]; simpl; try apply Hsame.
    destruct (deserialize r) as [m | e]; simpl; try apply Hsame.
    destruct (Qgtb (now - start_time) (inject_Z timeout)); simpl;
      try apply Hsame.
    destruct (max_messages <=? c); simpl; try apply Hsame.
    unfold count_message.
    destruct (Py.lookup (topic m) (message_counts self)) as [cnt |] eqn:Hl;
      [| simpl; apply Hsame].
    destruct (show_and_analyze_shape dumps m)
      as (r1 & info & call & summary & Hs & _).
    rewrite Hs.
    set (self1 := set_message_counts
                    (Py.store (topic m) (cnt + 1) (message_counts self)) self).
    assert (Hkeys : Py.keys (message_counts self1) = Py.keys (message_counts self)).
    { simpl. apply store_keys with (c := cnt). exact Hl. }
    assert (Hstep : forall t n, Py.lookup t (message_counts self) = Some n ->
              exists n1, Py.lookup t (message_counts self1) = Some n1
                         /\ n <= n1 <= n + 1).
    { intros t n Ht. simpl. destruct (String.eqb_spec t (topic m)) as [-> | Hne].
      - exists (cnt + 1). rewrite lookup_store_same.
        split; [reflexivity |]. rewrite Hl in Ht. injection Ht as <-. lia.
      - exists n. rewrite lookup_store_other by exact Hne.
        split; [exact Ht | lia]. }
    destruct r1 as [[] | e]; cbv beta iota.
    + specialize (IH (c + 1) self1). cbv zeta in IH.
      destruct IH as (Hb & Htp & Hcn & Hk & Hmono).
      destruct (loop_accounting dumps max_messages timeout start_time
                  rest (c + 1) self1) as (Hle & _).
      cbn [emit_before self_after final_count].
      split; [rewrite Hb; reflexivity |].
      split; [rewrite Htp; reflexivity |].
      split; [rewrite Hcn; reflexivity |].
      split; [rewrite Hk; exact Hkeys |].
      intros t n Ht. destruct (Hstep t n Ht) as (n1 & Hn1 & Hb1).
      destruct (Hmono t n1 Hn1) as (n' & Hn' & Hb').
      exists n'. split; [exact Hn' | lia].
    + cbn [self_after final_count].
      do 4 (split; [assumption || reflexivity |]).
      intros t n Ht. destruct (Hstep t n Ht) as (n1 & Hn1 & Hb1).
      exists n1. split; [exact Hn1 | lia].
Qed.

(** X8.  The "Message #n" lines of a run number the messages it counted,
    from the running count it started with, one by one and in order: from
    the count 0 they are 1, 2, ..., up to the final count.  This holds also
    when the run is ended by an exception in the middle of a message. *)
Theorem message_numbers_consecutive (src : source) :
  forall (c : Z) (self : TelemetryConsumer),
    let run := loop src c self in
    message_numbers (emitted run)
    = numbers_after c (Z.to_nat (final_count run - c)).
Proof.
  induction src as [| p rest IH]; intros c self; simpl.
  - rewrite Z.sub_diag. reflexivity.
  - destruct p as [r now | e |]; simpl;
      try (rewrite Z.sub_diag; reflexivity).
    destruct (deserialize r) as [m | e]; simpl;
      try (rewrite Z.sub_diag; reflexivity).
    destruct (Qgtb (now - start_time) (inject_Z timeout)); simpl;
      try (rewrite Z.sub_diag; reflexivity).
    destruct (max_messages <=? c); simpl;
      try (rewrite Z.sub_diag; reflexivity).
    unfold count_message.
    destruct (Py.lookup (topic m) (message_counts self)) as [cnt |] eqn:Hl;
      [| simpl; rewrite Z.sub_diag; reflexivity].
    set (self1 := set_message_counts
                    (Py.store (topic m) (cnt + 1) (message_counts self)) self).
    assert (Hn := show_and_analyze_numbers m (c + 1) self1).
    destruct (show_and_analyze dumps m (c + 1) self1) as [[[[] | e] self2] out2];
      unfold output_of in Hn; cbn [snd] in Hn.
    + specialize (IH (c + 1) self2). cbv zeta in IH.
      destruct (loop_accounting dumps max_messages timeout start_time
                  rest (c + 1) self2) as (Hle & _).
      cbn [emit_before emitted final_count app].
      rewrite message_numbers_app, Hn, IH.
      replace (Z.to_nat (final_count (loop rest (c + 1) self2) - c))
        with (S (Z.to_nat (final_count (loop rest (c + 1) self2) - (c + 1))))
        by lia.
      rewrite numbers_after_succ. reflexivity.
    + cbn [emitted final_count app]. rewrite Hn.
      replace (c + 1 - c) with 1 by lia. reflexivity.
Qed.

End EveryRun.

(** ** The lines of one message *)

Lemma string_length_append (a b : string) :
  String.length (a ++ b)%string = (String.length a + String.length b)%nat.
Proof. induction a as [| c a IH]; simpl; congruence. Qed.

Lemma shown_value_length (value_str : string) :
  (String.length (shown_value value_str) <= 515)%nat.
Proof.
  unfold shown_value, Py.str_len.
  destruct (Z.ltb_spec 500 (Z.of_nat (String.length value_str))) as [Hlong | Hshort].
  - rewrite string_length_append, first_chars_length.
    change (String.length "... (truncated)") with 15%nat. lia.
  - lia.
Qed.

Lemma headers_loop (hs : list (hfield * hfield)) (self : TelemetryConsumer) :
  for_each hs (fun kv =>
    bind (lift (decode (fst kv))) (fun key =>
    bind (lift (decode (snd kv))) (fun val =>
    print (OutHeader key val)))) self
  = (match snd (decode_headers hs) with
     | None => Ok tt
     | Some e => Raise e
     end,
     self, map header_line (fst (decode_headers hs))).
Proof.
  induction hs as [| [k v] hs IH]; simpl.
  - reflexivity.
  - unfold bind at 1. unfold bind at 1. unfold lift at 1.
    destruct (decode k) as [key | e]; simpl; [| reflexivity].
    unfold bind at 1. unfold lift at 1.
    destruct (decode v) as [val | e]; simpl; [| reflexivity].
    rewrite IH. destruct (decode_headers hs) as [kvs err]. simpl.
    destruct err; reflexivity.
Qed.

Lemma value_lines_app (a b : list event) :
  value_lines (a ++ b) = value_lines a ++ value_lines b.
Proof.
  induction a as [| ev a IH]; simpl; [reflexivity |].
  destruct ev; simpl; rewrite ?IH; reflexivity.
Qed.

Lemma value_lines_headers (kvs : list (string * string)) :
  value_lines (map header_line kvs) = [].
Proof. induction kvs as [| kv kvs IH]; simpl; auto. Qed.

(** A timestamp that cannot be converted: line 47 raises before anything is
    printed. *)
Lemma print_message_info_unconvertible (dumps : json -> string) (m : message)
    (self : TelemetryConsumer) (e : exn) :
  shown_timestamp (timestamp m) = Raise e ->
  print_message_info dumps m self = (Raise e, self, []).
Proof.
  intros Hts. unfold print_message_info. unfold bind at 1. unfold lift at 1.
  rewrite Hts. reflexivity.
Qed.

(** The lines of [print_message_info], by the headers that decode. *)
Lemma print_message_info_eq (dumps : json -> string) (m : message)
    (self : TelemetryConsumer) (ts : option Z) :
  shown_timestamp (timestamp m) = Ok ts ->
  print_message_info dumps m self
  = (match snd (decode_headers (headers m)) with
     | None => Ok tt
     | Some e => Raise e
     end,
     self,
     [OutTopic (topic m); OutPartitionOffset (partition m) (offset m);
      OutTimestamp ts]
     ++ (match headers m with
         | [] => []
         | _ => OutHeaders :: map header_line (fst (decode_headers (headers m)))
         end)
     ++ (match snd (decode_headers (headers m)) with
         | None => if Py.truthy (value m)
                   then [OutValue (shown_value (dumps (value m)))]
                   else []
         | Some _ => []
         end)).
Proof.
  intros Hts. unfold print_message_info.
  unfold bind at 1. unfold lift at 1. rewrite Hts. cbv beta iota.
  unfold bind at 1. unfold print at 1. cbv beta iota.
  unfold bind at 1. unfold print at 1. cbv beta iota.
  unfold bind at 1. unfold print at 1. cbv beta iota.
  unfold bind at 1.
  destruct (headers m) as [| h hs] eqn:Hh.
  - simpl. destruct (Py.truthy (value m)); reflexivity.
  - unfold when at 1. unfold bind at 1. unfold print at 1. cbv beta iota.
    rewrite headers_loop.
    destruct (decode_headers (h :: hs)) as [kvs err]. cbn [fst snd].
    destruct err as [e |]; [simpl; rewrite ?app_nil_r; reflexivity |].
    destruct (Py.truthy (value m)); simpl; rewrite <- ?app_assoc;
      rewrite ?app_nil_r; reflexivity.
Qed.

Lemma decode_headers_spec (hs : list (hfield * hfield)) :
  (snd (decode_headers hs) = None -> hs = map decoded (fst (decode_headers hs)))
  /\ (snd (decode_headers hs) <> None ->
      (List.length (fst (decode_headers hs)) < List.length hs)%nat).
Proof.
  induction hs as [| [k v] hs [IH1 IH2]]; simpl.
  - split; [reflexivity | congruence].
  - destruct k as [ks | e]; simpl; [| split; [discriminate | intros _; lia]].
    destruct v as [vs | e]; simpl; [| split; [discriminate | intros _; lia]].
    destruct (decode_headers hs) as [l err]. simpl in *. split.
    + intros H. rewrite <- (IH1 H). reflexivity.
    + intros H. specialize (IH2 H). lia.
Qed.

(** X9.  [print_message_info] first converts the timestamp: a timestamp
    that is absent or 0 is shown as N/A without conversion, and one that
    [datetime.fromtimestamp] cannot convert raises its exception before any
    line is printed.  Otherwise it prints the topic, the partition and
    offset and the timestamp; then, when there are headers, the headers
    title and one line per header up to the first header whose key or value
    fails to decode.  Such a header raises its exception at once: the
    headers after it and the value are not shown.  When the timestamp
    converts and every header decodes, nothing is raised and the value line
    follows if the value is truthy.  The object is left as it was. *)
Theorem print_message_info_lines (dumps : json -> string) (m : message)
    (self : TelemetryConsumer) :
  let run := print_message_info dumps m self in
  let kvs := fst (decode_headers (headers m)) in
  let err := snd (decode_headers (headers m)) in
  object_of run = self
  /\ (timestamp m = None -> shown_timestamp (timestamp m) = Ok None)
  /\ (forall s, timestamp m = Some s -> millis s = 0 ->
        shown_timestamp (timestamp m) = Ok None)
  /\ (forall ms, timestamp m = Some (Converts ms) -> ms <> 0 ->
        shown_timestamp (timestamp m) = Ok (Some ms))
  /\ (forall ms e, timestamp m = Some (ConvertRaises ms e) -> ms <> 0 ->
        run = (Raise e, self, []))
  /\ (forall e, shown_timestamp (timestamp m) = Raise e ->
        run = (Raise e, self, []))
  /\ (forall ts, shown_timestamp (timestamp m) = Ok ts ->
        (forall e, result_of run = Raise e <-> err = Some e)
        /\ (result_of run = Ok tt <-> err = None)
        /\ exists rest,
             output_of run
             = OutTopic (topic m) :: OutPartitionOffset (partition m) (offset m)
               :: OutTimestamp ts :: rest
             /\ (headers m = [] ->
                 rest = if Py.truthy (value m)
                        then [OutValue (shown_value (dumps (value m)))] else [])
             /\ (headers m <> [] -> err = None ->
                 headers m = map decoded kvs
                 /\ rest = OutHeaders :: map header_line kvs
                           ++ (if Py.truthy (value m)
                               then [OutValue (shown_value (dumps (value m)))]
                               else []))
             /\ (err <> None ->
                 rest = OutHeaders :: map header_line kvs
                 /\ (List.length kvs < List.length (headers m))%nat
                 /\ value_lines (output_of run) = [])).
Proof.
  intros run kvs err. subst run kvs err.
  assert (Hobj : object_of (print_message_info dumps m self) = self).
  { destruct (stateless_print_message_info dumps m) as (r & out & H).
    rewrite H. reflexivity. }
  split; [exact Hobj |].
  split; [intros ->; reflexivity |].
  split; [intros s -> Hz; simpl; rewrite Hz; reflexivity |].
  split.
  { intros ms -> Hms. simpl.
    destruct (Z.eqb_spec ms 0); [contradiction | reflexivity]. }
  split.
  { intros ms e Ht Hms. apply print_message_info_unconvertible.
    rewrite Ht. simpl. destruct (Z.eqb_spec ms 0); [contradiction | reflexivity]. }
  split; [intros e He; apply print_message_info_unconvertible; exact He |].
  intros ts Hts.
  rewrite (print_message_info_eq dumps m self ts Hts).
  unfold result_of, output_of. cbn [fst snd].
  split; [destruct (snd (decode_headers (headers m))); split; congruence |].
  split; [destruct (snd (decode_headers (headers m))); split; congruence |].
  eexists. split; [reflexivity |].
  destruct (headers m) as [| h hs] eqn:Hh.
  - simpl. split; [reflexivity |]. split; [congruence |]. congruence.
  - destruct (decode_headers_spec (h :: hs)) as [Hd1 Hd2].
    destruct (snd (decode_headers (h :: hs))) as [e |].
    + split; [discriminate |]. split; [discriminate |]. intros _.
      split; [rewrite app_nil_r; reflexivity |].
      split; [apply Hd2; discriminate |].
      cbn [app value_lines]. rewrite app_nil_r. apply value_lines_headers.
    + split; [discriminate |]. split; [| congruence]. intros _ _.
      split; [apply Hd1; reflexivity | reflexivity].
Qed.

(** In the loop, a record whose timestamp cannot be converted is counted,
    then [print_message_info] raises before its first line: the message is
    not analysed and the loop ends on the exception. *)
Lemma unconvertible_timestamp_ends_loop :
  let late := mkRecord "otel.traces" 0 7
                (Some (ConvertRaises 253402300800000000 ValueError)) []
                (WJson (JObj [("resourceSpans", JArr [])])) in
  let self := init KAFKA_BROKERS TOPICS in
  let run := for_message example_dumps 10 30 0 [Fetch late 1; Exhausted] 0 self in
  accepts example_dumps self late = false
  /\ exit run = Raised ValueError
  /\ final_count run = 1
  /\ total_of (self_after run) = 1
  /\ emitted run = [OutRule true; OutMessageNumber 1].
Proof.
  intros late self run. repeat split; reflexivity.
Qed.

(** X10.  The value line is the rendering of the value, cut after 500
    characters and marked as truncated when it is longer: it never exceeds
    515 characters, it is the rendering itself up to 500 characters, and it
    starts with the first 500 characters of the rendering otherwise.  At
    most one value line is printed for a message, and none for a falsy
    value. *)
Theorem value_line_is_truncated (dumps : json -> string) (m : message)
    (self : TelemetryConsumer) :
  let shown := value_lines (output_of (print_message_info dumps m self)) in
  let value_str := dumps (value m) in
  (List.length shown <= 1)%nat
  /\ Forall (fun s => (String.length s <= 515)%nat) shown
  /\ (Py.truthy (value m) = false -> shown = [])
  /\ (forall s, In s shown ->
        ((String.length value_str <= 500)%nat -> s = value_str)
        /\ ((500 < String.length value_str)%nat ->
            s = (String.substring 0 500 value_str ++ "... (truncated)")%string
            /\ String.length s = 515%nat
            /\ String.prefix (String.substring 0 500 value_str) s = true)).
Proof.
  intros shown value_str. subst shown.
  destruct (shown_timestamp (timestamp m)) as [ts | e0] eqn:Hts.
  2: { rewrite (print_message_info_unconvertible dumps m self e0 Hts).
       unfold output_of. simpl.
       split; [lia |]. split; [constructor |]. split; [reflexivity |].
       intros s0 []. }
  rewrite (print_message_info_eq dumps m self ts Hts).
  unfold output_of. cbn [snd].
  rewrite !value_lines_app.
  assert (Hh : value_lines
                 (match headers m with
                  | [] => []
                  | _ :: _ =>
                      OutHeaders
                      :: map header_line (fst (decode_headers (headers m)))
                  end) = []).
  { destruct (headers m); [reflexivity |]. simpl. apply value_lines_headers. }
  rewrite Hh. cbn [value_lines app].
  assert (Hshown : forall s,
            s = shown_value value_str ->
            ((String.length value_str <= 500)%nat -> s = value_str)
            /\ ((500 < String.length value_str)%nat ->
                s = (String.substring 0 500 value_str ++ "... (truncated)")%string
                /\ String.length s = 515%nat
                /\ String.prefix (String.substring 0 500 value_str) s = true)).
  { intros s ->. unfold shown_value, Py.str_len.
    destruct (Z.ltb_spec 500 (Z.of_nat (String.length value_str)))
      as [Hlong | Hshort]; split; intros H; try lia; try reflexivity.
    split; [reflexivity |]. split.
    - rewrite string_length_append, first_chars_length.
      change (String.length "... (truncated)") with 15%nat. lia.
    - apply String.prefix_correct.
      generalize (String.substring 0 500 value_str). intros p.
      induction p as [| c p IH]; simpl; [reflexivity | rewrite IH; reflexivity]. }
  destruct (snd (decode_headers (headers m))) as [e |].
  - simpl. split; [lia |]. split; [constructor |]. split; [reflexivity |].
    intros s0 [].
  - destruct (Py.truthy (value m)); simpl.
    + split; [lia |]. split; [constructor; [apply shown_value_length | constructor] |].
      split; [discriminate |].
      intros s0 [<- | []]. apply Hshown. reflexivity.
    + split; [lia |]. split; [constructor |]. split; [reflexivity |].
      intros s0 [].
Qed.

(** ** The two bounds on one record *)

Lemma Qgtb_spec (a b : Q) : Qgtb a b = true <-> (b < a)%Q.
Proof.
  split; [| apply Qgtb_true].
  unfold Qgtb. destruct (Qle_bool a b) eqn:E; [discriminate |].
  intros _. apply Qnot_le_lt. intros H. apply Qle_bool_iff in H. congruence.
Qed.

(** X11.  A record that would pass through the body of the loop is counted
    exactly when the clock read after its fetch is at most [timeout] past
    the start and the running count is below [max_messages]: a record
    arriving exactly at the timeout is still counted, a record arriving when
    the count has reached [max_messages] is not. *)
Theorem counted_iff_within_bounds (dumps : json -> string)
    (max_messages timeout : Z) (start_time : Q) (r : record wire) (now : Q)
    (rest : source) (c : Z) (self : TelemetryConsumer) :
  accepts dumps self r = true ->
  let run := for_message dumps max_messages timeout start_time
                         (Fetch r now :: rest) c self in
  (c < final_count run <->
   (now - start_time <= inject_Z timeout)%Q /\ c < max_messages)
  /\ (final_count run = c \/ c + 1 <= final_count run).
Proof.
  intros Hacc run.
  destruct (Qgtb (now - start_time) (inject_Z timeout)) eqn:Hq.
  - assert (Hlate := proj1 (Qgtb_spec _ _) Hq).
    assert (E : final_count run = c).
    { subst run. simpl. unfold accepts in Hacc.
      destruct (deserialize r); [| discriminate]. rewrite Hq. reflexivity. }
    rewrite E. split; [| left; reflexivity].
    split; [lia |]. intros [Hin _]. exfalso. exact (Qlt_not_le _ _ Hlate Hin).
  - assert (Hin : in_time timeout start_time now).
    { unfold in_time. apply Qnot_lt_le. intros H.
      apply Qgtb_true in H. congruence. }
    destruct (Z.ltb_spec c max_messages) as [Hlt | Hge].
    + destruct (loop_accepts dumps max_messages timeout start_time r now rest
                  c self Hacc Hin Hlt) as (out & Hstep & _).
      destruct (loop_accounting dumps max_messages timeout start_time rest
                  (c + 1)
                  (set_message_counts (bump (topic r) (message_counts self)) self))
        as (Hle & _).
      subst run. rewrite Hstep. cbn [emit_before final_count].
      split; [| right; exact Hle].
      split; [intros _; split; [exact Hin | exact Hlt] | intros _; lia].
    + assert (E : final_count run = c).
      { subst run. simpl. unfold accepts in Hacc.
        destruct (deserialize r); [| discriminate]. rewrite Hq.
        replace (max_messages <=? c) with true by (symmetry; apply Z.leb_le; lia).
        reflexivity. }
      rewrite E. split; [| left; reflexivity].
      split; [lia |]. intros [_ Hlt]. lia.
Qed.

(** ** The metric and log analyzers *)

Lemma container_members_ok (k : string) (p : json -> bool) (v : json) :
  container_ok k p v = true -> forallb p (container k v) = true.
Proof.
  unfold container_ok, container. destruct v; try discriminate.
  destruct (Py.lookup k kvs) as [[] |]; try discriminate; auto.
Qed.

Lemma records_ok (which : analyzer) (data : json) :
  well_shaped which data = true ->
  Forall (fun rec => record_ok which rec = true) (records_of which data).
Proof.
  unfold well_shaped, records_of. intros H.
  apply container_members_ok in H. rewrite forallb_forall in H.
  apply Forall_forall. intros rec Hin.
  apply in_flat_map in Hin. destruct Hin as (group & Hg & Hin).
  apply in_flat_map in Hin. destruct Hin as (scope & Hs & Hin).
  specialize (H group Hg). apply container_members_ok in H.
  rewrite forallb_forall in H. specialize (H scope Hs).
  apply container_members_ok in H. rewrite forallb_forall in H. auto.
Qed.

(** X12.  On a log payload of the wire format [analyze_logs] raises
    nothing, reports as many log records as the payload holds over all its
    groups, and prints one line per record, in order: the severity text, or
    "Unknown", and the string value of the body, or "No message" when the
    body or its string value is absent, cut to its first 50 characters. *)
Theorem log_summary_lines (data : json) (self : TelemetryConsumer) :
  well_shaped Logs data = true ->
  let run := analyze_logs data self in
  result_of run = Ok tt
  /\ object_of run = self
  /\ reported_count Logs (output_of run)
     = Z.of_nat (List.length (records_of Logs data))
  /\ record_lines Logs (output_of run)
     = map (fun rec =>
              OutLogRecord
                (field_or "severityText" (JStr "Unknown") rec)
                (first_chars 50
                   (field_or "stringValue" (JStr "No message")
                      (field_or "body" (JObj []) rec))))
           (records_of Logs data)
  /\ Forall (fun ev => exists severity body,
                 ev = OutLogRecord severity (JStr body)
                 /\ (String.length body <= 50)%nat)
            (record_lines Logs (output_of run)).
Proof.
  intros Hshape run. subst run.
  rewrite analyze_logs_walk, (analyze_ok Logs data self Hshape).
  unfold result_of, object_of, output_of. cbn [fst snd].
  split; [reflexivity |]. split; [reflexivity |].
  split; [apply envelope_lines_count |].
  rewrite envelope_lines_records.
  split; [reflexivity |].
  apply Forall_forall. intros ev Hin. apply in_map_iff in Hin.
  destruct Hin as (rec & <- & Hrec).
  assert (Hok := records_ok Logs data Hshape).
  rewrite Forall_forall in Hok. specialize (Hok rec Hrec). simpl in Hok.
  destruct rec as [| | | | | xs | kvs]; try discriminate. simpl.
  destruct (Py.lookup "body" kvs) as [body |]; simpl.
  - destruct body as [| | | | | ys | bkvs]; try discriminate. simpl in *.
    destruct (Py.lookup "stringValue" bkvs) as [[] |]; try discriminate; simpl.
    + eexists. eexists. split; [reflexivity |].
      rewrite first_chars_length. lia.
    + eexists. eexists. split; [reflexivity |]. simpl. lia.
  - eexists. eexists. split; [reflexivity |]. simpl. lia.
Qed.

(** X13.  On a metrics payload of the wire format [analyze_metrics] raises
    nothing, reports as many metrics as the payload holds over all its
    groups, and prints one line per metric, in order, with its name, or
    "Unknown" when the metric has no name; it prints nothing else but the
    title and the "Found n metrics" lines. *)
Theorem metric_summary_lines (data : json) (self : TelemetryConsumer) :
  well_shaped Metrics data = true ->
  let run := analyze_metrics data self in
  result_of run = Ok tt
  /\ object_of run = self
  /\ reported_count Metrics (output_of run)
     = Z.of_nat (List.length (records_of Metrics data))
  /\ record_lines Metrics (output_of run)
     = map (fun rec => OutMetric (field_or "name" (JStr "Unknown") rec))
           (records_of Metrics data)
  /\ Forall (fun ev => match ev with
                       | OutMetricsAnalysis | OutFoundMetrics _ | OutMetric _ => True
                       | _ => False
                       end) (output_of run).
Proof.
  intros Hshape run. subst run.
  rewrite analyze_metrics_walk, (analyze_ok Metrics data self Hshape).
  unfold result_of, object_of, output_of. cbn [fst snd].
  split; [reflexivity |]. split; [reflexivity |].
  split; [apply envelope_lines_count |].
  split; [apply envelope_lines_records |].
  unfold envelope_lines.
  destruct (Py.contains (resource_key Metrics) data) as [[|] | e];
    try constructor; [exact I |].
  apply Forall_forall. intros ev Hin.
  apply in_flat_map in Hin. destruct Hin as (group & _ & Hin).
  unfold resource_lines in Hin.
  apply in_flat_map in Hin. destruct Hin as (scope & _ & Hin).
  unfold scope_lines in Hin. destruct scope; try contradiction.
  destruct (Py.lookup (record_key Metrics) kvs) as [[] |]; try contradiction.
  destruct Hin as [<- | Hin]; [exact I |].
  apply in_map_iff in Hin. destruct Hin as (rec & <- & _). exact I.
Qed.

(** ** Payloads that are no envelopes *)

(** X14.  A payload that is a sequence or a string is not rejected as
    such.  On a list the analyzer looks for its resource key among the
    elements, on a string for the key as a substring: when the key is not
    found the payload is taken as an envelope without groups, silently, and
    when it is found the title is printed and the subscript that follows
    raises TypeError.  The consumer is left as it was. *)
Theorem sequence_payload_is_searched (which : analyzer) (self : TelemetryConsumer) :
  (forall xs,
     analyzer_of which (JArr xs) self
     = if existsb (Py.is_str (resource_key which)) xs
       then (Raise TypeError, self, [title_of which])
       else (Ok tt, self, []))
  /\ (forall s,
        analyzer_of which (JStr s) self
        = if Py.substringb (resource_key which) s
          then (Raise TypeError, self, [title_of which])
          else (Ok tt, self, [])).
Proof.
  split.
  - intros xs. rewrite analyzer_of_walk. unfold analyze, bind, lift. simpl.
    destruct (existsb (Py.is_str (resource_key which)) xs); reflexivity.
  - intros s. rewrite analyzer_of_walk. unfold analyze, bind, lift.
    cbn [Py.contains].
    destruct (Py.substringb (resource_key which) s); reflexivity.
Qed.

Lemma for_each_raises {A : Type} (good : list A) (bad : A) (rest : list A)
    (body : A -> M unit) (f : A -> list event) (e : exn) (out : list event)
    (self : TelemetryConsumer) :
  (forall x, In x good -> body x self = (Ok tt, self, f x)) ->
  body bad self = (Raise e, self, out) ->
  for_each (good ++ bad :: rest) body self
  = (Raise e, self, flat_map f good ++ out).
Proof.
  intros Hgood Hbad. induction good as [| x good IH]; simpl.
  - unfold bind. rewrite Hbad. reflexivity.
  - unfold bind. rewrite (Hgood x (or_introl eq_refl)).
    rewrite IH by (intros y Hy; apply Hgood; right; exact Hy).
    rewrite app_assoc. reflexivity.
Qed.

(** X15.  An analysis stops at the first resource group it cannot read:
    when the groups before it are of the wire format and the group itself is
    null, a boolean or a number, the analyzer raises TypeError after the
    lines of the groups before it, and the groups after it are never looked
    at, whatever they are. *)
Theorem analysis_stops_at_bad_group (which : analyzer)
    (kvs : list (string * json)) (good : list json) (bad : json)
    (rest : list json) (self : TelemetryConsumer) :
  Py.lookup (resource_key which) kvs = Some (JArr (good ++ bad :: rest)) ->
  forallb (container_ok (scope_key which)
             (container_ok (record_key which) (record_ok which))) good = true ->
  is_scalar bad = true ->
  analyzer_of which (JObj kvs) self
  = (Raise TypeError, self,
     title_of which :: flat_map (resource_lines which) good).
Proof.
  intros Hl Hgood Hbad. rewrite analyzer_of_walk.
  unfold analyze, bind, lift. cbn [Py.contains Py.getitem]. rewrite Hl.
  cbn [when print Py.iter].
  rewrite for_each_raises
    with (f := resource_lines which) (e := TypeError) (out := []).
  - rewrite app_nil_r. reflexivity.
  - intros x Hx. apply resource_body_ok.
    rewrite forallb_forall in Hgood. auto.
  - unfold resource_body, bind, lift. destruct bad; try discriminate; reflexivity.
Qed.

(** ** The session and the script *)

Lemma show_and_analyze_never_disconnects (dumps : json -> string)
    (m : message) (n : Z) :
  emits (fun ev => ev <> OutDisconnected) (show_and_analyze dumps m n).
Proof.
  unfold show_and_analyze.
  apply emits_bind; [apply emits_print; discriminate | intros _].
  apply emits_bind; [apply emits_print; discriminate | intros _].
  apply emits_bind.
  - apply emits_impl with (P := fun ev => is_info_line ev = true);
      [intros ev Hev ->; discriminate Hev |].
    apply info_lines_print_message_info.
  - intros _. unfold dispatch. apply emits_when.
    assert (Hw : forall which,
               emits (fun ev => ev <> OutDisconnected) (analyze which (value m))).
    { intros which.
      apply emits_impl with (P := fun ev => is_analysis_line ev = true);
        [intros ev Hev ->; discriminate Hev |].
      apply analysis_lines_analyze. }
    destruct (String.eqb (topic m) "otel.traces");
      [| destruct (String.eqb (topic m) "otel.metrics");
         [| destruct (String.eqb (topic m) "otel.logs")]].
    + apply emits_bind; [apply emits_print; discriminate |].
      intros _. rewrite analyze_traces_walk. apply Hw.
    + apply emits_bind; [apply emits_print; discriminate |].
      intros _. rewrite analyze_metrics_walk. apply Hw.
    + apply emits_bind; [apply emits_print; discriminate |].
      intros _. rewrite analyze_logs_walk. apply Hw.
    + apply emits_ret.
Qed.

Lemma loop_never_disconnects (dumps : json -> string)
    (max_messages timeout : Z) (start_time : Q) (src : source) :
  forall (c : Z) (self : TelemetryConsumer),
    Forall (fun ev => ev <> OutDisconnected)
           (emitted (for_message dumps max_messages timeout start_time
                                 src c self)).
Proof.
  induction src as [| p rest IH]; intros c self; simpl.
  - constructor.
  - destruct p as [r now | e |]; simpl; try constructor.
    destruct (deserialize r) as [m | e]; simpl; try constructor.
    destruct (Qgtb (now - start_time) (inject_Z timeout)); simpl;
      [repeat constructor; discriminate |].
    destruct (max_messages <=? c); simpl;
      [repeat constructor; discriminate |].
    unfold count_message.
    destruct (Py.lookup (topic m) (message_counts self)) as [cnt |];
      simpl; try constructor.
    assert (Hlines := show_and_analyze_never_disconnects dumps m (c + 1)
              (set_message_counts
                 (Py.store (topic m) (cnt + 1) (message_counts self)) self)).
    destruct (show_and_analyze dumps m (c + 1) _) as [[[[] | e] self2] out2];
      unfold output_of in Hlines; cbn [snd] in Hlines.
    + cbn [emit_before emitted app]. apply Forall_app. split; [exact Hlines |].
      apply IH.
    + exact Hlines.
Qed.

Lemma consume_messages_hangs (dumps : json -> string)
    (max_messages timeout : Z) (start_time : Q) (src : source)
    (self : TelemetryConsumer) :
  consumer self = Some src ->
  let run := for_message dumps max_messages timeout start_time src 0 self in
  exit run = NeverReturns ->
  consume_messages dumps max_messages timeout start_time self
  = (Hangs, set_consumer (Some (remaining run)) (self_after run),
     [OutConsuming max_messages timeout; OutPressCtrlC] ++ emitted run).
Proof.
  intros Hc run Hexit. unfold consume_messages. rewrite Hc. cbv zeta.
  fold run. rewrite Hexit. reflexivity.
Qed.

Lemma session_left (dumps : json -> string)
    (max_messages timeout : Z) (start_time : Q) (src : source) :
  let self1 := connected (init KAFKA_BROKERS TOPICS) src in
  let run := for_message dumps max_messages timeout start_time src 0 self1 in
  let self2 := set_consumer (Some (remaining run)) (self_after run) in
  exit run <> NeverReturns ->
  session dumps (Ok src) max_messages timeout start_time
  = (fst (handlers (exit run)), self2,
     (OutConnected KAFKA_BROKERS
      :: [OutConsuming max_messages timeout; OutPressCtrlC]
      ++ emitted run ++ snd (handlers (exit run)))
     ++ output_of (print_summary self2) ++ [OutDisconnected]).
Proof.
  intros self1 run self2 Hexit.
  assert (Hh : fst (handlers (exit run)) <> Hangs).
  { intros H. apply handlers_hang in H. contradiction. }
  assert (Hconn : connect (Ok src) (init KAFKA_BROKERS TOPICS)
                  = (Ok true, self1, [OutConnected KAFKA_BROKERS])) by reflexivity.
  unfold session. rewrite Hconn.
  rewrite (consume_messages_connected dumps max_messages timeout start_time
             src self1 eq_refl Hh).
  fold run. fold self2.
  assert (Hclose : close self2 = (Ok tt, self2, [OutDisconnected]))
    by reflexivity.
  generalize dependent (output_of (print_summary self2)). intros summary.
  destruct (fst (handlers (exit run))) eqn:Hc; try congruence;
    rewrite Hclose; cbn [app]; repeat rewrite <- app_assoc; reflexivity.
Qed.

(** X16.  When the connection succeeds and the loop is left, the session
    closes the consumer after the report: its lines end with the summary
    followed by the disconnected line, it ends as [consume_messages] ended,
    and the counts are those the loop reached.  When the loop is never left
    the consumer is never closed. *)
Theorem session_closes_after_report (dumps : json -> string)
    (max_messages timeout : Z) (start_time : Q) (src : source) :
  let self1 := connected (init KAFKA_BROKERS TOPICS) src in
  let run := for_message dumps max_messages timeout start_time src 0 self1 in
  let self2 := set_consumer (Some (remaining run)) (self_after run) in
  (exit run <> NeverReturns ->
   exists before,
     session dumps (Ok src) max_messages timeout start_time
     = (fst (handlers (exit run)), self2,
        before ++ output_of (print_summary self2) ++ [OutDisconnected])
     /\ fst (handlers (exit run)) <> Hangs
     /\ total_of self2 = final_count run)
  /\ (exit run = NeverReturns ->
      fst (fst (session dumps (Ok src) max_messages timeout start_time)) = Hangs
      /\ ~ In OutDisconnected
              (snd (session dumps (Ok src) max_messages timeout start_time))).
Proof.
  intros self1 run self2.
  assert (Hconn : connect (Ok src) (init KAFKA_BROKERS TOPICS)
                  = (Ok true, self1, [OutConnected KAFKA_BROKERS])) by reflexivity.
  split.
  - intros Hexit.
    assert (Hh : fst (handlers (exit run)) <> Hangs).
    { intros H. apply handlers_hang in H. contradiction. }
    exists (OutConnected KAFKA_BROKERS
            :: [OutConsuming max_messages timeout; OutPressCtrlC]
            ++ emitted run ++ snd (handlers (exit run))).
    split; [| split; [exact Hh |]].
    + apply session_left. exact Hexit.
    + destruct (loop_accounting dumps max_messages timeout start_time src 0 self1)
        as (_ & Ht & _).
      fold run in Ht.
      assert (H0 : total_of self1 = 0) by reflexivity.
      change (total_of self2) with (total_of (self_after run)). lia.
  - intros Hexit. unfold session. rewrite Hconn.
    rewrite (consume_messages_hangs dumps max_messages timeout start_time
               src self1 eq_refl Hexit).
    fold run. cbn [fst snd]. split; [reflexivity |].
    intros Hin. cbn [app] in Hin.
    destruct Hin as [H | [H | [H | Hin]]]; try discriminate.
    assert (Hnone := loop_never_disconnects dumps max_messages timeout
                       start_time src 0 self1).
    fold run in Hnone. rewrite Forall_forall in Hnone.
    exact (Hnone _ Hin eq_refl).
Qed.

Lemma consumer_lines_from (out : list event) :
  consumer_lines (map FromConsumer out) = out.
Proof. induction out as [| ev out IH]; simpl; congruence. Qed.

Lemma parse_arg_none (int_of : string -> option Z) (argv : list string)
    (i : nat) (default : Z) :
  parse_arg int_of argv i default = None
  <-> exists s, nth_error argv i = Some s /\ int_of s = None.
Proof.
  unfold parse_arg. destruct (nth_error argv i) as [s |].
  - split; [intros H; exists s; auto | intros (s' & [= <-] & H); exact H].
  - split; [discriminate | intros (s' & H & _); discriminate].
Qed.

Lemma main_with_arguments (int_of : string -> option Z) (dumps : json -> string)
    (argv : list string) (attempt : outcome source) (start_time : Q)
    (max_messages timeout : Z) :
  parse_arg int_of argv 1 10 = Some max_messages ->
  parse_arg int_of argv 2 30 = Some timeout ->
  main int_of dumps argv attempt start_time
  = (of_completion
       (fst (fst (session dumps attempt max_messages timeout start_time))),
     [MainTitle; MainRule; MainConfiguration; MainBrokers KAFKA_BROKERS;
      MainTopics TOPICS; MainMaxMessages max_messages; MainTimeout timeout]
     ++ map FromConsumer
          (snd (session dumps attempt max_messages timeout start_time))).
Proof.
  intros H1 H2. unfold main. rewrite H1, H2.
  destruct (session dumps attempt max_messages timeout start_time)
    as [[c self] out].
  reflexivity.
Qed.

(** X17.  The script exits through [sys.exit] exactly when an argument that
    is present is not an integer, and then with status 1: the first
    argument is read first and ends the script with the max_messages error
    line, otherwise the second one ends it with the timeout error line.  In
    both cases no consumer is built: no line of the consumer is printed.
    Arguments after the second are not read. *)
Theorem main_exits_on_invalid_argument (int_of : string -> option Z)
    (dumps : json -> string) (argv : list string) (attempt : outcome source)
    (start_time : Q) :
  let r := main int_of dumps argv attempt start_time in
  let invalid := fun i =>
    exists s, nth_error argv i = Some s /\ int_of s = None in
  (forall status, fst r = MainExits status <->
                  status = 1 /\ (invalid 1%nat \/ invalid 2%nat))
  /\ (invalid 1%nat -> r = (MainExits 1, [MainTitle; MainRule; MainInvalidMaxMessages]))
  /\ (~ invalid 1%nat -> invalid 2%nat ->
      r = (MainExits 1, [MainTitle; MainRule; MainInvalidTimeout]))
  /\ (invalid 1%nat \/ invalid 2%nat -> consumer_lines (snd r) = [])
  /\ (forall more,
        (3 <= List.length argv)%nat ->
        main int_of dumps (argv ++ more) attempt start_time = r).
Proof.
  intros r invalid.
  assert (H1 := parse_arg_none int_of argv 1 10).
  assert (H2 := parse_arg_none int_of argv 2 30).
  fold (invalid 1%nat) in H1. fold (invalid 2%nat) in H2.
  assert (Hr1 : invalid 1%nat ->
                r = (MainExits 1, [MainTitle; MainRule; MainInvalidMaxMessages])).
  { intros Hi. subst r. unfold main. rewrite (proj2 H1 Hi). reflexivity. }
  assert (Hr2 : ~ invalid 1%nat -> invalid 2%nat ->
                r = (MainExits 1, [MainTitle; MainRule; MainInvalidTimeout])).
  { intros Hn Hi. subst r. unfold main.
    destruct (parse_arg int_of argv 1 10) as [max_messages |] eqn:E1;
      [| exfalso; apply Hn, H1; reflexivity].
    rewrite (proj2 H2 Hi). reflexivity. }
  split; [| split; [exact Hr1 | split; [exact Hr2 | split]]].
  - intros status. split.
    + subst r. unfold main.
      destruct (parse_arg int_of argv 1 10) as [max_messages |] eqn:E1.
      * destruct (parse_arg int_of argv 2 30) as [timeout |] eqn:E2.
        -- destruct (session dumps attempt max_messages timeout start_time)
             as [[[| e |] self] out]; discriminate.
        -- intros [= <-]. split; [reflexivity |]. right. apply H2. reflexivity.
      * intros [= <-]. split; [reflexivity |]. left. apply H1. reflexivity.
    + intros [-> Hinv].
      destruct (parse_arg int_of argv 1 10) as [max_messages |] eqn:E1.
      * destruct Hinv as [Hi | Hi]; [apply H1 in Hi; discriminate |].
        rewrite Hr2; [reflexivity | | exact Hi].
        intros Hi1. apply H1 in Hi1. discriminate.
      * rewrite Hr1; [reflexivity | apply H1; reflexivity].
  - intros Hinv.
    destruct (parse_arg int_of argv 1 10) as [max_messages |] eqn:E1.
    + destruct Hinv as [Hi | Hi]; [apply H1 in Hi; discriminate |].
      rewrite Hr2; [reflexivity | | exact Hi].
      intros Hi1. apply H1 in Hi1. discriminate.
    + rewrite Hr1; [reflexivity | apply H1; reflexivity].
  - intros more Hlen. subst r. unfold main, parse_arg.
    rewrite !nth_error_app1 by lia. reflexivity.
Qed.

(** X18.  With arguments that are integers or absent, a connection that
    succeeds and a loop that stops for one of the five stop reasons, the
    script returns normally, whether or not a message was counted: it
    consumes with the given bounds, 10 messages and 30 seconds being the
    defaults of absent arguments, and its consumer lines end with the
    summary followed by the disconnected line. *)
Theorem main_completes_normally (int_of : string -> option Z)
    (dumps : json -> string) (argv : list string) (src : source)
    (start_time : Q) (max_messages timeout : Z) :
  parse_arg int_of argv 1 10 = Some max_messages ->
  parse_arg int_of argv 2 30 = Some timeout ->
  let self1 := connected (init KAFKA_BROKERS TOPICS) src in
  let run := for_message dumps max_messages timeout start_time src 0 self1 in
  let self2 := set_consumer (Some (remaining run)) (self_after run) in
  stop_reason_of (exit run) <> None ->
  let r := main int_of dumps argv (Ok src) start_time in
  fst r = MainReturns
  /\ (exists before,
        consumer_lines (snd r)
        = before ++ output_of (print_summary self2) ++ [OutDisconnected])
  /\ In (OutTotal (final_count run)) (consumer_lines (snd r))
  /\ In (MainMaxMessages max_messages) (snd r)
  /\ In (MainTimeout timeout) (snd r)
  /\ (nth_error argv 1 = None -> max_messages = 10)
  /\ (nth_error argv 2 = None -> timeout = 30).
Proof.
  intros H1 H2 self1 run self2 Hstop r.
  assert (Hexit : exit run <> NeverReturns).
  { intros H. rewrite H in Hstop. apply Hstop. reflexivity. }
  assert (Hs := session_left dumps max_messages timeout start_time src Hexit).
  fold self1 in Hs. fold run in Hs. fold self2 in Hs.
  assert (Er : r = (of_completion (fst (handlers (exit run))),
                    [MainTitle; MainRule; MainConfiguration;
                     MainBrokers KAFKA_BROKERS; MainTopics TOPICS;
                     MainMaxMessages max_messages; MainTimeout timeout]
                    ++ map FromConsumer
                         ((OutConnected KAFKA_BROKERS
                           :: [OutConsuming max_messages timeout; OutPressCtrlC]
                           ++ emitted run ++ snd (handlers (exit run)))
                          ++ output_of (print_summary self2)
                          ++ [OutDisconnected]))).
  { subst r. rewrite (main_with_arguments int_of dumps argv (Ok src) start_time
                        max_messages timeout H1 H2), Hs. reflexivity. }
  assert (Hlines : consumer_lines (snd r)
                   = (OutConnected KAFKA_BROKERS
                      :: [OutConsuming max_messages timeout; OutPressCtrlC]
                      ++ emitted run ++ snd (handlers (exit run)))
                     ++ output_of (print_summary self2) ++ [OutDisconnected]).
  { rewrite Er. cbn [snd app consumer_lines]. apply consumer_lines_from. }
  assert (Htot : total_of self2 = final_count run).
  { destruct (loop_accounting dumps max_messages timeout start_time src 0 self1)
      as (_ & Ht & _).
    fold run in Ht.
    assert (H0 : total_of self1 = 0) by reflexivity.
    change (total_of self2) with (total_of (self_after run)). lia. }
  split; [rewrite Er; cbn [fst]; rewrite (handlers_return _ Hstop); reflexivity |].
  split; [eexists; exact Hlines |].
  split.
  { rewrite Hlines. apply in_or_app. right. apply in_or_app. left.
    unfold print_summary, output_of. cbn [snd].
    rewrite <- Htot. unfold total_of. simpl. auto. }
  split; [rewrite Er; simpl; auto 10 |].
  split; [rewrite Er; simpl; auto 10 |].
  unfold parse_arg in H1, H2. split.
  - intros Hn. rewrite Hn in H1. congruence.
  - intros Hn. rewrite Hn in H2. congruence.
Qed.

(** X19.  A connection that fails is final for the script.  On a
    KafkaError [connect] prints the failure and the script returns normally
    without consuming, reporting or closing anything; any other exception of
    the constructor leaves the script, again with nothing consumed.  The
    counts stay at zero and no consumer is stored. *)
Theorem main_connection_failure (int_of : string -> option Z)
    (dumps : json -> string) (argv : list string) (e : exn) (start_time : Q)
    (max_messages timeout : Z) :
  parse_arg int_of argv 1 10 = Some max_messages ->
  parse_arg int_of argv 2 30 = Some timeout ->
  let r := main int_of dumps argv (Raise e) start_time in
  let s := session dumps (Raise e) max_messages timeout start_time in
  (e = KafkaError ->
   fst r = MainReturns /\ consumer_lines (snd r) = [OutConnectFailed KafkaError])
  /\ (e <> KafkaError ->
      fst r = MainPropagates e /\ consumer_lines (snd r) = [])
  /\ snd (fst s) = init KAFKA_BROKERS TOPICS
  /\ consumer (snd (fst s)) = None
  /\ total_of (snd (fst s)) = 0.
Proof.
  intros H1 H2 r s. subst r s.
  rewrite (main_with_arguments int_of dumps argv (Raise e) start_time
             max_messages timeout H1 H2).
  cbn [fst snd app consumer_lines]. rewrite consumer_lines_from.
  destruct e; (split; [intros He; try discriminate He; try (split; reflexivity) |]);
    (split; [intros He; try congruence; try (split; reflexivity) |]);
    repeat split; reflexivity.
Qed.

(** ** The further properties at concrete inputs *)

(** Two records accepted in time, one on the traces and one on the logs
    topic. *)
Lemma two_accepted :
  let first := example_record "otel.traces" 0
                 (WJson (JObj [("resourceSpans", JArr [])])) in
  let second := example_record "otel.logs" 0 WAbsent in
  Forall (fun rn => accepts example_dumps (init KAFKA_BROKERS TOPICS) (fst rn) = true
                    /\ in_time 30 0 (snd rn))
         [(first, 1%Q); (second, 2%Q)].
Proof.
  intros first second. repeat constructor; unfold in_time, Qle; simpl; lia.
Defined.

(** Two accepted records, then the end of the iterator. *)
Lemma exhausted_source_counts_all_witness :
  let first := example_record "otel.traces" 0
                 (WJson (JObj [("resourceSpans", JArr [])])) in
  let second := example_record "otel.logs" 0 WAbsent in
  let rs := [(first, 1%Q); (second, 2%Q)] in
  let self := init KAFKA_BROKERS TOPICS in
  let run := for_message example_dumps 10 30 0 (fetches rs ++ [Exhausted]) 0 self in
  Z.of_nat (List.length rs) <= 10
  /\ exit run = IterExhausted
  /\ final_count run = 2
  /\ Py.lookup "otel.logs" (message_counts (self_after run)) = Some 1.
Proof.
  intros first second rs self run.
  assert (Hmax : Z.of_nat (List.length rs) <= 10) by (simpl; lia).
  split; [exact Hmax |].
  destruct (exhausted_source_counts_all example_dumps 10 30 0 rs self
              two_accepted Hmax [])
    as (Hexit & _ & Hcount & _ & _ & Htopic & _).
  split; [exact Hexit |]. split; [exact Hcount |].
  exact (Htopic "otel.logs" 0 eq_refl).
Defined.

(** Two accepted records under [max_messages = 2], then a record after the
    timeout: the reason is the timeout. *)
Lemma timeout_checked_before_count_witness :
  let first := example_record "otel.traces" 0
                 (WJson (JObj [("resourceSpans", JArr [])])) in
  let second := example_record "otel.logs" 0 WAbsent in
  let rs := [(first, 1%Q); (second, 2%Q)] in
  let self := init KAFKA_BROKERS TOPICS in
  let run := for_message example_dumps 2 30 0
                         (fetches rs ++ [Fetch first 31]) 0 self in
  Z.of_nat (List.length rs) <= 2
  /\ (inject_Z 30 < 31 - 0)%Q
  /\ exit run = BreakTimeout
  /\ final_count run = 2.
Proof.
  intros first second rs self run.
  assert (Hmax : Z.of_nat (List.length rs) <= 2) by (simpl; lia).
  assert (Hlate : (inject_Z 30 < 31 - 0)%Q) by reflexivity.
  split; [exact Hmax |]. split; [exact Hlate |].
  destruct (timeout_checked_before_count example_dumps 2 30 0 rs self
              two_accepted Hmax first 31 []
              (mkRecord "otel.traces" 0 0 (Some (Converts 1700000000000)) []
                        (JObj [("resourceSpans", JArr [])]))
              eq_refl Hlate)
    as (Hexit & _ & Hcount & _).
  split; [exact Hexit | exact Hcount].
Defined.

(** Two accepted records, then a record on a topic that is not registered. *)
Lemma unknown_topic_ends_loop_witness :
  let first := example_record "otel.traces" 0
                 (WJson (JObj [("resourceSpans", JArr [])])) in
  let second := example_record "otel.logs" 0 WAbsent in
  let odd := example_record "otel.profiles" 0 WAbsent in
  let rs := [(first, 1%Q); (second, 2%Q)] in
  let self := init KAFKA_BROKERS TOPICS in
  let run := for_message example_dumps 10 30 0
                         (fetches rs ++ [Fetch odd 3; Fetch first 4]) 0 self in
  Z.of_nat (List.length rs) < 10
  /\ in_time 30 0 3
  /\ exit run = Raised KeyError
  /\ final_count run = 2
  /\ remaining run = [Fetch first 4].
Proof.
  intros first second odd rs self run.
  assert (Hlt : Z.of_nat (List.length rs) < 10) by (simpl; lia).
  assert (Hmax : Z.of_nat (List.length rs) <= 10) by (simpl; lia).
  assert (Ht : in_time 30 0 3) by (unfold in_time, Qle; simpl; lia).
  split; [exact Hlt |]. split; [exact Ht |].
  destruct (unknown_topic_ends_loop example_dumps 10 30 0 rs self
              two_accepted Hmax odd 3 [Fetch first 4]
              (mkRecord "otel.profiles" 0 0 (Some (Converts 1700000000000)) [] JNull)
              eq_refl eq_refl Ht Hlt)
    as (Hexit & _ & Hcount & Hrem & _).
  split; [exact Hexit |]. split; [exact Hcount | exact Hrem].
Defined.

(** Two accepted records, then a user interrupt. *)
Lemma source_exception_by_class_witness :
  let first := example_record "otel.traces" 0
                 (WJson (JObj [("resourceSpans", JArr [])])) in
  let second := example_record "otel.logs" 0 WAbsent in
  let rs := [(first, 1%Q); (second, 2%Q)] in
  let src := fetches rs ++ [Fails KeyboardInterrupt] in
  let self := connected (init KAFKA_BROKERS TOPICS) src in
  Z.of_nat (List.length rs) <= 10
  /\ consumer self = Some src
  /\ fst (fst (consume_messages example_dumps 10 30 0 self)) = Returned
  /\ total_of (snd (fst (consume_messages example_dumps 10 30 0 self))) = 2.
Proof.
  intros first second rs src self.
  assert (Hmax : Z.of_nat (List.length rs) <= 10) by (simpl; lia).
  assert (Hall : Forall (fun rn => accepts example_dumps self (fst rn) = true
                                   /\ in_time 30 0 (snd rn)) rs).
  { repeat constructor; unfold in_time, Qle; simpl; lia. }
  split; [exact Hmax |]. split; [reflexivity |].
  destruct (source_exception_by_class example_dumps 10 30 0 rs self
              Hall Hmax KeyboardInterrupt [] eq_refl)
    as (Hrun & Htot & _).
  split; [exact (f_equal (fun x => fst (fst x)) Hrun) |].
  exact (eq_trans (f_equal (fun x => total_of (snd (fst x))) Hrun) Htot).
Defined.

(** A record arriving exactly at the timeout is counted. *)
Lemma counted_iff_within_bounds_witness :
  let first := example_record "otel.traces" 0
                 (WJson (JObj [("resourceSpans", JArr [])])) in
  let self := init KAFKA_BROKERS TOPICS in
  let run := for_message example_dumps 10 30 0 [Fetch first 30] 0 self in
  accepts example_dumps self first = true
  /\ (0 < final_count run <-> (30 - 0 <= inject_Z 30)%Q /\ 0 < 10).
Proof.
  intros first self run. split; [reflexivity |].
  exact (proj1 (counted_iff_within_bounds example_dumps 10 30 0 first 30 []
                  0 self eq_refl)).
Defined.

(** A log payload of two records, one without a body. *)
Lemma log_summary_lines_witness :
  let data :=
    JObj [("resourceLogs",
           JArr [JObj [("scopeLogs",
                        JArr [JObj [("logRecords",
                                     JArr [JObj [("severityText", JStr "INFO");
                                                 ("body", JObj [("stringValue",
                                                                 JStr "started")])];
                                           JObj []])]])]])] in
  well_shaped Logs data = true
  /\ record_lines Logs (output_of (analyze_logs data (init [] TOPICS)))
     = [OutLogRecord (JStr "INFO") (JStr "started");
        OutLogRecord (JStr "Unknown") (JStr "No message")].
Proof.
  intros data. split; [reflexivity |].
  destruct (log_summary_lines data (init [] TOPICS) eq_refl)
    as (_ & _ & _ & Hlines & _).
  exact (eq_trans Hlines eq_refl).
Defined.

(** A metrics payload of two metrics, one without a name. *)
Lemma metric_summary_lines_witness :
  let data :=
    JObj [("resourceMetrics",
           JArr [JObj [("scopeMetrics",
                        JArr [JObj [("metrics",
                                     JArr [JObj [("name", JStr "cpu.load")];
                                           JObj []])]])]])] in
  well_shaped Metrics data = true
  /\ record_lines Metrics (output_of (analyze_metrics data (init [] TOPICS)))
     = [OutMetric (JStr "cpu.load"); OutMetric (JStr "Unknown")].
Proof.
  intros data. split; [reflexivity |].
  destruct (metric_summary_lines data (init [] TOPICS) eq_refl)
    as (_ & _ & _ & Hlines & _).
  exact (eq_trans Hlines eq_refl).
Defined.

(** One group of the wire format, then a number in place of a group. *)
Lemma analysis_stops_at_bad_group_witness :
  let good := JObj [("scopeMetrics",
                     JArr [JObj [("metrics", JArr [JObj [("name", JStr "a")]])]])] in
  let kvs := [("resourceMetrics", JArr ([good] ++ JInt 7 :: [good]))] in
  Py.lookup (resource_key Metrics) kvs = Some (JArr ([good] ++ JInt 7 :: [good]))
  /\ analyze_metrics (JObj kvs) (init [] TOPICS)
     = (Raise TypeError, init [] TOPICS,
        [OutMetricsAnalysis; OutFoundMetrics 1; OutMetric (JStr "a")]).
Proof.
  intros good kvs. split; [reflexivity |].
  exact (analysis_stops_at_bad_group Metrics kvs [good] (JInt 7) [good]
           (init [] TOPICS) eq_refl eq_refl eq_refl).
Defined.

(** The script with the arguments "5" and "60" on an exhausted source. *)
Lemma main_completes_normally_witness :
  let int_of := fun s : string =>
    if String.eqb s "5" then Some 5
    else if String.eqb s "60" then Some 60 else None in
  let argv := ["kafka-consumer-test.py"; "5"; "60"] in
  parse_arg int_of argv 1 10 = Some 5
  /\ parse_arg int_of argv 2 30 = Some 60
  /\ fst (main int_of example_dumps argv (Ok [Exhausted]) 0) = MainReturns.
Proof.
  intros int_of argv. split; [reflexivity |]. split; [reflexivity |].
  assert (Hstop : stop_reason_of
                    (exit (for_message example_dumps 5 60 0 [Exhausted] 0
                             (connected (init KAFKA_BROKERS TOPICS) [Exhausted])))
                  <> None) by discriminate.
  exact (proj1 (main_completes_normally int_of example_dumps argv [Exhausted] 0
                  5 60 eq_refl eq_refl Hstop)).
Defined.

(** The script without arguments when no broker is available. *)
Lemma main_connection_failure_witness :
  let int_of := fun _ : string => @None Z in
  let argv := ["kafka-consumer-test.py"] in
  parse_arg int_of argv 1 10 = Some 10
  /\ parse_arg int_of argv 2 30 = Some 30
  /\ fst (main int_of example_dumps argv (Raise KafkaError) 0) = MainReturns.
Proof.
  intros int_of argv. split; [reflexivity |]. split; [reflexivity |].
  destruct (main_connection_failure int_of example_dumps argv KafkaError 0
              10 30 eq_refl eq_refl) as (Hkafka & _).
  exact (proj1 (Hkafka eq_refl)).
Defined.

(** ** Which messages are analysed *)

Lemma dispatch_calls (m : message) (n : Z) (self : TelemetryConsumer) :
  call_numbers (output_of (dispatch m n self))
  = if Py.truthy (value m) && is_telemetry_topic (topic m) then [n] else [].
Proof.
  assert (Hw : forall which,
             call_numbers (output_of (analyze which (value m) self)) = []).
  { intros which. apply call_numbers_none. apply (emits_analyze which (value m) self). }
  assert (Hcall : forall which (c : M unit),
             call_numbers (output_of (c self)) = [] ->
             call_numbers
               (output_of (bind (print (CallAnalyzer which n)) (fun _ => c) self))
             = [n]).
  { intros which c Hc. rewrite output_bind_print. simpl. rewrite Hc. reflexivity. }
  unfold dispatch, is_telemetry_topic.
  destruct (Py.truthy (value m)); [| reflexivity]. cbn [when andb].
  destruct (String.eqb (topic m) "otel.traces");
    [| destruct (String.eqb (topic m) "otel.metrics");
       [| destruct (String.eqb (topic m) "otel.logs")]]; cbn [orb].
  - apply Hcall. rewrite analyze_traces_walk. apply Hw.
  - apply Hcall. rewrite analyze_metrics_walk. apply Hw.
  - apply Hcall. rewrite analyze_logs_walk. apply Hw.
  - reflexivity.
Qed.

Lemma show_and_analyze_calls (dumps : json -> string) (m : message) (n : Z)
    (self : TelemetryConsumer) :
  result_of (print_message_info dumps m self) = Ok tt ->
  call_numbers (output_of (show_and_analyze dumps m n self))
  = if Py.truthy (value m) && is_telemetry_topic (topic m) then [n] else [].
Proof.
  intros Hinfo. unfold show_and_analyze. rewrite !output_bind_print.
  cbn [call_numbers].
  destruct (stateless_print_message_info dumps m) as (r1 & info & H1).
  assert (Hi : call_numbers info = []).
  { apply call_numbers_none.
    generalize (emits_print_message_info dumps m self). rewrite H1.
    exact (fun H => H). }
  rewrite H1 in Hinfo. unfold result_of in Hinfo. cbn [fst] in Hinfo. subst r1.
  assert (Hd := dispatch_calls m n self).
  unfold bind, output_of in *. rewrite H1.
  destruct (dispatch m n self) as [[r2 self2] out2]. cbn [snd] in *.
  rewrite call_numbers_app, Hi, Hd. reflexivity.
Qed.

(** X20.  A message that the loop counts and shows is handed to an analyzer
    exactly when its value is truthy and its topic is one of the three
    telemetry topics, and then once, under its own message number: a
    message with no value, or with an empty mapping, list or string, or with
    the value 0 or false, is counted and shown but never analysed. *)
Theorem analysed_iff_truthy_on_telemetry_topic (dumps : json -> string)
    (max_messages timeout : Z) (start_time : Q) (r : record wire) (now : Q)
    (rest : source) (m : message) (c : Z) (self : TelemetryConsumer) :
  deserialize r = Ok m ->
  Py.lookup (topic m) (message_counts self) <> None ->
  result_of (print_message_info dumps m self) = Ok tt ->
  in_time timeout start_time now ->
  c < max_messages ->
  let run := for_message dumps max_messages timeout start_time
                         (Fetch r now :: rest) c self in
  c + 1 <= final_count run
  /\ In (OutMessageNumber (c + 1)) (emitted run)
  /\ (In (c + 1) (call_numbers (emitted run))
      <-> Py.truthy (value m) = true /\ is_telemetry_topic (topic m) = true)
  /\ (count_occ Z.eq_dec (call_numbers (emitted run)) (c + 1)%Z <= 1)%nat.
Proof.
  intros Hd Hreg Hinfo Ht Hlt run.
  destruct (Py.lookup (topic m) (message_counts self)) as [cnt |] eqn:Hl;
    [| congruence].
  set (self1 := set_message_counts
                  (Py.store (topic m) (cnt + 1) (message_counts self)) self).
  assert (Hinfo1 : result_of (print_message_info dumps m self1) = Ok tt).
  { destruct (stateless_print_message_info dumps m) as (r1 & info & H1).
    rewrite H1 in Hinfo |- *. exact Hinfo. }
  assert (Hcalls := show_and_analyze_calls dumps m (c + 1) self1 Hinfo1).
  assert (Hnum : In (OutMessageNumber (c + 1))
                    (output_of (show_and_analyze dumps m (c + 1) self1))).
  { unfold show_and_analyze. rewrite !output_bind_print. simpl. auto. }
  assert (Hflag : forall l : list Z,
            Forall (fun n => c + 1 < n) l ->
            (In (c + 1)
                ((if Py.truthy (value m) && is_telemetry_topic (topic m)
                  then [c + 1] else []) ++ l)
             <-> Py.truthy (value m) = true /\ is_telemetry_topic (topic m) = true)
            /\ (count_occ Z.eq_dec
                  ((if Py.truthy (value m) && is_telemetry_topic (topic m)
                    then [c + 1] else []) ++ l)%Z (c + 1)%Z <= 1)%nat).
  { intros l Hl'.
    assert (Hnot : ~ In (c + 1) l).
    { intros Hin. rewrite Forall_forall in Hl'. specialize (Hl' _ Hin). lia. }
    assert (Hzero : count_occ Z.eq_dec l (c + 1) = 0%nat)
      by (apply count_occ_not_In; exact Hnot).
    destruct (Py.truthy (value m)); destruct (is_telemetry_topic (topic m));
      simpl; rewrite ?Hzero.
    - destruct (Z.eq_dec (c + 1) (c + 1)); [| congruence].
      split; [split; auto | lia].
    - split; [split; [tauto | intros [_ H]; discriminate] | lia].
    - split; [split; [tauto | intros [H _]; discriminate] | lia].
    - split; [split; [tauto | intros [H _]; discriminate] | lia]. }
  assert (Estep : run
          = match show_and_analyze dumps m (c + 1) self1 with
            | (Raise e, self2, out2) =>
                mkLoop (Raised e) rest (c + 1) self2 ([] ++ out2)
            | (Ok _, self2, out2) =>
                emit_before ([] ++ out2)
                  (for_message dumps max_messages timeout start_time rest
                               (c + 1) self2)
            end).
  { subst run. simpl. rewrite Hd, (Qgtb_false _ _ Ht).
    replace (max_messages <=? c) with false by (symmetry; apply Z.leb_gt; lia).
    unfold count_message. rewrite Hl. reflexivity. }
  rewrite Estep. clear Estep.
  destruct (show_and_analyze dumps m (c + 1) self1) as [[[[] | e] self2] out2];
    unfold output_of in Hcalls, Hnum; cbn [snd] in Hcalls, Hnum.
  - destruct (loop_accounting dumps max_messages timeout start_time rest
                (c + 1) self2) as (Hle & _ & _ & Hall & _).
    cbn [emit_before emitted final_count app].
    rewrite call_numbers_app, Hcalls.
    split; [exact Hle |].
    split; [apply in_or_app; left; exact Hnum |].
    apply Hflag. eapply Forall_impl; [| exact Hall]. cbv beta. intros; lia.
  - cbn [emitted final_count app].
    rewrite <- (app_nil_r (call_numbers out2)), Hcalls.
    split; [lia |]. split; [exact Hnum |].
    apply Hflag. constructor.
Qed.

(** A record with an empty mapping as its value on the traces topic. *)
Lemma analysed_iff_truthy_on_telemetry_topic_witness :
  let r := example_record "otel.traces" 0 (WJson (JObj [])) in
  let self := init KAFKA_BROKERS TOPICS in
  let run := for_message example_dumps 10 30 0 [Fetch r 1] 0 self in
  in_time 30 0 1
  /\ 0 + 1 <= final_count run
  /\ ~ In (0 + 1) (call_numbers (emitted run)).
Proof.
  intros r self run.
  assert (Ht : in_time 30 0 1) by (unfold in_time, Qle; simpl; lia).
  assert (Hreg : Py.lookup "otel.traces" (message_counts self) <> None)
    by discriminate.
  split; [exact Ht |].
  destruct (analysed_iff_truthy_on_telemetry_topic example_dumps 10 30 0 r 1 []
              (mkRecord "otel.traces" 0 0 (Some (Converts 1700000000000)) [] (JObj []))
              0 self eq_refl Hreg eq_refl Ht eq_refl)
    as (Hcount & _ & Hiff & _).
  split; [exact Hcount |].
  intros Hin. apply Hiff in Hin. destruct Hin as [Htruthy _].
  discriminate Htruthy.
Defined.
